(** * owockibot SDK: a shallow embedding of the normalization layer

    The development follows the Python package [owockibot]:
    - [exceptions.py]: the error taxonomy;
    - [models.py]: the entities, their [from_dict] constructors, the derived
      [*_usdc] accessors and [_parse_timestamp];
    - [filters.py]: [BountyFilter.apply] and [sort_by_deadline];
    - [utils.py]: [usdc_to_micro] and [micro_to_usdc];
    - [client.py]: [_request] and [create_bounty].

    Python values decoded from JSON are kept dynamically typed ([json]); an
    operation applied to a value of the wrong type raises the exception the
    interpreter raises.  The behaviour of external libraries that depends on
    the host (time zone, Unicode tables, the HTTP transport) is a parameter
    of the model ([stdlib], [transport]). *)

From Stdlib Require Import ZArith List String Ascii Bool Lia QArith Floats.
From Stdlib Require Import DecimalString.
From Stdlib Require Import Permutation Sorted.
Import ListNotations.
Open Scope string_scope.
Open Scope Z_scope.

Set Implicit Arguments.

(** ** Values decoded from JSON

    [json.loads] yields [None], [bool], [int], [float], [str], [list] and
    [dict].  A [dict] keeps its insertion order, which iteration exposes, so
    it is an association list; keys are unique in a Python dict and lookup
    takes the first binding. *)

#[warnings="-register-all"]
Inductive json : Type :=
| JNull
| JBool (b : bool)
| JInt (z : Z)
| JFloat (f : float)
| JStr (s : string)
| JList (l : list json)
| JDict (d : list (string * json)).

Fixpoint dict_lookup (d : list (string * json)) (k : string) : option json :=
  match d with
  | [] => None
  | (k', v) :: d' => if String.eqb k' k then Some v else dict_lookup d' k
  end.

(** ** Exceptions

    The classes of [exceptions.py] and the built-in classes the embedded code
    can raise.  [base] is the direct base class. *)

Inductive exn_class : Type :=
| C_Exception
(* exceptions.py *)
| C_OwockibotError
| C_APIError
| C_NotFoundError
| C_ValidationError
| C_RateLimitError
| C_ServerError
| C_AuthenticationError
| C_PaymentError
(* built-in *)
| C_LookupError
| C_KeyError
| C_ValueError
| C_TypeError
| C_AttributeError
| C_ArithmeticError
| C_OverflowError
| C_OSError
| C_RuntimeError
| C_NotImplementedError
(* json *)
| C_JSONDecodeError
(* decimal *)
| C_DecimalException
| C_InvalidOperation
| C_DivisionByZero
| C_Overflow.

Definition class_name (c : exn_class) : string :=
  match c with
  | C_Exception => "Exception"
  | C_OwockibotError => "OwockibotError"
  | C_APIError => "APIError"
  | C_NotFoundError => "NotFoundError"
  | C_ValidationError => "ValidationError"
  | C_RateLimitError => "RateLimitError"
  | C_ServerError => "ServerError"
  | C_AuthenticationError => "AuthenticationError"
  | C_PaymentError => "PaymentError"
  | C_LookupError => "LookupError"
  | C_KeyError => "KeyError"
  | C_ValueError => "ValueError"
  | C_TypeError => "TypeError"
  | C_AttributeError => "AttributeError"
  | C_ArithmeticError => "ArithmeticError"
  | C_OverflowError => "OverflowError"
  | C_OSError => "OSError"
  | C_RuntimeError => "RuntimeError"
  | C_NotImplementedError => "NotImplementedError"
  | C_JSONDecodeError => "JSONDecodeError"
  | C_DecimalException => "DecimalException"
  | C_InvalidOperation => "InvalidOperation"
  | C_DivisionByZero => "DivisionByZero"
  | C_Overflow => "Overflow"
  end.

Definition base (c : exn_class) : option exn_class :=
  match c with
  | C_Exception => None
  | C_OwockibotError => Some C_Exception
  | C_APIError => Some C_OwockibotError
  | C_NotFoundError => Some C_APIError
  | C_ValidationError => Some C_APIError
  | C_RateLimitError => Some C_APIError
  | C_ServerError => Some C_APIError
  | C_AuthenticationError => Some C_APIError
  | C_PaymentError => Some C_OwockibotError
  | C_LookupError => Some C_Exception
  | C_KeyError => Some C_LookupError
  | C_ValueError => Some C_Exception
  | C_TypeError => Some C_Exception
  | C_AttributeError => Some C_Exception
  | C_ArithmeticError => Some C_Exception
  | C_OverflowError => Some C_ArithmeticError
  | C_OSError => Some C_Exception
  | C_RuntimeError => Some C_Exception
  | C_NotImplementedError => Some C_RuntimeError
  | C_JSONDecodeError => Some C_ValueError
  | C_DecimalException => Some C_ArithmeticError
  | C_InvalidOperation => Some C_DecimalException
  | C_DivisionByZero => Some C_DecimalException
  | C_Overflow => Some C_DecimalException
  end.

(** The chain of classes from [c] up to [Exception]; the hierarchy is at most
    four levels deep. *)
Fixpoint ancestors (depth : nat) (c : exn_class) : list exn_class :=
  match depth with
  | O => [c]
  | S n => match base c with
           | None => [c]
           | Some b => c :: ancestors n b
           end
  end.

Definition mro (c : exn_class) : list exn_class := ancestors 4 c.

(** An exception object.  [message] is [args[0]] ([self.message] for the SDK
    classes, the key for a [KeyError]); the text of the messages the
    interpreter itself produces differs between Python versions and is left
    empty.  [status_code] is the attribute of [APIError], [retry_after] the
    one of [RateLimitError], [payment_details] the one of [PaymentError]. *)
Record exn : Type := mk_exn {
  exn_type : exn_class;
  message : string;
  status_code : option Z;
  response : option json;
  retry_after : option Z;
  payment_details : option json
}.

(** [isinstance(e, C)] with the class [C] given by name. *)
Definition isinstance (e : exn) (name : string) : bool :=
  existsb (fun c => String.eqb (class_name c) name) (mro (exn_type e)).

(* exceptions.py, lines 6-96: each constructor forwards to its base. *)
Definition OwockibotError (message : string) (response : option json) : exn :=
  mk_exn C_OwockibotError message None response None None.

Definition APIError (message : string) (status_code : Z)
           (response : option json) : exn :=
  mk_exn C_APIError message (Some status_code) response None None.

Definition NotFoundError (message : string) (response : option json) : exn :=
  mk_exn C_NotFoundError message (Some 404) response None None.

Definition ValidationError (message : string) (response : option json) : exn :=
  mk_exn C_ValidationError message (Some 400) response None None.

Definition RateLimitError (message : string) (retry_after : option Z)
           (response : option json) : exn :=
  mk_exn C_RateLimitError message (Some 429) response retry_after None.

Definition ServerError (message : string) (status_code : Z)
           (response : option json) : exn :=
  mk_exn C_ServerError message (Some status_code) response None None.

Definition AuthenticationError (message : string) (response : option json) : exn :=
  mk_exn C_AuthenticationError message (Some 401) response None None.

Definition PaymentError (message : string) (payment_details : option json) : exn :=
  mk_exn C_PaymentError message None None None payment_details.

(** An exception of a built-in class. *)
Definition builtin (c : exn_class) (msg : string) : exn :=
  mk_exn c msg None None None None.

Definition KeyError (key : string) : exn := builtin C_KeyError key.
Definition TypeError : exn := builtin C_TypeError "".
Definition AttributeError : exn := builtin C_AttributeError "".
Definition ValueError : exn := builtin C_ValueError "".
Definition OverflowError : exn := builtin C_OverflowError "".

(** ** Results: a value or a raised exception *)

Inductive result (A : Type) : Type :=
| Ok (a : A)
| Raise (e : exn).

Arguments Ok {A} a.
Arguments Raise {A} e.

Definition bind {A B : Type} (m : result A) (k : A -> result B) : result B :=
  match m with
  | Ok a => k a
  | Raise e => Raise e
  end.

Notation "x <- m ;; k" := (bind m (fun x => k))
  (at level 61, m at next level, right associativity).

(** A list comprehension [[f(x) for x in l]]: elements are evaluated in
    order and the first exception aborts the whole comprehension. *)
Fixpoint comprehension {A B : Type} (f : A -> result B) (l : list A)
  : result (list B) :=
  match l with
  | [] => Ok []
  | x :: l' => y <- f x ;; ys <- comprehension f l' ;; Ok (y :: ys)
  end.

(** [[x for x in l if p(x)]]. *)
Fixpoint comprehension_if {A : Type} (p : A -> result bool) (l : list A)
  : result (list A) :=
  match l with
  | [] => Ok []
  | x :: l' =>
      b <- p x ;;
      ys <- comprehension_if p l' ;;
      Ok (if b then x :: ys else ys)
  end.

(** The result is an exception that is an instance of the class called
    [name]; the result is an exception. *)
Definition raises {A : Type} (r : result A) (name : string) : Prop :=
  exists e, r = Raise e /\ isinstance e name = true.

Definition fails {A : Type} (r : result A) : Prop :=
  exists e, r = Raise e.

(** ** Dynamic operations on decoded values *)

(** Python numbers as [datetime] and the arithmetic operators receive them. *)
Inductive number : Type :=
| NInt (z : Z)
| NFloat (f : float).

(** [isinstance(x, (int, float))]; [bool] is a subclass of [int]. *)
Definition as_number (x : json) : option number :=
  match x with
  | JBool b => Some (NInt (if b then 1 else 0))
  | JInt z => Some (NInt z)
  | JFloat f => Some (NFloat f)
  | _ => None
  end.

(** [bool(x)]: the truth value used by [if x] and [x and ...]. *)
Definition truthy (x : json) : bool :=
  match x with
  | JNull => false
  | JBool b => b
  | JInt z => negb (z =? 0)
  | JFloat f => negb (PrimFloat.eqb f 0%float)
  | JStr s => negb (String.eqb s "")
  | JList l => match l with [] => false | _ => true end
  | JDict d => match d with [] => false | _ => true end
  end.

(** [x[key]] for a string key. *)
Definition getitem (x : json) (key : string) : result json :=
  match x with
  | JDict d => match dict_lookup d key with
               | Some v => Ok v
               | None => Raise (KeyError key)
               end
  | _ => Raise TypeError
  end.

(** [x.get(key, default)]; [dict.get(key)] defaults to [None]. *)
Definition get_default (x : json) (key : string) (default : json) : result json :=
  match x with
  | JDict d => match dict_lookup d key with
               | Some v => Ok v
               | None => Ok default
               end
  | _ => Raise AttributeError
  end.

Definition get (x : json) (key : string) : result json :=
  get_default x key JNull.

(** [iter(x)], run to the end: a list yields its elements, a string its
    one-character substrings, a dict its keys. *)
Definition iterate (x : json) : result (list json) :=
  match x with
  | JList l => Ok l
  | JStr s => Ok (map (fun c => JStr (String c EmptyString)) (list_ascii_of_string s))
  | JDict d => Ok (map (fun kv => JStr (fst kv)) d)
  | _ => Raise TypeError
  end.

(** [s.replace(old, new)] on strings: every non-overlapping occurrence,
    scanning from the left. *)
Fixpoint str_replace_from (fuel : nat) (old new s : string) : string :=
  match fuel with
  | O => s
  | S fuel' =>
      match s with
      | EmptyString => EmptyString
      | String c s' =>
          if String.prefix old s
          then String.append new (str_replace_from fuel'
                        old new (String.substring (String.length old)
                                   (String.length s - String.length old) s))
          else String c (str_replace_from fuel' old new s')
      end
  end.

(** Only called with a non-empty [old]; each step consumes at least one
    character, so [length s] steps suffice. *)
Definition str_replace (old new s : string) : string :=
  str_replace_from (String.length s) old new s.

(** [x.replace(old, new)]: only [str] has the method. *)
Definition replace (x : json) (old new : string) : result string :=
  match x with
  | JStr s => Ok (str_replace old new s)
  | _ => Raise AttributeError
  end.

(** [s.lstrip(ch)] for a single character. *)
Fixpoint lstrip (ch : ascii) (s : string) : string :=
  match s with
  | String c s' => if Ascii.eqb c ch then lstrip ch s' else s
  | EmptyString => EmptyString
  end.

(** [needle in haystack] on strings. *)
Fixpoint str_contains (needle haystack : string) : bool :=
  String.prefix needle haystack ||
  match haystack with
  | EmptyString => false
  | String _ h' => str_contains needle h'
  end.

(** [str(n)] for an integer. *)
Definition str_of_int (n : Z) : string :=
  NilZero.string_of_int (Z.to_int n).

(** *** Float and integer arithmetic used on timestamps *)

Definition Z2SF (z : Z) : spec_float :=
  match z with
  | Z0 => S754_zero false
  | Zpos p => S754_finite false p 0
  | Zneg p => S754_finite true p 0
  end.

(** [a / b] on integers is true division: the correctly rounded quotient, or
    [OverflowError] when it exceeds the float range. *)
Definition int_truediv (a b : Z) : result float :=
  match SFdiv FloatOps.prec FloatOps.emax (Z2SF a) (Z2SF b) with
  | S754_infinity _ => Raise OverflowError
  | q => Ok (SF2Prim q)
  end.

(** [n / 1000]. *)
Definition div_1000 (n : number) : result number :=
  match n with
  | NInt z => f <- int_truediv z 1000 ;; Ok (NFloat f)
  | NFloat f => Ok (NFloat (f / 1000)%float)
  end.

(** [n > 1e12]; an [int] is compared with the float exactly. *)
Definition gt_1e12 (n : number) : bool :=
  match n with
  | NInt z => 1000000000000 <? z
  | NFloat f => PrimFloat.ltb 1e12%float f
  end.

(** ** [decimal.Decimal] under the default context

    The SDK never changes the arithmetic context, so the operations run with
    [prec = 28], [ROUND_HALF_EVEN], [Emax = 999999], [Emin = -999999],
    [clamp = 0] and the traps [InvalidOperation], [DivisionByZero] and
    [Overflow].  A finite number is sign, coefficient and exponent: its value
    is [(-1)^sign * coef * 10^exp].  Signals that are not trapped only set
    flags of the context and are not modelled. *)

Module decimal.

Definition prec : Z := 28.
Definition Emax : Z := 999999.
Definition Emin : Z := -999999.
Definition Etiny : Z := Emin - prec + 1.
Definition Etop : Z := Emax - prec + 1.

Inductive Decimal : Type :=
| Finite (sign : bool) (coef : Z) (exp : Z)
| Infinity (sign : bool)
| NaN (signaling : bool) (sign : bool) (payload : Z).

Definition InvalidOperation : exn := builtin C_InvalidOperation "".
Definition DivisionByZero : exn := builtin C_DivisionByZero "".
Definition Overflow : exn := builtin C_Overflow "".

(** [Decimal(n)] for an integer: exact, whatever the context. *)
Definition of_int (n : Z) : Decimal := Finite (n <? 0) (Z.abs n) 0.

(** [len(str(n))] for a non-negative integer: the number of decimal digits. *)
Fixpoint ndigits_from (fuel : nat) (n : Z) : Z :=
  match fuel with
  | O => 1
  | S fuel' => if n <? 10 then 1 else 1 + ndigits_from fuel' (n / 10)
  end.

Definition ndigits (n : Z) : Z := ndigits_from (Z.to_nat (Z.log2 n)) n.

(** The rounding decision of [_round_half_even] when the coefficient [c] is cut
    to its leading digits, [drop >= 1] digits being removed: [1] rounds up,
    [0] is exact, [-1] rounds down.  [q] is the part that is kept and [r] the
    part that is removed: the removed digits are an exact half when [r] is
    [5 * 10^(drop-1)], the first removed digit is 5 or more when [r] is at
    least that, and nothing is kept when [c] has [drop] digits. *)
Definition round_half_even (c drop : Z) : Z :=
  let q := c / 10 ^ drop in
  let r := c mod 10 ^ drop in
  let half := 5 * 10 ^ (drop - 1) in
  if (r =? half) && ((ndigits c =? drop) || Z.even q) then -1
  else if half <=? r then 1
  else if r =? 0 then 0
  else -1.

(** [Decimal._fix]: round to the context precision and check the exponent
    range. *)
Definition _fix (d : Decimal) : result Decimal :=
  match d with
  | NaN sg s payload =>
      (* _fix_nan: a payload longer than prec keeps its low-order digits *)
      if prec <? ndigits payload
      then Ok (NaN sg s (payload mod 10 ^ prec))
      else Ok d
  | Infinity _ => Ok d
  | Finite s c e =>
      if c =? 0 then
        Ok (Finite s 0 (Z.min (Z.max e Etiny) Emax))
      else
        let exp_min := ndigits c + e - prec in
        if Etop <? exp_min then Raise Overflow
        else
          let exp_min := Z.max exp_min Etiny in
          if e <? exp_min then
            let digits := ndigits c + e - exp_min in
            (* if digits < 0: self = (sign, '1', exp_min - 1); digits = 0 *)
            let c' := if digits <? 0 then 1 else c in
            let digits := Z.max digits 0 in
            let drop := ndigits c' - digits in
            let changed := round_half_even c' drop in
            let kept := c' / 10 ^ drop in
            let coeff := if 0 <? changed then kept + 1 else kept in
            let carry := (0 <? changed) && (prec <? ndigits coeff) in
            let coeff := if carry then coeff / 10 else coeff in
            let exp_min := if carry then exp_min + 1 else exp_min in
            if Etop <? exp_min then Raise Overflow
            else Ok (Finite s coeff exp_min)
          else Ok d
  end.

(** [_check_nans]: a signaling NaN raises, a quiet NaN is the result. *)
Definition _check_nans (a b : Decimal) : option (result Decimal) :=
  match a, b with
  | NaN true _ _, _ => Some (Raise InvalidOperation)
  | NaN false _ _, NaN true _ _ => Some (Raise InvalidOperation)
  | NaN false _ _, _ => Some (_fix a)
  | _, NaN true _ _ => Some (Raise InvalidOperation)
  | _, NaN false _ _ => Some (_fix b)
  | _, _ => None
  end.

(** The loop of [__truediv__] for an exact quotient:
    [while exp < ideal_exp and coeff % 10 == 0: coeff //= 10; exp += 1];
    [n] is [ideal_exp - exp]. *)
Fixpoint strip_zeros (n : nat) (coeff exp : Z) : Z * Z :=
  match n with
  | O => (coeff, exp)
  | S n' => if coeff mod 10 =? 0
            then strip_zeros n' (coeff / 10) (exp + 1)
            else (coeff, exp)
  end.

(** [Decimal.__truediv__]. *)
Definition truediv (a b : Decimal) : result Decimal :=
  match _check_nans a b with
  | Some r => r
  | None =>
      match a, b with
      | Infinity _, Infinity _ => Raise InvalidOperation
      | Infinity sa, Finite sb _ _ => Ok (Infinity (xorb sa sb))
      | Finite sa _ _, Infinity sb => Ok (Finite (xorb sa sb) 0 Etiny)
      | Finite sa ca ea, Finite sb cb eb =>
          let sign := xorb sa sb in
          if cb =? 0 then
            if ca =? 0 then Raise InvalidOperation else Raise DivisionByZero
          else if ca =? 0 then _fix (Finite sign 0 (ea - eb))
          else
            let shift := ndigits cb - ndigits ca + prec + 1 in
            let exp := ea - eb - shift in
            let '(coeff, remainder) :=
              if 0 <=? shift
              then Z.div_eucl (ca * 10 ^ shift) cb
              else Z.div_eucl ca (cb * 10 ^ (- shift)) in
            if negb (remainder =? 0) then
              _fix (Finite sign (if coeff mod 5 =? 0 then coeff + 1 else coeff) exp)
            else
              let '(coeff, exp) :=
                strip_zeros (Z.to_nat (ea - eb - exp)) coeff exp in
              _fix (Finite sign coeff exp)
      | _, _ => Raise InvalidOperation
      end
  end.

(** [Decimal.__mul__]. *)
Definition mul (a b : Decimal) : result Decimal :=
  match _check_nans a b with
  | Some r => r
  | None =>
      match a, b with
      | Infinity sa, Infinity sb => Ok (Infinity (xorb sa sb))
      | Infinity sa, Finite sb cb _ =>
          if cb =? 0 then Raise InvalidOperation else Ok (Infinity (xorb sa sb))
      | Finite sa ca _, Infinity sb =>
          if ca =? 0 then Raise InvalidOperation else Ok (Infinity (xorb sa sb))
      | Finite sa ca ea, Finite sb cb eb =>
          _fix (Finite (xorb sa sb) (ca * cb) (ea + eb))
      | _, _ => Raise InvalidOperation
      end
  end.

(** [Decimal.__int__]: truncation towards zero. *)
Definition to_int (d : Decimal) : result Z :=
  match d with
  | NaN _ _ _ => Raise ValueError
  | Infinity _ => Raise OverflowError
  | Finite s c e =>
      let m := if 0 <=? e then c * 10 ^ e else c / 10 ^ (- e) in
      Ok (if s then - m else m)
  end.

(** The signed coefficient of a finite number scaled to the exponent [e0],
    which is at most its own exponent. *)
Definition scaled (s : bool) (c e e0 : Z) : Z :=
  (if s then - c else c) * 10 ^ (e - e0).

(** [Decimal._cmp] on numbers that are not NaN: [Lt], [Eq] or [Gt] by value;
    the two zeros are equal. *)
Definition _cmp (a b : Decimal) : comparison :=
  match a, b with
  | Finite sa ca ea, Finite sb cb eb =>
      let e0 := Z.min ea eb in
      scaled sa ca ea e0 ?= scaled sb cb eb e0
  | Infinity sa, Infinity sb =>
      if Bool.eqb sa sb then Eq else if sa then Lt else Gt
  | Infinity sa, _ => if sa then Lt else Gt
  | _, Infinity sb => if sb then Gt else Lt
  | _, _ => Eq
  end.

Definition is_nan (d : Decimal) : bool :=
  match d with NaN _ _ _ => true | _ => false end.

(** [a >= b] and [a <= b]: an ordering comparison involving a NaN signals
    [InvalidOperation], which is trapped. *)
Definition ge (a b : Decimal) : result bool :=
  if is_nan a || is_nan b then Raise InvalidOperation
  else Ok (match _cmp a b with Lt => false | _ => true end).

Definition le (a b : Decimal) : result bool :=
  if is_nan a || is_nan b then Raise InvalidOperation
  else Ok (match _cmp a b with Gt => false | _ => true end).

(** The rational value of a finite number. *)
Definition value (d : Decimal) : option Q :=
  match d with
  | Finite s c e =>
      let n := if s then - c else c in
      Some (if 0 <=? e then inject_Z (n * 10 ^ e)
            else Qmake n (Z.to_pos (10 ^ (- e))))
  | _ => None
  end.

End decimal.

Import decimal.

(** ** [datetime.datetime]

    The wall-clock reading in microseconds since 0001-01-01T00:00:00 and the
    UTC offset of an aware value ([None] for a naive one). *)

Record datetime : Type := mk_datetime {
  wall_us : Z;
  utcoffset : option Z
}.

(** [datetime.min] and [datetime.max]: 0001-01-01T00:00:00 and
    9999-12-31T23:59:59.999999, both naive. *)
Definition datetime_min : datetime := mk_datetime 0 None.
Definition datetime_max : datetime := mk_datetime 315537897599999999 None.

(** A Python object that is either a [datetime] or a decoded JSON value:
    what [Bounty.deadline] holds and what [sorted] receives as a key. *)
Inductive object : Type :=
| Instant (d : datetime)
| Plain (x : json).

(** ** External library behaviour

    What the model takes from the host and from libraries it does not
    describe: the conversions of [datetime] (they depend on the local time
    zone and on the interpreter version), [str.lower] (Unicode case tables),
    [Decimal(x)] for an [x] that is not an [int], [sorted] on two or more
    keys that are not all naive instants (the comparisons may raise
    [TypeError]), and the [repr] of a float. *)

Record stdlib : Type := mk_stdlib {
  fromtimestamp : number -> result datetime;
  fromisoformat : string -> result datetime;
  str_lower : string -> string;
  Decimal_of_object : json -> result Decimal;
  sorted_objects : forall A : Type, list (object * A) -> bool -> result (list A);
  float_repr : float -> string
}.

(** [Decimal(x)]. *)
Definition Decimal_new (L : stdlib) (x : json) : result Decimal :=
  match x with
  | JInt z => Ok (of_int z)
  | JBool b => Ok (of_int (if b then 1 else 0))
  | _ => Decimal_of_object L x
  end.

(** [x.lower()]. *)
Definition lower (L : stdlib) (x : json) : result string :=
  match x with
  | JStr s => Ok (str_lower L s)
  | _ => Raise AttributeError
  end.

(** ** models.py *)

(* models.py, lines 330-337 *)
Definition _parse_timestamp (L : stdlib) (ts : json) : result datetime :=
  match as_number ts with
  | Some n =>
      secs <- (if gt_1e12 n then div_1000 n else Ok n) ;;
      fromtimestamp L secs
  | None =>
      s <- replace ts "Z" "+00:00" ;;
      fromisoformat L s
  end.

(* models.py, lines 10-17 *)
Inductive BountyStatus : Type :=
| OPEN | CLAIMED | SUBMITTED | COMPLETED | CANCELLED | PAYMENT_FAILED.

Definition BountyStatus_value (s : BountyStatus) : string :=
  match s with
  | OPEN => "open"
  | CLAIMED => "claimed"
  | SUBMITTED => "submitted"
  | COMPLETED => "completed"
  | CANCELLED => "cancelled"
  | PAYMENT_FAILED => "payment_failed"
  end.

Definition BountyStatus_eqb (a b : BountyStatus) : bool :=
  String.eqb (BountyStatus_value a) (BountyStatus_value b).

(** [BountyStatus(x)]: the member whose value equals [x], else [ValueError]. *)
Definition BountyStatus_new (x : json) : result BountyStatus :=
  match x with
  | JStr s =>
      match find (fun m => String.eqb (BountyStatus_value m) s)
                 [OPEN; CLAIMED; SUBMITTED; COMPLETED; CANCELLED; PAYMENT_FAILED] with
      | Some m => Ok m
      | None => Raise ValueError
      end
  | _ => Raise ValueError
  end.

Module Submission.
Record t : Type := mk {
  id : json;
  content : json;
  submitted_at : datetime;
  proof : json
}.

(* models.py, lines 29-37 *)
Definition from_dict (L : stdlib) (data : json) : result t :=
  id <- getitem data "id" ;;
  content <- getitem data "content" ;;
  submittedAt <- getitem data "submittedAt" ;;
  submitted_at <- _parse_timestamp L submittedAt ;;
  proof <- get data "proof" ;;
  Ok (mk id content submitted_at proof).

Definition required : list string := ["id"; "content"; "submittedAt"].
End Submission.

Module Rejection.
Record t : Type := mk {
  reason : json;
  rejected_at : datetime;
  previous_claimant : json;
  previous_submissions : list Submission.t
}.

(* models.py, lines 49-61 *)
Definition from_dict (L : stdlib) (data : json) : result t :=
  raw <- get_default data "previousSubmissions" (JList []) ;;
  items <- iterate raw ;;
  submissions <- comprehension (Submission.from_dict L) items ;;
  reason <- getitem data "reason" ;;
  rejectedAt <- getitem data "rejectedAt" ;;
  rejected_at <- _parse_timestamp L rejectedAt ;;
  previous_claimant <- get data "previousClaimant" ;;
  Ok (mk reason rejected_at previous_claimant submissions).

Definition required : list string := ["reason"; "rejectedAt"].
End Rejection.

Module PendingPayment.
Record t : Type := mk {
  fee : json;
  chain : json;
  token : json;
  net_reward : json;
  gross_reward : json;
  recipient : json
}.

(* models.py, lines 75-88 *)
Definition fee_usdc (L : stdlib) (self : t) : result Decimal :=
  a <- Decimal_new L (fee self) ;; truediv a (of_int 1000000).

Definition net_reward_usdc (L : stdlib) (self : t) : result Decimal :=
  a <- Decimal_new L (net_reward self) ;; truediv a (of_int 1000000).

Definition gross_reward_usdc (L : stdlib) (self : t) : result Decimal :=
  a <- Decimal_new L (gross_reward self) ;; truediv a (of_int 1000000).

(* models.py, lines 90-100 *)
Definition from_dict (data : json) : result t :=
  fee <- getitem data "fee" ;;
  chain <- getitem data "chain" ;;
  token <- getitem data "token" ;;
  net_reward <- getitem data "netReward" ;;
  gross_reward <- getitem data "grossReward" ;;
  recipient <- getitem data "recipient" ;;
  Ok (mk fee chain token net_reward gross_reward recipient).

Definition required : list string :=
  ["fee"; "chain"; "token"; "netReward"; "grossReward"; "recipient"].
End PendingPayment.

Module Payment.
Record t : Type := mk {
  fee : json;
  chain : json;
  token : json;
  net_reward : json;
  gross_reward : json;
  tx_hash : json;
  processed_at : datetime;
  processed_by : json;
  fee_percent : json;
  fee_formatted : json;
  net_reward_formatted : json
}.

(* models.py, lines 119-132 *)
Definition fee_usdc (L : stdlib) (self : t) : result Decimal :=
  a <- Decimal_new L (fee self) ;; truediv a (of_int 1000000).

Definition net_reward_usdc (L : stdlib) (self : t) : result Decimal :=
  a <- Decimal_new L (net_reward self) ;; truediv a (of_int 1000000).

Definition gross_reward_usdc (L : stdlib) (self : t) : result Decimal :=
  a <- Decimal_new L (gross_reward self) ;; truediv a (of_int 1000000).

(* models.py, lines 134-149 *)
Definition from_dict (L : stdlib) (data : json) : result t :=
  fee <- getitem data "fee" ;;
  chain <- getitem data "chain" ;;
  token <- getitem data "token" ;;
  net_reward <- getitem data "netReward" ;;
  gross_reward <- getitem data "grossReward" ;;
  tx_hash <- getitem data "txHash" ;;
  processedAt <- getitem data "processedAt" ;;
  iso <- replace processedAt "Z" "+00:00" ;;
  processed_at <- fromisoformat L iso ;;
  processed_by <- getitem data "processedBy" ;;
  fee_percent <- getitem data "feePercent" ;;
  fee_formatted <- getitem data "feeFormatted" ;;
  net_reward_formatted <- getitem data "netRewardFormatted" ;;
  Ok (mk fee chain token net_reward gross_reward tx_hash processed_at
         processed_by fee_percent fee_formatted net_reward_formatted).

Definition required : list string :=
  ["fee"; "chain"; "token"; "netReward"; "grossReward"; "txHash";
   "processedAt"; "processedBy"; "feePercent"; "feeFormatted";
   "netRewardFormatted"].
End Payment.

Module Bounty.
Record t : Type := mk {
  id : json;
  uuid : json;
  title : json;
  description : json;
  reward : json;
  reward_formatted : json;
  status : BountyStatus;
  creator : json;
  deadline : option object;
  tags : json;
  requirements : json;
  submissions : list Submission.t;
  created_at : datetime;
  updated_at : datetime;
  claimed_by : json;
  claimed_at : option datetime;
  approved_at : option datetime;
  completed_at : option datetime;
  payment_error : json;
  pending_payment : option PendingPayment.t;
  payment : option Payment.t;
  rejections : list Rejection.t
}.

(* models.py, lines 179-182 *)
Definition reward_usdc (L : stdlib) (self : t) : result Decimal :=
  a <- Decimal_new L (reward self) ;; truediv a (of_int 1000000).

(* models.py, lines 184-202 *)
Definition is_open (self : t) : bool := BountyStatus_eqb (status self) OPEN.
Definition is_claimed (self : t) : bool := BountyStatus_eqb (status self) CLAIMED.
Definition is_completed (self : t) : bool := BountyStatus_eqb (status self) COMPLETED.
Definition is_payment_failed (self : t) : bool :=
  BountyStatus_eqb (status self) PAYMENT_FAILED.

(** [_parse_timestamp(data[key]) if data.get(key) else None]. *)
Definition optional_timestamp (L : stdlib) (data : json) (key : string)
  : result (option datetime) :=
  present <- get data key ;;
  if truthy present
  then raw <- getitem data key ;; d <- _parse_timestamp L raw ;; Ok (Some d)
  else Ok None.

(* models.py, lines 207-214: the deadline is parsed before anything else *)
Definition parse_deadline (L : stdlib) (data : json) : result (option object) :=
  deadline_raw <- get data "deadline" ;;
  if truthy deadline_raw then
    match as_number deadline_raw with
    | Some n =>
        secs <- div_1000 n ;;
        d <- fromtimestamp L secs ;;
        Ok (Some (Instant d))
    | None => Ok (Some (Plain deadline_raw))
    end
  else Ok None.

(* models.py, lines 204-245 *)
Definition from_dict (L : stdlib) (data : json) : result t :=
  deadline <- parse_deadline L data ;;
  id <- getitem data "id" ;;
  uuid <- getitem data "uuid" ;;
  title <- getitem data "title" ;;
  description <- getitem data "description" ;;
  reward <- getitem data "reward" ;;
  reward_formatted <- getitem data "rewardFormatted" ;;
  status_raw <- getitem data "status" ;;
  status <- BountyStatus_new status_raw ;;
  creator <- getitem data "creator" ;;
  tags <- get_default data "tags" (JList []) ;;
  requirements <- get_default data "requirements" (JList []) ;;
  submissions_raw <- get_default data "submissions" (JList []) ;;
  submission_items <- iterate submissions_raw ;;
  submissions <- comprehension (Submission.from_dict L) submission_items ;;
  createdAt <- getitem data "createdAt" ;;
  created_at <- _parse_timestamp L createdAt ;;
  updatedAt <- getitem data "updatedAt" ;;
  updated_at <- _parse_timestamp L updatedAt ;;
  claimed_by <- get data "claimedBy" ;;
  claimed_at <- optional_timestamp L data "claimedAt" ;;
  approved_at <- optional_timestamp L data "approvedAt" ;;
  completed_at <- optional_timestamp L data "completedAt" ;;
  payment_error <- get data "paymentError" ;;
  pending_present <- get data "pendingPayment" ;;
  pending_payment <-
    (if truthy pending_present
     then raw <- getitem data "pendingPayment" ;;
          p <- PendingPayment.from_dict raw ;; Ok (Some p)
     else Ok None) ;;
  payment_present <- get data "payment" ;;
  payment <-
    (if truthy payment_present
     then raw <- getitem data "payment" ;;
          p <- Payment.from_dict L raw ;; Ok (Some p)
     else Ok None) ;;
  rejections_raw <- get_default data "rejections" (JList []) ;;
  rejection_items <- iterate rejections_raw ;;
  rejections <- comprehension (Rejection.from_dict L) rejection_items ;;
  Ok (mk id uuid title description reward reward_formatted status creator
         deadline tags requirements submissions created_at updated_at
         claimed_by claimed_at approved_at completed_at payment_error
         pending_payment payment rejections).

Definition required : list string :=
  ["id"; "uuid"; "title"; "description"; "reward"; "rewardFormatted";
   "status"; "creator"; "createdAt"; "updatedAt"].
End Bounty.

Module Stats.
Record t : Type := mk {
  total_bounties : json;
  open_bounties : json;
  completed_bounties : json;
  total_rewards_usdc : json;
  total_agents : json;
  db_connected : json
}.

(* models.py, lines 273-283 *)
Definition from_dict (data : json) : result t :=
  total_bounties <- getitem data "totalBounties" ;;
  open_bounties <- getitem data "openBounties" ;;
  completed_bounties <- getitem data "completedBounties" ;;
  total_rewards_usdc <- getitem data "totalRewardsUSDC" ;;
  total_agents <- getitem data "totalAgents" ;;
  db_connected <- getitem data "dbConnected" ;;
  Ok (mk total_bounties open_bounties completed_bounties total_rewards_usdc
         total_agents db_connected).

Definition required : list string :=
  ["totalBounties"; "openBounties"; "completedBounties"; "totalRewardsUSDC";
   "totalAgents"; "dbConnected"].
End Stats.

Module TokenConfig.
Record t : Type := mk {
  network : json;
  token : json;
  address : json;
  min_amount : json
}.

(* models.py, lines 295-303 *)
Definition from_dict (data : json) : result t :=
  network <- getitem data "network" ;;
  token <- getitem data "token" ;;
  address <- getitem data "address" ;;
  min_amount <- getitem data "minAmount" ;;
  Ok (mk network token address min_amount).

Definition required : list string :=
  ["network"; "token"; "address"; "minAmount"].
End TokenConfig.

Module X402Config.
Record t : Type := mk {
  version : json;
  network : json;
  chain_id : json;
  accepts : list TokenConfig.t;
  facilitator : json;
  treasury : json
}.

(* models.py, lines 317-327 *)
Definition from_dict (data : json) : result t :=
  version <- getitem data "version" ;;
  network <- getitem data "network" ;;
  chain_id <- getitem data "chainId" ;;
  accepts_raw <- getitem data "accepts" ;;
  accept_items <- iterate accepts_raw ;;
  accepts <- comprehension TokenConfig.from_dict accept_items ;;
  facilitator <- getitem data "facilitator" ;;
  treasury <- getitem data "treasury" ;;
  Ok (mk version network chain_id accepts facilitator treasury).

Definition required : list string :=
  ["version"; "network"; "chainId"; "accepts"; "facilitator"; "treasury"].
End X402Config.

(** ** filters.py *)

(** [sorted(items, key=..., reverse=...)] with the keys already computed.
    Python's sort is stable, and with [reverse=True] elements with equal keys
    keep their original order as well: the list is reversed, sorted and
    reversed again. *)
Fixpoint insert_by_key {A : Type} (k : Z) (x : A) (l : list (Z * A))
  : list (Z * A) :=
  match l with
  | [] => [(k, x)]
  | (k', y) :: l' =>
      if k <=? k' then (k, x) :: l else (k', y) :: insert_by_key k x l'
  end.

Fixpoint stable_sort {A : Type} (l : list (Z * A)) : list (Z * A) :=
  match l with
  | [] => []
  | (k, x) :: l' => insert_by_key k x (stable_sort l')
  end.

(** The keys [sorted] orders itself: naive instants, by wall-clock reading. *)
Definition naive_key (o : object) : option Z :=
  match o with
  | Instant (mk_datetime w None) => Some w
  | _ => None
  end.

Fixpoint naive_keys {A : Type} (l : list (object * A)) : option (list (Z * A)) :=
  match l with
  | [] => Some []
  | (o, x) :: l' =>
      match naive_key o, naive_keys l' with
      | Some k, Some r => Some ((k, x) :: r)
      | _, _ => None
      end
  end.

Definition sorted {A : Type} (L : stdlib) (keyed : list (object * A))
           (reverse : bool) : result (list A) :=
  match keyed with
  | [] | [_] => Ok (map snd keyed)   (* nothing is compared *)
  | _ =>
      match naive_keys keyed with
      | Some l =>
          Ok (map snd (if reverse then rev (stable_sort (rev l))
                       else stable_sort l))
      | None => sorted_objects L keyed reverse
      end
  end.

(* filters.py, lines 306-311; [None] is the only value for which
   [b.deadline is None] holds *)
Definition deadline_key (descending : bool) (b : Bounty.t) : object :=
  match Bounty.deadline b with
  | None | Some (Plain JNull) =>
      Instant (if descending then datetime_max else datetime_min)
  | Some (Plain (JStr _)) => Instant datetime_min
  | Some o => o
  end.

(* filters.py, lines 295-313 *)
Definition sort_by_deadline (L : stdlib) (bounties : list Bounty.t)
           (descending : bool) : result (list Bounty.t) :=
  sorted L (map (fun b => (deadline_key descending b, b)) bounties) descending.

Module BountyFilter.
(* filters.py, lines 25-32 *)
Record t : Type := mk {
  statuses : list BountyStatus;
  tags : list string;
  min_reward : option Decimal;
  max_reward : option Decimal;
  creator : option string;
  claimed_by : option string;
  search_query : option string;
  custom_filter : option (Bounty.t -> result bool)
}.

(** [BountyFilter()]: no criterion set. *)
Definition new : t := mk [] [] None None None None None None.

(** [if self.creator:] and the like: set and not the empty string. *)
Definition nonempty (o : option string) : option string :=
  match o with
  | Some s => if String.eqb s "" then None else Some s
  | None => None
  end.

(** [x in (tag.lower() for tag in tags)]: the generator is consumed up to
    the first match. *)
Fixpoint in_lowered (L : stdlib) (x : string) (tags : list json) : result bool :=
  match tags with
  | [] => Ok false
  | tag :: rest =>
      s <- lower L tag ;;
      if String.eqb x s then Ok true else in_lowered L x rest
  end.

(** [all(t.lower() in (tag.lower() for tag in b.tags) for t in wanted)]. *)
Fixpoint has_all_tags (L : stdlib) (wanted : list string) (b : Bounty.t)
  : result bool :=
  match wanted with
  | [] => Ok true
  | t :: rest =>
      items <- iterate (Bounty.tags b) ;;
      found <- in_lowered L (str_lower L t) items ;;
      if found then has_all_tags L rest b else Ok false
  end.

Definition status_stage (self : t) (b : Bounty.t) : result bool :=
  Ok (existsb (BountyStatus_eqb (Bounty.status b)) (statuses self)).

Definition min_reward_stage (L : stdlib) (m : Decimal) (b : Bounty.t)
  : result bool :=
  r <- Bounty.reward_usdc L b ;; ge r m.

Definition max_reward_stage (L : stdlib) (m : Decimal) (b : Bounty.t)
  : result bool :=
  r <- Bounty.reward_usdc L b ;; le r m.

Definition creator_stage (L : stdlib) (c : string) (b : Bounty.t)
  : result bool :=
  s <- lower L (Bounty.creator b) ;; Ok (String.eqb s c).

Definition claimed_by_stage (L : stdlib) (c : string) (b : Bounty.t)
  : result bool :=
  if truthy (Bounty.claimed_by b)
  then s <- lower L (Bounty.claimed_by b) ;; Ok (String.eqb s c)
  else Ok false.

Definition search_stage (L : stdlib) (q : string) (b : Bounty.t)
  : result bool :=
  title <- lower L (Bounty.title b) ;;
  if str_contains q title then Ok true
  else description <- lower L (Bounty.description b) ;;
       Ok (str_contains q description).

(** One stage of [apply]: skipped when its criterion is unset. *)
Definition stage (enabled : bool) (p : Bounty.t -> result bool)
           (bounties : list Bounty.t) : result (list Bounty.t) :=
  if enabled then comprehension_if p bounties else Ok bounties.

Definition stage_opt {C : Type} (criterion : option C)
           (p : C -> Bounty.t -> result bool)
           (bounties : list Bounty.t) : result (list Bounty.t) :=
  match criterion with
  | Some c => comprehension_if (p c) bounties
  | None => Ok bounties
  end.

(* filters.py, lines 152-197 *)
Definition apply (L : stdlib) (self : t) (bounties : list Bounty.t)
  : result (list Bounty.t) :=
  result <- stage (match statuses self with [] => false | _ => true end)
                  (status_stage self) bounties ;;
  result <- stage (match tags self with [] => false | _ => true end)
                  (has_all_tags L (tags self)) result ;;
  result <- stage_opt (min_reward self) (min_reward_stage L) result ;;
  result <- stage_opt (max_reward self) (max_reward_stage L) result ;;
  result <- stage_opt (nonempty (creator self)) (creator_stage L) result ;;
  result <- stage_opt (nonempty (claimed_by self)) (claimed_by_stage L) result ;;
  result <- stage_opt (nonempty (search_query self)) (search_stage L) result ;;
  result <- stage_opt (custom_filter self) (fun f => f) result ;;
  Ok result.

(** [f.apply(f.apply(bounties))]. *)
Definition apply_twice (L : stdlib) (self : t) (bounties : list Bounty.t)
  : result (list Bounty.t) :=
  once <- apply L self bounties ;; apply L self once.
End BountyFilter.

(** ** utils.py *)

(* utils.py, lines 9-22 *)
Definition usdc_to_micro (usdc : Decimal) : result Z :=
  p <- mul usdc (of_int 1000000) ;; to_int p.

(* utils.py, lines 25-38 *)
Definition micro_to_usdc (micro : Z) : result Decimal :=
  truediv (of_int micro) (of_int 1000000).

(** ** [int(s)]

    On ASCII text: surrounding whitespace, an optional sign, then decimal
    digits that single underscores may separate.  The limit recent
    interpreters put on the number of digits is not modelled. *)

Definition is_space (c : ascii) : bool :=
  let n := nat_of_ascii c in
  (Nat.leb 9 n && Nat.leb n 13) || Nat.eqb n 32.

Fixpoint lstrip_space (s : string) : string :=
  match s with
  | String c s' => if is_space c then lstrip_space s' else s
  | EmptyString => EmptyString
  end.

Fixpoint str_rev (s : string) : string :=
  match s with
  | EmptyString => EmptyString
  | String c s' => String.append (str_rev s') (String c EmptyString)
  end.

Definition strip_space (s : string) : string :=
  str_rev (lstrip_space (str_rev (lstrip_space s))).

Definition digit_of (c : ascii) : option Z :=
  let n := nat_of_ascii c in
  if Nat.leb 48 n && Nat.leb n 57 then Some (Z.of_nat n - 48) else None.

Fixpoint parse_digits (s : string) (acc : Z) (after_digit : bool) : option Z :=
  match s with
  | EmptyString => if after_digit then Some acc else None
  | String c s' =>
      match digit_of c with
      | Some d => parse_digits s' (10 * acc + d) true
      | None =>
          if Ascii.eqb c "_" && after_digit then parse_digits s' acc false
          else None
      end
  end.

Definition int_of_str (s : string) : result Z :=
  let body := strip_space s in
  let '(negative, digits) :=
    match body with
    | String "-" d => (true, d)
    | String "+" d => (false, d)
    | _ => (false, body)
    end in
  match parse_digits digits 0 false with
  | Some n => Ok (if negative then - n else n)
  | None => Raise ValueError
  end.

(** ** client.py

    The HTTP exchange itself belongs to [httpx].  A response is what
    [_request] observes of it; the transport answers a request, given the
    requests issued before, with a response or with an exception. *)

Record Response : Type := mk_Response {
  resp_status_code : Z;                      (* response.status_code *)
  resp_text : string;                        (* response.text *)
  resp_header : string -> option string;     (* response.headers.get(name) *)
  resp_json : result json                    (* response.json() *)
}.

(** [response.is_success]: a 2xx status. *)
Definition is_success (r : Response) : bool :=
  (200 <=? resp_status_code r) && (resp_status_code r <=? 299).

Record Request : Type := mk_Request {
  req_method : string;
  req_url : string;
  req_json : option json
}.

Inductive outcome : Type :=
| Responded (r : Response)
| TimeoutException (e : string)   (* httpx.TimeoutException; [e] is [str(e)] *)
| RequestError (e : string)       (* any other httpx.RequestError *)
| Propagated (e : exn).           (* an exception [_request] does not catch *)

Definition transport : Type := list Request -> Request -> outcome.

(** A client operation: it may issue requests, which are appended to the
    log, and returns or raises. *)
Definition io (A : Type) : Type := list Request -> result A * list Request.

Record client : Type := mk_client {
  base_url : string;
  timeout : number;
  client_headers : list (string * string)
}.

Definition number_str (L : stdlib) (n : number) : string :=
  match n with
  | NInt z => str_of_int z
  | NFloat f => float_repr L f
  end.

Definition NotImplementedError (msg : string) : exn :=
  builtin C_NotImplementedError msg.

(** [response.json() if response.text else None], as an error payload. *)
Definition error_body (r : Response) : result (option json) :=
  if String.eqb (resp_text r) "" then Ok None
  else body <- resp_json r ;; Ok (Some body).

(* client.py, lines 111-143 (and 375-407): status dispatch, then parsing *)
Definition handle_response (path : string) (r : Response) : result json :=
  let code := resp_status_code r in
  if code =? 404 then
    Raise (NotFoundError (String.append "Resource not found: " path) None)
  else if code =? 400 then
    body <- error_body r ;;
    Raise (ValidationError (String.append "Validation error: " (resp_text r)) body)
  else if code =? 401 then
    Raise (AuthenticationError "Authentication required" None)
  else if code =? 429 then
    retry <- match resp_header r "Retry-After" with
             | Some v => if String.eqb v "" then Ok None
                         else n <- int_of_str v ;; Ok (Some n)
             | None => Ok None
             end ;;
    Raise (RateLimitError "Rate limit exceeded" retry None)
  else if 500 <=? code then
    Raise (ServerError (String.append "Server error: " (str_of_int code)) code None)
  else if negb (is_success r) then
    body <- error_body r ;;
    Raise (APIError (String.append "API error: " (str_of_int code)) code body)
  else if (code =? 204) || String.eqb (resp_text r) "" then
    Ok (JDict [])
  else
    match resp_json r with
    | Ok v => Ok v
    | Raise e =>
        if isinstance e "JSONDecodeError"
        then Raise (APIError (String.append "Invalid JSON response: " (message e))
                             code None)
        else Raise e
    end.

(* client.py, line 102: url = f"{self.base_url}/{path.lstrip('/')}" *)
Definition request_of (self : client) (method path : string)
           (body : option json) : Request :=
  mk_Request method
    (String.append (base_url self) (String.append "/" (lstrip "/" path)))
    body.

(* client.py, lines 104-109 (and 368-373): the exchange and its failures *)
Definition exchange (L : stdlib) (T : transport) (self : client)
           (method path : string) (body : option json) : io json :=
  fun log =>
    let request := request_of self method path body in
    let log' := (log ++ [request])%list in
    match T log request with
    | TimeoutException _ =>
        (Raise (APIError (String.append "Request timed out after "
                            (String.append (number_str L (timeout self)) "s"))
                         0 None), log')
    | RequestError e =>
        (Raise (APIError (String.append "Request failed: " e) 0 None), log')
    | Propagated e => (Raise e, log')
    | Responded r => (handle_response path r, log')
    end.

Module BountyBoardClient.
(* client.py, lines 83-143 *)
Definition _request := exchange.

(* client.py, lines 197-229 *)
Definition create_bounty (self : client) (title description : string)
           (reward_usdc : Decimal) (requirements : list string)
           (tags : option (list string)) (deadline : option string)
  : io Bounty.t :=
  fun log =>
    (Raise (NotImplementedError
              (String.append
                 "x402 payment implementation required. "
                 "Use the x402 library to sign payments and include X-Payment header.")),
     log).
End BountyBoardClient.

Module AsyncBountyBoardClient.
(* client.py, lines 347-407: the same body, awaited *)
Definition _request := exchange.
End AsyncBountyBoardClient.

(** ** A sample host

    One instance of [stdlib], to run the model on concrete inputs: CPython on
    a POSIX host whose local time zone is UTC, on ASCII text.  Each function
    is exact on the inputs it accepts; the inputs it does not describe are
    named at each function and are not used below. *)

Module sample_host.

(** [str.lower] on ASCII letters. *)
Definition ascii_lower (c : ascii) : ascii :=
  let n := nat_of_ascii c in
  if Nat.leb 65 n && Nat.leb n 90 then ascii_of_nat (n + 32) else c.

Fixpoint str_lower (s : string) : string :=
  match s with
  | EmptyString => EmptyString
  | String c s' => String (ascii_lower c) (str_lower s')
  end.

(** Microseconds between 0001-01-01 and 1970-01-01 (719162 days). *)
Definition epoch_us : Z := 62135596800000000.

(** Round the rational [n / d] ([d > 0]) to the nearest integer, ties to
    even. *)
Definition round_half_even_div (n d : Z) : Z :=
  let q := n / d in
  let r := n mod d in
  if 2 * r <? d then q
  else if d <? 2 * r then q + 1
  else if Z.even q then q else q + 1.

(** The timestamp in microseconds, rounded half to even. *)
Definition timestamp_us (n : number) : result Z :=
  match n with
  | NInt z => Ok (z * 1000000)
  | NFloat f =>
      match Prim2SF f with
      | S754_zero _ => Ok 0
      | S754_finite s m e =>
          let num := (if s then Zneg m else Zpos m) * 1000000 in
          Ok (if 0 <=? e then num * 2 ^ e
              else round_half_even_div num (2 ^ (- e)))
      | S754_infinity _ => Raise OverflowError
      | S754_nan => Raise ValueError
      end
  end.

(** [datetime.fromtimestamp] in the UTC zone: a naive value, [ValueError]
    for a year outside 1..9999, [OverflowError] beyond the range of the
    platform's [time_t]. *)
Definition fromtimestamp (n : number) : result datetime :=
  us <- timestamp_us n ;;
  if (us <? - (2 ^ 63) * 1000000) || (2 ^ 63 * 1000000 <=? us)
  then Raise OverflowError
  else
    let wall := epoch_us + us in
    if (wall <? 0) || (wall_us datetime_max <? wall) then Raise ValueError
    else Ok (mk_datetime wall None).

(** Decimal fields of fixed width. *)
Fixpoint digits_value (l : list ascii) (acc : Z) : option Z :=
  match l with
  | [] => Some acc
  | c :: l' => match digit_of c with
               | Some d => digits_value l' (10 * acc + d)
               | None => None
               end
  end.

Definition is_leap (y : Z) : bool :=
  (y mod 4 =? 0) && (negb (y mod 100 =? 0) || (y mod 400 =? 0)).

Definition days_in_month (y m : Z) : Z :=
  if m =? 2 then (if is_leap y then 29 else 28)
  else if (m =? 4) || (m =? 6) || (m =? 9) || (m =? 11) then 30 else 31.

Fixpoint days_before_month (y : Z) (m : nat) : Z :=
  match m with
  | O => 0
  | S m' => days_in_month y (Z.of_nat m') + days_before_month y m'
  end.

(** Days from 0001-01-01 to the given date of the proleptic Gregorian
    calendar. *)
Definition days_from_civil (y m d : Z) : Z :=
  let y' := y - 1 in
  365 * y' + y' / 4 - y' / 100 + y' / 400
  + (days_before_month y (Z.to_nat m) - days_in_month y 0) + (d - 1).

Definition option_bind {A B : Type} (o : option A) (k : A -> option B) : option B :=
  match o with Some a => k a | None => None end.

(** [YYYY-MM-DD]. *)
Definition parse_date (l : list ascii) : option Z :=
  match l with
  | [y1; y2; y3; y4; "-"%char; m1; m2; "-"%char; d1; d2] =>
      option_bind (digits_value [y1; y2; y3; y4] 0) (fun y =>
      option_bind (digits_value [m1; m2] 0) (fun m =>
      option_bind (digits_value [d1; d2] 0) (fun d =>
      if (1 <=? y) && (1 <=? m) && (m <=? 12) && (1 <=? d)
         && (d <=? days_in_month y m)
      then Some (days_from_civil y m d * 86400000000) else None)))
  | _ => None
  end.

(** [HH:MM:SS], then [.fff] or [.ffffff], as microseconds of the day, with
    the rest of the text. *)
Definition parse_clock (l : list ascii) : option (Z * list ascii) :=
  match l with
  | h1 :: h2 :: ":"%char :: m1 :: m2 :: ":"%char :: s1 :: s2 :: rest =>
      option_bind (digits_value [h1; h2] 0) (fun h =>
      option_bind (digits_value [m1; m2] 0) (fun m =>
      option_bind (digits_value [s1; s2] 0) (fun s =>
      if (h <? 24) && (m <? 60) && (s <? 60) then
        let base := ((h * 60 + m) * 60 + s) * 1000000 in
        match rest with
        | "."%char :: f1 :: f2 :: f3 :: rest' =>
            match rest' with
            | f4 :: f5 :: f6 :: rest'' =>
                match digits_value [f1; f2; f3; f4; f5; f6] 0 with
                | Some f => Some (base + f, rest'')
                | None =>
                    option_bind (digits_value [f1; f2; f3] 0) (fun f =>
                    Some (base + f * 1000, rest'))
                end
            | _ =>
                option_bind (digits_value [f1; f2; f3] 0) (fun f =>
                Some (base + f * 1000, rest'))
            end
        | _ => Some (base, rest)
        end
      else None)))
  | _ => None
  end.

(** [+HH:MM] or [-HH:MM], in microseconds. *)
Definition parse_offset (l : list ascii) : option (option Z) :=
  match l with
  | [] => Some None
  | [sign; h1; h2; ":"%char; m1; m2] =>
      option_bind (digits_value [h1; h2] 0) (fun h =>
      option_bind (digits_value [m1; m2] 0) (fun m =>
      let off := (h * 60 + m) * 60000000 in
      if (h <? 24) && (m <? 60) then
        if Ascii.eqb sign "+" then Some (Some off)
        else if Ascii.eqb sign "-" then Some (Some (- off))
        else None
      else None))
  | _ => None
  end.

(** [datetime.fromisoformat] on [YYYY-MM-DD] and on
    [YYYY-MM-DD?HH:MM:SS[.fff[fff]][+HH:MM]] ([?] any one character), the
    forms every supported interpreter accepts; [ValueError] otherwise
    (recent interpreters accept further ISO-8601 forms). *)
Definition fromisoformat (s : string) : result datetime :=
  let l := list_ascii_of_string s in
  let parsed :=
    option_bind (parse_date (firstn 10 l)) (fun day =>
    match skipn 10 l with
    | [] => Some (mk_datetime day None)
    | _ :: t =>
        option_bind (parse_clock t) (fun '(clock, rest) =>
        option_bind (parse_offset rest) (fun off =>
        Some (mk_datetime (day + clock) off)))
    end) in
  match parsed with
  | Some d => Ok d
  | None => Raise ValueError
  end.

(** [Decimal(x)] for a string of decimal digits, [None] and a [dict];
    everything else is declined with [InvalidOperation], which is what
    CPython answers to a string that is not a number. *)
Definition Decimal_of_object (x : json) : result Decimal :=
  match x with
  | JStr s => match parse_digits s 0 false with
              | Some n => Ok (Finite false n 0)
              | None => Raise InvalidOperation
              end
  | JNull => Raise TypeError
  | JDict _ => Raise TypeError
  | _ => Raise InvalidOperation
  end.

(** [sorted] on keys that mix naive instants with other objects: the
    [TypeError] of a comparison between unlike objects.  (Keys that are all
    aware instants, or all lists, Python can order; the sample host is not
    asked to.) *)
Definition sorted_objects (A : Type) (l : list (object * A)) (reverse : bool)
  : result (list A) := Raise TypeError.

(** [repr] of a float with an integral value below 1e16, such as [30.0];
    other values are shown by their integer part. *)
Definition float_repr (f : float) : string :=
  match Prim2SF f with
  | S754_zero s => if s then "-0.0" else "0.0"
  | S754_finite s m e =>
      let n := if 0 <=? e then Zpos m * 2 ^ e else Zpos m / 2 ^ (- e) in
      String.append (str_of_int (if s then - n else n)) ".0"
  | S754_infinity s => if s then "-inf" else "inf"
  | S754_nan => "nan"
  end.

Definition host : stdlib :=
  mk_stdlib fromtimestamp fromisoformat str_lower Decimal_of_object
            sorted_objects float_repr.

End sample_host.

(** ** The entities of the domain model, taken together *)

Inductive entity : Type :=
| E_Bounty | E_Submission | E_Rejection | E_Payment | E_PendingPayment
| E_Stats | E_TokenConfig | E_X402Config.

Definition instance (k : entity) : Type :=
  match k with
  | E_Bounty => Bounty.t
  | E_Submission => Submission.t
  | E_Rejection => Rejection.t
  | E_Payment => Payment.t
  | E_PendingPayment => PendingPayment.t
  | E_Stats => Stats.t
  | E_TokenConfig => TokenConfig.t
  | E_X402Config => X402Config.t
  end.

Definition from_dict (L : stdlib) (k : entity) (data : json) : result (instance k) :=
  match k with
  | E_Bounty => Bounty.from_dict L data
  | E_Submission => Submission.from_dict L data
  | E_Rejection => Rejection.from_dict L data
  | E_Payment => Payment.from_dict L data
  | E_PendingPayment => PendingPayment.from_dict data
  | E_Stats => Stats.from_dict data
  | E_TokenConfig => TokenConfig.from_dict data
  | E_X402Config => X402Config.from_dict data
  end.

(** The keys [from_dict] reads with [data[key]], in the order it reads them. *)
Definition required (k : entity) : list string :=
  match k with
  | E_Bounty => Bounty.required
  | E_Submission => Submission.required
  | E_Rejection => Rejection.required
  | E_Payment => Payment.required
  | E_PendingPayment => PendingPayment.required
  | E_Stats => Stats.required
  | E_TokenConfig => TokenConfig.required
  | E_X402Config => X402Config.required
  end.

(** The entities whose constructor only reads required keys before it
    converts anything. *)
Definition reads_keys_first (k : entity) : bool :=
  match k with
  | E_Submission | E_PendingPayment | E_Stats | E_TokenConfig => true
  | _ => false
  end.

Definition lacks (keys : list string) (d : list (string * json)) : Prop :=
  exists k, In k keys /\ dict_lookup d k = None.

Fixpoint first_missing (keys : list string) (d : list (string * json))
  : option string :=
  match keys with
  | [] => None
  | k :: rest => match dict_lookup d k with
                 | None => Some k
                 | Some _ => first_missing rest d
                 end
  end.

(** ** The stages of [BountyFilter.apply] as a list *)

Definition predicate : Type := Bounty.t -> result bool.

Fixpoint run_stages (stages : list (option predicate)) (bounties : list Bounty.t)
  : result (list Bounty.t) :=
  match stages with
  | [] => Ok bounties
  | None :: rest => run_stages rest bounties
  | Some p :: rest =>
      kept <- comprehension_if p bounties ;; run_stages rest kept
  end.

Definition stages_of (L : stdlib) (f : BountyFilter.t) : list (option predicate) :=
  [ match BountyFilter.statuses f with
    | [] => None
    | _ => Some (BountyFilter.status_stage f)
    end;
    match BountyFilter.tags f with
    | [] => None
    | _ => Some (BountyFilter.has_all_tags L (BountyFilter.tags f))
    end;
    option_map (BountyFilter.min_reward_stage L) (BountyFilter.min_reward f);
    option_map (BountyFilter.max_reward_stage L) (BountyFilter.max_reward f);
    option_map (BountyFilter.creator_stage L)
               (BountyFilter.nonempty (BountyFilter.creator f));
    option_map (BountyFilter.claimed_by_stage L)
               (BountyFilter.nonempty (BountyFilter.claimed_by f));
    option_map (BountyFilter.search_stage L)
               (BountyFilter.nonempty (BountyFilter.search_query f));
    BountyFilter.custom_filter f ].

(** Every bounty of the list passes every stage that is switched on. *)
Definition passes (stages : list (option predicate)) (l : list Bounty.t) : Prop :=
  forall p, In (Some p) stages -> forall x, In x l -> p x = Ok true.

(** ** Number predicates and exactness *)

Definition is_negative (n : number) : bool :=
  match n with
  | NInt z => z <? 0
  | NFloat f => PrimFloat.ltb f 0%float
  end.

Definition is_non_finite (n : number) : bool :=
  match n with
  | NInt _ => false
  | NFloat f => PrimFloat.is_nan f || PrimFloat.is_infinity f
  end.

(** The accessor returned a finite decimal whose value is [r / 1000000]. *)
Definition exactly_micro (res : result Decimal) (r : Z) : Prop :=
  exists d q, res = Ok d /\ value d = Some q /\ Qeq q (Qmake r 1000000).

(** [usdc_to_micro(micro_to_usdc(m))]. *)
Definition micro_round_trip (m : Z) : result Z :=
  usdc <- micro_to_usdc m ;; usdc_to_micro usdc.

(** ** The claims that the code does not satisfy, as they are worded *)

(** "Every JSON object lacking a required field makes the constructor fail
    with a MissingFieldError." *)
Definition missing_field_error_claim (L : stdlib) (k : entity)
           (d : list (string * json)) : Prop :=
  lacks (required k) d -> raises (from_dict L k (JDict d)) "MissingFieldError".

(** "A string not conforming to ISO-8601, or a negative or non-finite number,
    makes the normalizer fail with a ParseError."  A string does not conform
    when [fromisoformat] rejects it. *)
Definition rejected_timestamp (L : stdlib) (ts : json) : Prop :=
  (exists s, ts = JStr s /\ fails (fromisoformat L (str_replace "Z" "+00:00" s)))
  \/ (exists n, as_number ts = Some n
                /\ (is_negative n = true \/ is_non_finite n = true)).

Definition parse_error_claim (L : stdlib) (ts : json) : Prop :=
  rejected_timestamp L ts -> raises (_parse_timestamp L ts) "ParseError".

(** "For every integer [r] the accessor equals [r / 1000000] exactly." *)
Definition exact_reward_claim (L : stdlib) (r : Z) : Prop :=
  forall b, Bounty.reward b = JInt r -> exactly_micro (Bounty.reward_usdc L b) r.

(** "For every integer [m], [usdc_to_micro(micro_to_usdc(m))] equals [m]." *)
Definition round_trip_claim (m : Z) : Prop := micro_round_trip m = Ok m.

(** ** Sample data (tests/conftest.py) *)

Module fixtures.

Definition sample_bounty_data : list (string * json) :=
  [ ("id", JStr "143");
    ("uuid", JStr "7c590dc7-93f0-4ba7-a2e6-7c430bb29b96");
    ("title", JStr "Write AI Agent Negotiation Simulation");
    ("description", JStr "Create a simulation showing two AI agents negotiating...");
    ("reward", JStr "20000000");
    ("rewardFormatted", JStr "20.00 USDC");
    ("status", JStr "open");
    ("creator", JStr "0xccD7200024A8B5708d381168ec2dB0DC587af83F");
    ("deadline", JStr "2026-02-20");
    ("claimedBy", JNull);
    ("createdAt", JInt 1770449294859);
    ("updatedAt", JInt 1770449294859);
    ("tags", JList [JStr "coding"; JStr "simulation"; JStr "agents";
                    JStr "coordination"]);
    ("submissions", JList []);
    ("requirements", JList [JStr "Working negotiation demo";
                            JStr "2+ agent interaction";
                            JStr "Protocol documentation";
                            JStr "Source code"]) ].

Definition sample_completed_bounty_data : list (string * json) :=
  [ ("id", JStr "108");
    ("uuid", JStr "ab244eb8-a44f-4e68-a907-a68dad4ee04d");
    ("title", JStr "Build Farcaster Mini-App for Bounties");
    ("description", JStr "Create a Farcaster Frame or mini-app...");
    ("reward", JStr "573000000");
    ("rewardFormatted", JStr "573.00 USDC");
    ("status", JStr "completed");
    ("creator", JStr "0xA85bf3202d9716F2dD263ED3dE090D350f0822E4");
    ("deadline", JInt 1771045906751);
    ("claimedBy", JStr "0xa85bf3202d9716f2dd263ed3de090d350f0822e4");
    ("claimedAt", JInt 1770441109598);
    ("createdAt", JInt 1770441106751);
    ("updatedAt", JInt 1770441207394);
    ("approvedAt", JInt 1770441179737);
    ("completedAt", JInt 1770441207394);
    ("tags", JList [JStr "coding"; JStr "farcaster"]);
    ("submissions",
     JList [JDict [ ("id", JStr "12e9eccd-6abd-4468-9bb1-2ef07db781af");
                    ("proof", JNull);
                    ("content", JStr "submitted bounty");
                    ("submittedAt", JInt 1770441177949) ]]);
    ("requirements", JList []);
    ("payment",
     JDict [ ("fee", JInt 28650000);
             ("chain", JStr "base");
             ("token", JStr "USDC");
             ("txHash", JStr "0x5c95e030384679c67b4ebbbcaa78d34683e9db366e53622a3f3ae880792b51a1");
             ("netReward", JInt 544350000);
             ("feePercent", JStr "5%");
             ("grossReward", JInt 573000000);
             ("processedAt", JStr "2026-02-07T05:13:27.394Z");
             ("processedBy", JStr "payment-relay");
             ("feeFormatted", JStr "28.65 USDC");
             ("netRewardFormatted", JStr "544.35 USDC") ]) ].

(** A bounty with the given identifier, reward and deadline, open and
    otherwise empty. *)
Definition bounty (id : string) (reward : Z) (deadline : option object)
  : Bounty.t :=
  Bounty.mk (JStr id) (JStr id) (JStr id) (JStr "") (JInt reward)
            (JStr "") OPEN (JStr "0xabc") deadline (JList []) (JList [])
            [] (mk_datetime sample_host.epoch_us None)
            (mk_datetime sample_host.epoch_us None)
            JNull None None None JNull None None [].

(** 2026-02-14T00:00:00, naive. *)
Definition february_14 : datetime := mk_datetime 63906624000000000 None.

Definition dated : Bounty.t := bounty "dated" 20000000 (Some (Instant february_14)).
Definition undated : Bounty.t := bounty "undated" 20000000 None.
Definition bare_date : Bounty.t :=
  bounty "bare" 20000000 (Some (Plain (JStr "2026-02-20"))).

Definition a_client : client :=
  mk_client "https://bounty.owockibot.xyz" (NFloat 30%float) [].

(** A server that answers every request with the given status, the header
    [Retry-After: 5] and an empty body. *)
Definition answering (code : Z) : transport :=
  fun _ _ =>
    Responded (mk_Response code ""
                 (fun name => if String.eqb name "Retry-After"
                              then Some "5" else None)
                 (Raise (builtin C_JSONDecodeError ""))).

Definition timing_out : transport :=
  fun _ _ => TimeoutException "timed out".

End fixtures.

(** * The rest of the package

    The functions of [models.py], [filters.py], [utils.py] and [client.py]
    that the statements above do not use, on the same values. *)

(** ** filters.py: the builder and the free functions

    A builder method changes the filter in place and returns it; here it
    returns the changed filter. *)

Module builder.
(* filters.py, lines 34-44 *)
Definition with_status (self : BountyFilter.t) (statuses : list BountyStatus)
  : BountyFilter.t :=
  BountyFilter.mk (BountyFilter.statuses self ++ statuses)%list
    (BountyFilter.tags self) (BountyFilter.min_reward self)
    (BountyFilter.max_reward self) (BountyFilter.creator self)
    (BountyFilter.claimed_by self) (BountyFilter.search_query self)
    (BountyFilter.custom_filter self).

(* filters.py, lines 46-56 *)
Definition with_tags (self : BountyFilter.t) (tags : list string)
  : BountyFilter.t :=
  BountyFilter.mk (BountyFilter.statuses self)
    (BountyFilter.tags self ++ tags)%list (BountyFilter.min_reward self)
    (BountyFilter.max_reward self) (BountyFilter.creator self)
    (BountyFilter.claimed_by self) (BountyFilter.search_query self)
    (BountyFilter.custom_filter self).

(* filters.py, lines 71-73: both sets are built in full before they are
   intersected *)
Definition any_tag_filter (L : stdlib) (tag_set : list string)
           (bounty : Bounty.t) : result bool :=
  items <- iterate (Bounty.tags bounty) ;;
  bounty_tags <- comprehension (lower L) items ;;
  Ok (existsb (fun t => existsb (String.eqb t) bounty_tags) tag_set).

(* filters.py, lines 58-76 *)
Definition with_any_tags (L : stdlib) (self : BountyFilter.t)
           (tags : list string) : BountyFilter.t :=
  BountyFilter.mk (BountyFilter.statuses self) (BountyFilter.tags self)
    (BountyFilter.min_reward self) (BountyFilter.max_reward self)
    (BountyFilter.creator self) (BountyFilter.claimed_by self)
    (BountyFilter.search_query self)
    (Some (any_tag_filter L (map (str_lower L) tags))).

(* filters.py, lines 78-88 *)
Definition with_min_reward (self : BountyFilter.t) (amount : Decimal)
  : BountyFilter.t :=
  BountyFilter.mk (BountyFilter.statuses self) (BountyFilter.tags self)
    (Some amount) (BountyFilter.max_reward self) (BountyFilter.creator self)
    (BountyFilter.claimed_by self) (BountyFilter.search_query self)
    (BountyFilter.custom_filter self).

(* filters.py, lines 90-100 *)
Definition with_max_reward (self : BountyFilter.t) (amount : Decimal)
  : BountyFilter.t :=
  BountyFilter.mk (BountyFilter.statuses self) (BountyFilter.tags self)
    (BountyFilter.min_reward self) (Some amount) (BountyFilter.creator self)
    (BountyFilter.claimed_by self) (BountyFilter.search_query self)
    (BountyFilter.custom_filter self).

(* filters.py, lines 102-114 *)
Definition with_reward_range (self : BountyFilter.t)
           (min_amount max_amount : Decimal) : BountyFilter.t :=
  BountyFilter.mk (BountyFilter.statuses self) (BountyFilter.tags self)
    (Some min_amount) (Some max_amount) (BountyFilter.creator self)
    (BountyFilter.claimed_by self) (BountyFilter.search_query self)
    (BountyFilter.custom_filter self).

(* filters.py, lines 116-126 *)
Definition with_creator (L : stdlib) (self : BountyFilter.t) (creator : string)
  : BountyFilter.t :=
  BountyFilter.mk (BountyFilter.statuses self) (BountyFilter.tags self)
    (BountyFilter.min_reward self) (BountyFilter.max_reward self)
    (Some (str_lower L creator)) (BountyFilter.claimed_by self)
    (BountyFilter.search_query self) (BountyFilter.custom_filter self).

(* filters.py, lines 128-138 *)
Definition with_claimed_by (L : stdlib) (self : BountyFilter.t)
           (claimant : string) : BountyFilter.t :=
  BountyFilter.mk (BountyFilter.statuses self) (BountyFilter.tags self)
    (BountyFilter.min_reward self) (BountyFilter.max_reward self)
    (BountyFilter.creator self) (Some (str_lower L claimant))
    (BountyFilter.search_query self) (BountyFilter.custom_filter self).

(* filters.py, lines 140-150 *)
Definition search (L : stdlib) (self : BountyFilter.t) (query : string)
  : BountyFilter.t :=
  BountyFilter.mk (BountyFilter.statuses self) (BountyFilter.tags self)
    (BountyFilter.min_reward self) (BountyFilter.max_reward self)
    (BountyFilter.creator self) (BountyFilter.claimed_by self)
    (Some (str_lower L query)) (BountyFilter.custom_filter self).

(** [bool(d)] for a Decimal: false for the zeros only. *)
Definition Decimal_truthy (d : Decimal) : bool :=
  match d with
  | Finite _ c _ => negb (c =? 0)
  | _ => true
  end.

(** [params[key] = value] on a dict that does not have the key yet. *)
Definition set_param (params : list (string * json)) (key : string)
           (value : json) : list (string * json) :=
  (params ++ [(key, value)])%list.

(** [int(amount * 1_000_000)]. *)
Definition micro_param (amount : Decimal) : result json :=
  p <- mul amount (of_int 1000000) ;; n <- to_int p ;; Ok (JInt n).

(* filters.py, lines 199-228 *)
Definition to_query_params (self : BountyFilter.t)
  : result (list (string * json)) :=
  let params := [] in
  let params :=
    match BountyFilter.statuses self with
    | [] => params
    | sts => set_param params "status"
               (JStr (String.concat "," (map BountyStatus_value sts)))
    end in
  let params :=
    match BountyFilter.tags self with
    | [] => params
    | tgs => set_param params "tags" (JStr (String.concat "," tgs))
    end in
  params <-
    match BountyFilter.min_reward self with
    | Some d => if Decimal_truthy d
                then v <- micro_param d ;; Ok (set_param params "minReward" v)
                else Ok params
    | None => Ok params
    end ;;
  params <-
    match BountyFilter.max_reward self with
    | Some d => if Decimal_truthy d
                then v <- micro_param d ;; Ok (set_param params "maxReward" v)
                else Ok params
    | None => Ok params
    end ;;
  let params :=
    match BountyFilter.nonempty (BountyFilter.creator self) with
    | Some c => set_param params "creator" (JStr c)
    | None => params
    end in
  let params :=
    match BountyFilter.nonempty (BountyFilter.search_query self) with
    | Some q => set_param params "q" (JStr q)
    | None => params
    end in
  Ok params.
End builder.

(* filters.py, lines 231-241 *)
Definition filter_by_tags (L : stdlib) (bounties : list Bounty.t)
           (tags : list string) : result (list Bounty.t) :=
  BountyFilter.apply L (builder.with_tags BountyFilter.new tags) bounties.

(* filters.py, lines 244-253 *)
Definition filter_open (L : stdlib) (bounties : list Bounty.t)
  : result (list Bounty.t) :=
  BountyFilter.apply L (builder.with_status BountyFilter.new [OPEN]) bounties.

(* filters.py, lines 256-266 *)
Definition search_bounties (L : stdlib) (bounties : list Bounty.t)
           (query : string) : result (list Bounty.t) :=
  BountyFilter.apply L (builder.search L BountyFilter.new query) bounties.

(** [sorted] on keys that are all [int] ([bool] included): the same stable
    sort; other keys (strings, floats, a mixture) are left to the library. *)
Definition int_key (o : object) : option Z :=
  match o with
  | Plain (JInt z) => Some z
  | Plain (JBool b) => Some (if b then 1 else 0)
  | _ => None
  end.

Fixpoint int_keys {A : Type} (l : list (object * A)) : option (list (Z * A)) :=
  match l with
  | [] => Some []
  | (o, x) :: l' =>
      match int_key o, int_keys l' with
      | Some k, Some r => Some ((k, x) :: r)
      | _, _ => None
      end
  end.

Definition sorted_ints {A : Type} (L : stdlib) (keyed : list (object * A))
           (reverse : bool) : result (list A) :=
  match keyed with
  | [] | [_] => Ok (map snd keyed)
  | _ =>
      match int_keys keyed with
      | Some l =>
          Ok (map snd (if reverse then rev (stable_sort (rev l))
                       else stable_sort l))
      | None => sorted_objects L keyed reverse
      end
  end.

(* filters.py, lines 269-279 *)
Definition sort_by_reward (L : stdlib) (bounties : list Bounty.t)
           (descending : bool) : result (list Bounty.t) :=
  sorted_ints L (map (fun b => (Plain (Bounty.reward b), b)) bounties) descending.

(* filters.py, lines 282-292 *)
Definition sort_by_created (L : stdlib) (bounties : list Bounty.t)
           (descending : bool) : result (list Bounty.t) :=
  sorted L (map (fun b => (Instant (Bounty.created_at b), b)) bounties) descending.

(** ** utils.py: grouping, tags and display *)

(** A [dict] from strings to lists, in insertion order:
    [if key not in d: d[key] = []] then [d[key].append(v)]. *)
Fixpoint dict_append {V : Type} (d : list (string * list V)) (key : string)
         (v : V) : list (string * list V) :=
  match d with
  | [] => [(key, [v])]
  | (k, l) :: d' =>
      if String.eqb k key then (k, (l ++ [v])%list) :: d'
      else (k, l) :: dict_append d' key v
  end.

Fixpoint groups_lookup {V : Type} (d : list (string * list V)) (key : string)
  : option (list V) :=
  match d with
  | [] => None
  | (k, l) :: d' => if String.eqb k key then Some l else groups_lookup d' key
  end.

(* utils.py, lines 94-109 *)
Definition group_by_status (bounties : list Bounty.t)
  : list (string * list Bounty.t) :=
  fold_left
    (fun groups bounty =>
       dict_append groups (BountyStatus_value (Bounty.status bounty)) bounty)
    bounties [].

(** The inner loop of [group_by_tag] for one bounty. *)
Fixpoint add_under_tags (L : stdlib) (groups : list (string * list Bounty.t))
         (bounty : Bounty.t) (tags : list json)
  : result (list (string * list Bounty.t)) :=
  match tags with
  | [] => Ok groups
  | tag :: rest =>
      tag_lower <- lower L tag ;;
      add_under_tags L (dict_append groups tag_lower bounty) bounty rest
  end.

Fixpoint group_by_tag_from (L : stdlib) (groups : list (string * list Bounty.t))
         (bounties : list Bounty.t)
  : result (list (string * list Bounty.t)) :=
  match bounties with
  | [] => Ok groups
  | bounty :: rest =>
      tags <- iterate (Bounty.tags bounty) ;;
      groups' <- add_under_tags L groups bounty tags ;;
      group_by_tag_from L groups' rest
  end.

(* utils.py, lines 112-128 *)
Definition group_by_tag (L : stdlib) (bounties : list Bounty.t)
  : result (list (string * list Bounty.t)) :=
  group_by_tag_from L [] bounties.

(** Python slice bounds: a negative index counts from the end, and both are
    clipped to the string. *)
Definition slice_index (len : nat) (i : Z) : nat :=
  if i <? 0 then Z.to_nat (Z.max (i + Z.of_nat len) 0)
  else Nat.min (Z.to_nat i) len.

(** [s[:i]] and [s[i:]]. *)
Definition slice_to (s : string) (i : Z) : string :=
  String.substring 0 (slice_index (String.length s) i) s.

Definition slice_from (s : string) (i : Z) : string :=
  let start := slice_index (String.length s) i in
  String.substring start (String.length s - start) s.

(* utils.py, lines 131-143 *)
Definition truncate_address (address : string) (chars : Z) : string :=
  if Z.of_nat (String.length address) <=? chars * 2 + 2 then address
  else String.append (slice_to address (chars + 2))
         (String.append "..." (slice_from address (- chars))).

(** ** client.py: the operations

    The two clients have the same operations; the asynchronous one awaits
    [_request] where the synchronous one calls it. *)

(** [s.rstrip(ch)] for a single character. *)
Definition rstrip (ch : ascii) (s : string) : string :=
  str_rev (lstrip ch (str_rev s)).

Definition io_bind {A B : Type} (m : io A) (k : A -> io B) : io B :=
  fun log =>
    match m log with
    | (Ok a, log') => k a log'
    | (Raise e, log') => (Raise e, log')
    end.

(** A computation that issues no request. *)
Definition pure {A : Type} (r : result A) : io A := fun log => (r, log).

(** [str(bounty_id)] for the [Union[str, int]] identifier. *)
Definition id_str (bounty_id : string + Z) : string :=
  match bounty_id with
  | inl s => s
  | inr n => str_of_int n
  end.

Module operations.
(* client.py, lines 54-69 (and 318-333): base_url.rstrip("/"), headers or {} *)
Definition init (base_url : string) (timeout : number)
           (headers : option (list (string * string))) : client :=
  mk_client (rstrip "/" base_url) timeout
    (match headers with Some h => h | None => [] end).

(* client.py, lines 145-155 (and 409-416) *)
Definition list_bounties (L : stdlib) (T : transport) (self : client)
  : io (list Bounty.t) :=
  io_bind (exchange L T self "GET" "/bounties" None) (fun data =>
  pure (items <- iterate data ;; comprehension (Bounty.from_dict L) items)).

(* client.py, lines 157-171 (and 418-428) *)
Definition get_bounty (L : stdlib) (T : transport) (self : client)
           (bounty_id : string + Z) : io Bounty.t :=
  io_bind (exchange L T self "GET"
             (String.append "/bounties/" (id_str bounty_id)) None)
          (fun data => pure (Bounty.from_dict L data)).

(* client.py, lines 173-183 (and 430-437) *)
Definition get_stats (L : stdlib) (T : transport) (self : client)
  : io Stats.t :=
  io_bind (exchange L T self "GET" "/stats" None)
          (fun data => pure (Stats.from_dict data)).

(* client.py, lines 185-195 (and 439-446) *)
Definition get_x402_config (L : stdlib) (T : transport) (self : client)
  : io X402Config.t :=
  io_bind (exchange L T self "GET" "/.well-known/x402" None)
          (fun data => pure (X402Config.from_dict data)).

(* client.py, lines 231-255 (and 448-467) *)
Definition claim_bounty (L : stdlib) (T : transport) (self : client)
           (bounty_id : string + Z) (wallet_address : string) : io Bounty.t :=
  io_bind (exchange L T self "POST"
             (String.append "/bounties/"
                (String.append (id_str bounty_id) "/claim"))
             (Some (JDict [("walletAddress", JStr wallet_address)])))
          (fun data => pure (Bounty.from_dict L data)).

(* client.py, lines 280-285: the proof is added when it is truthy *)
Definition submit_payload (wallet_address content : string)
           (proof : option string) : json :=
  let payload := [("walletAddress", JStr wallet_address);
                  ("content", JStr content)] in
  match BountyFilter.nonempty proof with
  | Some p => JDict (payload ++ [("proof", JStr p)])%list
  | None => JDict payload
  end.

(* client.py, lines 257-292 (and 469-500) *)
Definition submit_work (L : stdlib) (T : transport) (self : client)
           (bounty_id : string + Z) (wallet_address content : string)
           (proof : option string) : io Bounty.t :=
  io_bind (exchange L T self "POST"
             (String.append "/bounties/"
                (String.append (id_str bounty_id) "/submit"))
             (Some (submit_payload wallet_address content proof)))
          (fun data => pure (Bounty.from_dict L data)).
End operations.

(** ** Orders and keys, to state what the sorts return *)

Definition by_key {A : Type} : Z * A -> Z * A -> Prop := fun p q => fst p <= fst q.

Definition by_key_in {A : Type} (reverse : bool) (p q : Z * A) : Prop :=
  if reverse then by_key q p else by_key p q.

(** [sorted(..., reverse=flag)] on keys it orders itself. *)
Definition ordered {A : Type} (reverse : bool) (l : list (Z * A)) : list (Z * A) :=
  if reverse then rev (stable_sort (rev l)) else stable_sort l.

Definition keyed {A : Type} (key : A -> Z) (l : list A) : list (Z * A) :=
  map (fun x => (key x, x)) l.

Definition in_order {A : Type} (key : A -> Z) (reverse : bool) (x y : A) : Prop :=
  if reverse then key y <= key x else key x <= key y.

(** The reward as [sorted] compares it, when it is an [int]. *)
Definition has_int_reward (b : Bounty.t) : bool :=
  match int_key (Plain (Bounty.reward b)) with
  | Some _ => true
  | None => false
  end.

Definition reward_int (b : Bounty.t) : Z :=
  match int_key (Plain (Bounty.reward b)) with
  | Some z => z
  | None => 0
  end.

(** The creation time as [sorted] compares it, when it carries no offset. *)
Definition created_naive (b : Bounty.t) : bool :=
  match utcoffset (Bounty.created_at b) with
  | None => true
  | Some _ => false
  end.

Definition created_us (b : Bounty.t) : Z := wall_us (Bounty.created_at b).

(** The reward is an integer below 10^28 in magnitude, so that its quotient
    by 10^6 is exact. *)
Definition has_exact_reward (b : Bounty.t) : bool :=
  match int_key (Plain (Bounty.reward b)) with
  | Some z => Z.abs z <? 10 ^ 28
  | None => false
  end.

(** ** What [apply] keeps, as a boolean test *)

Definition ok_true (r : result bool) : bool :=
  match r with
  | Ok true => true
  | _ => false
  end.

(** The bounty passes every stage that is switched on. *)
Definition accepts (stages : list (option predicate)) (b : Bounty.t) : bool :=
  forallb (fun stage => match stage with
                        | None => true
                        | Some p => ok_true (p b)
                        end) stages.

(** Tags as the API sends them: a list of strings. *)
Fixpoint strings_of (l : list json) : option (list string) :=
  match l with
  | [] => Some []
  | JStr s :: rest => option_map (cons s) (strings_of rest)
  | _ => None
  end.

Definition tag_strings (b : Bounty.t) : option (list string) :=
  match Bounty.tags b with
  | JList l => strings_of l
  | _ => None
  end.

Definition has_string_tags (b : Bounty.t) : bool :=
  match tag_strings b with
  | Some _ => true
  | None => false
  end.

Definition tag_list (b : Bounty.t) : list string :=
  match tag_strings b with
  | Some l => l
  | None => []
  end.

(** The bounty carries the tag, letter case apart. *)
Definition has_tag (L : stdlib) (b : Bounty.t) (t : string) : bool :=
  existsb (String.eqb (str_lower L t)) (map (str_lower L) (tag_list b)).

(** Title and description are strings. *)
Definition has_text (b : Bounty.t) : bool :=
  match Bounty.title b, Bounty.description b with
  | JStr _, JStr _ => true
  | _, _ => false
  end.

Definition text_of (x : json) : string :=
  match x with
  | JStr s => s
  | _ => ""
  end.

(** The lower-cased query occurs in the lower-cased title or description. *)
Definition mentions (L : stdlib) (q : string) (b : Bounty.t) : bool :=
  str_contains q (str_lower L (text_of (Bounty.title b)))
  || str_contains q (str_lower L (text_of (Bounty.description b))).

(** ** Buckets, to state what the grouping functions return *)

Definition status_is (s : BountyStatus) (b : Bounty.t) : bool :=
  BountyStatus_eqb (Bounty.status b) s.

(** A bucket after more values were appended under its key; a key under
    which nothing was appended has no bucket. *)
Definition extended {V : Type} (bucket : option (list V)) (more : list V)
  : option (list V) :=
  match bucket, more with
  | Some l, _ => Some (l ++ more)%list
  | None, [] => None
  | None, _ => Some more
  end.

(** One copy of the bounty for each of its tags that is [k], letter case
    apart. *)
Definition tag_copies (L : stdlib) (k : string) (b : Bounty.t) : list Bounty.t :=
  map (fun _ => b) (filter (fun t => String.eqb (str_lower L t) k) (tag_list b)).

(** ** Responses and URLs, to state what the client does with them *)

(** The error payload [response.json() if response.text else None] can be
    computed: the body is empty or decodes. *)
Definition body_decodes (r : Response) : bool :=
  String.eqb (resp_text r) "" ||
  match resp_json r with
  | Ok _ => true
  | Raise _ => false
  end.

(** The [Retry-After] header is absent, empty or an integer. *)
Definition retry_after_valid (r : Response) : bool :=
  match resp_header r "Retry-After" with
  | None => true
  | Some v => String.eqb v "" ||
              match int_of_str v with
              | Ok _ => true
              | Raise _ => false
              end
  end.

(** The statuses [_request] names: each has a branch of its own. *)
Definition named_status (code : Z) : bool :=
  (code =? 404) || (code =? 400) || (code =? 401) || (code =? 429)
  || (500 <=? code).

Fixpoint slashes (n : nat) : string :=
  match n with
  | O => ""
  | S n' => String "/" (slashes n')
  end.

Definition starts_with_slash (s : string) : bool :=
  match s with
  | String c _ => Ascii.eqb c "/"
  | EmptyString => false
  end.

Definition ends_with_slash (s : string) : bool := starts_with_slash (str_rev s).

(** ** Entities, to state what the constructors accept *)


(** The entities whose constructor starts with a [data.get(...)]. *)
Definition starts_with_get (k : entity) : bool :=
  match k with
  | E_Bounty | E_Rejection => true
  | _ => false
  end.

Definition is_object (x : json) : bool :=
  match x with
  | JDict _ => true
  | _ => false
  end.

(** [data.get(key)] on an object. *)
Definition raw (d : list (string * json)) (key : string) : json :=
  match dict_lookup d key with
  | Some v => v
  | None => JNull
  end.

(** [data.get(key, [])] on an object. *)
Definition raw_list (d : list (string * json)) (key : string) : json :=
  match dict_lookup d key with
  | Some v => v
  | None => JList []
  end.

Definition is_set {A : Type} (o : option A) : bool :=
  match o with
  | Some _ => true
  | None => false
  end.

Definition is_text (x : json) : bool :=
  match x with
  | JStr _ => true
  | _ => false
  end.

Definition returns {A : Type} (r : result A) : bool :=
  match r with
  | Ok _ => true
  | Raise _ => false
  end.

(** ** More sample data *)

Module samples.
(** A bounty with the given status, reward, tags and creation time. *)
Definition bounty (id : string) (status : BountyStatus) (reward : Z)
           (tags : list string) (created_us : Z) : Bounty.t :=
  Bounty.mk (JStr id) (JStr id) (JStr (String.append "Bounty " id))
            (JStr "Write the Simulation") (JInt reward) (JStr "") status
            (JStr "0xabc") None (JList (map JStr tags)) (JList [])
            [] (mk_datetime created_us None) (mk_datetime created_us None)
            JNull None None None JNull None None [].

Definition first : Bounty.t :=
  bounty "1" OPEN 5000000 ["coding"; "Python"] 63906624000000000.
Definition second : Bounty.t :=
  bounty "2" CLAIMED 7000000 ["design"] 63906624000000001.
Definition third : Bounty.t :=
  bounty "3" OPEN 5000000 ["python"; "PYTHON"] 63906624000000000.
Definition board : list Bounty.t := [first; second; third].

(** The bounty built from [sample_bounty_data]. *)
Definition parsed : Bounty.t := Eval vm_compute in
    match Bounty.from_dict sample_host.host (JDict fixtures.sample_bounty_data) with
    | Ok b => b
    | Raise _ => first
    end.


(** A payment whose [processedAt] is in milliseconds. *)
Definition payment_in_milliseconds : list (string * json) :=
  [("fee", JInt 28650000); ("chain", JStr "base"); ("token", JStr "USDC");
   ("txHash", JStr "0xabc123"); ("netReward", JInt 544350000);
   ("grossReward", JInt 573000000); ("processedAt", JInt 1770441207394)].

(** A server that answers every request with the given status, headers and
    body; the body decodes to [decoded]. *)
Definition server (code : Z) (text : string) (retry_after : option string)
           (decoded : result json) : transport :=
  fun _ _ =>
    Responded (mk_Response code text
                 (fun name => if String.eqb name "Retry-After"
                              then retry_after else None)
                 decoded).

Definition not_json : result json := Raise (builtin C_JSONDecodeError "Expecting value").

Definition address : string := "0x833589fCD6eDb6E08f4c7C32D4f71b54bdA02913".
End samples.

(** * Properties *)

(** ** The model on the sample data *)

Example sample_bounty_parses :
  match Bounty.from_dict sample_host.host (JDict fixtures.sample_bounty_data) with
  | Ok b =>
      Bounty.id b = JStr "143"
      /\ Bounty.status b = OPEN
      /\ Bounty.is_open b = true
      /\ Bounty.is_completed b = false
      /\ Bounty.claimed_by b = JNull
      /\ Bounty.deadline b = Some (Plain (JStr "2026-02-20"))
      /\ Bounty.reward_usdc sample_host.host b = Ok (Finite false 20 0)
  | Raise _ => False
  end.
Proof. vm_compute. repeat split. Qed.

Example sample_completed_bounty_parses :
  match Bounty.from_dict sample_host.host
          (JDict fixtures.sample_completed_bounty_data) with
  | Ok b =>
      Bounty.status b = COMPLETED
      /\ List.length (Bounty.submissions b) = 1%nat
      /\ match Bounty.payment b with
         | Some p =>
             Payment.fee_usdc sample_host.host p = Ok (Finite false 2865 (-2))
             /\ Payment.net_reward_usdc sample_host.host p
                = Ok (Finite false 54435 (-2))
             /\ Payment.gross_reward_usdc sample_host.host p
                = Ok (Finite false 573 0)
         | None => False
         end
  | Raise _ => False
  end.
Proof. vm_compute. repeat split. Qed.

Example quotient_is_rounded :
  truediv (of_int 2) (of_int 3) = Ok (Finite false 6666666666666666666666666667 (-28)).
Proof. vm_compute. reflexivity. Qed.

Example int_of_str_examples :
  int_of_str "5" = Ok 5 /\ int_of_str " 5_0 " = Ok 50 /\ int_of_str "-0" = Ok 0
  /\ int_of_str "5.0" = Raise ValueError /\ int_of_str "" = Raise ValueError.
Proof. repeat split; reflexivity. Qed.

Example replace_every_Z : str_replace "Z" "+00:00" "abZcZ" = "ab+00:00c+00:00".
Proof. reflexivity. Qed.

Example descending_puts_undated_first :
  sort_by_deadline sample_host.host
    [fixtures.bare_date; fixtures.dated; fixtures.undated] true
  = Ok [fixtures.undated; fixtures.dated; fixtures.bare_date].
Proof. vm_compute. reflexivity. Qed.

(** ** Results and exceptions *)

Lemma bind_ok {A B : Type} (m : result A) (k : A -> result B) (b : B) :
  bind m k = Ok b -> exists a, m = Ok a /\ k a = Ok b.
Proof. destruct m as [a|e]; simpl; intros H; [eauto | discriminate]. Qed.

Lemma getitem_ok d key v :
  getitem (JDict d) key = Ok v -> dict_lookup d key = Some v.
Proof. simpl. destruct (dict_lookup d key); intros H; inversion H; reflexivity. Qed.

(** Peel the binds of a constructor that returned. *)
Ltac peel H :=
  repeat match type of H with
  | bind _ _ = Ok _ =>
      let a := fresh "v" in
      let Ha := fresh "Hv" in
      apply bind_ok in H; destruct H as [a [Ha H]]
  end.

Ltac present :=
  repeat match goal with
  | H : getitem (JDict _) _ = Ok _ |- _ => apply getitem_ok in H
  end.

(** Neither [MissingFieldError] nor [ParseError] is a class of the package
    or of the interpreter: no exception is an instance of either. *)
Lemma no_such_class e :
  isinstance e "MissingFieldError" = false /\ isinstance e "ParseError" = false.
Proof. destruct e as [c m s r a p]; destruct c; split; reflexivity. Qed.

(** ** Strings *)

Lemma substring_all s : String.substring 0 (String.length s) s = s.
Proof. induction s as [|c s IH]; simpl; [reflexivity | rewrite IH; reflexivity]. Qed.

Lemma replace_Z_step fuel c s new :
  str_replace_from (S fuel) "Z" new (String c s) =
  if Ascii.eqb c "Z" then String.append new (str_replace_from fuel "Z" new s)
  else String c (str_replace_from fuel "Z" new s).
Proof.
  cbn [str_replace_from String.prefix].
  destruct (ascii_dec "Z" c) as [<-|Hne].
  - cbn. rewrite Nat.sub_0_r, substring_all. destruct s; reflexivity.
  - destruct (Ascii.eqb_spec c "Z"); [subst; contradiction|]. reflexivity.
Qed.

Lemma contains_Z_cons c s :
  str_contains "Z" (String c s) = Ascii.eqb c "Z" || str_contains "Z" s.
Proof.
  cbn [str_contains String.prefix].
  destruct (ascii_dec "Z" c) as [<-|Hne]; [destruct s; reflexivity|].
  destruct (Ascii.eqb_spec c "Z"); [subst; contradiction|]. reflexivity.
Qed.

Lemma replace_without_Z new : forall s fuel,
  str_contains "Z" s = false -> str_replace_from fuel "Z" new s = s.
Proof.
  induction s as [|c s IH]; intros [|fuel] H; try reflexivity.
  rewrite replace_Z_step. rewrite contains_Z_cons in H.
  apply orb_false_iff in H. destruct H as [Hc Hs].
  rewrite Hc, IH by exact Hs. reflexivity.
Qed.

Lemma append_empty s : String.append s "" = s.
Proof. induction s as [|c s IH]; simpl; [reflexivity | rewrite IH; reflexivity]. Qed.

Lemma replace_empty fuel old new : str_replace_from fuel old new "" = "".
Proof. destruct fuel; reflexivity. Qed.

Lemma replace_trailing_Z new : forall s fuel,
  str_contains "Z" s = false -> (String.length s < fuel)%nat ->
  str_replace_from fuel "Z" new (String.append s "Z") = String.append s new.
Proof.
  induction s as [|c s IH]; intros [|fuel] H Hf; try (simpl in Hf; lia).
  - cbn [String.append]. rewrite replace_Z_step. cbn [Ascii.eqb Bool.eqb].
    rewrite replace_empty, append_empty. reflexivity.
  - cbn [String.append]. rewrite replace_Z_step. rewrite contains_Z_cons in H.
    apply orb_false_iff in H. destruct H as [Hc Hs].
    rewrite Hc, IH; [reflexivity | exact Hs | simpl in Hf; lia].
Qed.

Lemma length_append s t :
  String.length (String.append s t) = (String.length s + String.length t)%nat.
Proof. induction s; simpl; [reflexivity | rewrite IHs; reflexivity]. Qed.

(** ** The timestamp normalizer *)

(** C4: a number greater than 1e12 is divided by 1000 and the quotient is
    converted as seconds since the epoch; any other number is converted as
    seconds unchanged; a string is parsed by [fromisoformat], a trailing [Z]
    being replaced by [+00:00]. *)
Theorem parse_timestamp_cases (L : stdlib) :
  (forall z, 1000000000000 < z ->
     _parse_timestamp L (JInt z) = (f <- int_truediv z 1000 ;; fromtimestamp L (NFloat f)))
  /\ (forall z, z <= 1000000000000 ->
     _parse_timestamp L (JInt z) = fromtimestamp L (NInt z))
  /\ (forall f, PrimFloat.ltb 1e12%float f = true ->
     _parse_timestamp L (JFloat f) = fromtimestamp L (NFloat (f / 1000)%float))
  /\ (forall f, PrimFloat.ltb 1e12%float f = false ->
     _parse_timestamp L (JFloat f) = fromtimestamp L (NFloat f))
  /\ (forall s, str_contains "Z" s = false ->
     _parse_timestamp L (JStr (String.append s "Z"))
     = fromisoformat L (String.append s "+00:00"))
  /\ (forall s, str_contains "Z" s = false ->
     _parse_timestamp L (JStr s) = fromisoformat L s).
Proof.
  unfold _parse_timestamp. repeat split.
  - intros z Hz. cbn. destruct (Z.ltb_spec 1000000000000 z); [|lia].
    destruct (int_truediv z 1000); reflexivity.
  - intros z Hz. cbn. destruct (Z.ltb_spec 1000000000000 z); [lia|]. reflexivity.
  - intros f Hf. cbn. rewrite Hf. reflexivity.
  - intros f Hf. cbn. rewrite Hf. reflexivity.
  - intros s Hs. cbn. unfold str_replace.
    rewrite replace_trailing_Z; [reflexivity | exact Hs |].
    rewrite length_append. simpl. lia.
  - intros s Hs. cbn. unfold str_replace. rewrite replace_without_Z by exact Hs.
    reflexivity.
Qed.

Lemma parse_timestamp_cases_witness :
  _parse_timestamp sample_host.host (JInt 1770449294859)
    = Ok (mk_datetime 63906046094859000 None)
  /\ _parse_timestamp sample_host.host (JInt (-1))
    = Ok (mk_datetime 62135596799000000 None)
  /\ _parse_timestamp sample_host.host (JStr "2026-02-07T05:13:27.394Z")
    = Ok (mk_datetime 63906038007394000 (Some 0)).
Proof.
  destruct (parse_timestamp_cases sample_host.host) as [H1 [H2 [_ [_ [H5 _]]]]].
  split; [|split].
  - rewrite (H1 1770449294859) by lia. vm_compute. reflexivity.
  - rewrite (H2 (-1)) by lia. vm_compute. reflexivity.
  - change (JStr "2026-02-07T05:13:27.394Z")
      with (JStr (String.append "2026-02-07T05:13:27.394" "Z")).
    rewrite (H5 "2026-02-07T05:13:27.394" eq_refl). vm_compute. reflexivity.
Defined.

(** C3, as the code has it: a string that [fromisoformat] rejects and a
    number that [fromtimestamp] rejects make the normalizer fail with the
    exception of that library call; a negative number is handed to
    [fromtimestamp] like any other; no failure is a [ParseError]. *)
Theorem parse_timestamp_failures (L : stdlib) :
  (forall s e, fromisoformat L (str_replace "Z" "+00:00" s) = Raise e ->
     _parse_timestamp L (JStr s) = Raise e)
  /\ (forall ts n secs e, as_number ts = Some n ->
     (if gt_1e12 n then div_1000 n else Ok n) = Ok secs ->
     fromtimestamp L secs = Raise e -> _parse_timestamp L ts = Raise e)
  /\ (forall z, z < 0 -> _parse_timestamp L (JInt z) = fromtimestamp L (NInt z))
  /\ (forall ts, ~ raises (_parse_timestamp L ts) "ParseError").
Proof.
  repeat split.
  - intros s e H. unfold _parse_timestamp. cbn. exact H.
  - intros ts n secs e Hn Hs He. unfold _parse_timestamp. rewrite Hn, Hs. cbn. exact He.
  - intros z Hz. unfold _parse_timestamp. cbn.
    destruct (Z.ltb_spec 1000000000000 z); [lia | reflexivity].
  - intros ts [e [_ He]]. rewrite (proj2 (no_such_class e)) in He. discriminate.
Qed.

Lemma parse_timestamp_failures_witness :
  _parse_timestamp sample_host.host (JStr "not a date") = Raise ValueError
  /\ _parse_timestamp sample_host.host (JFloat infinity) = Raise OverflowError
  /\ _parse_timestamp sample_host.host (JInt (-1)) = sample_host.fromtimestamp (NInt (-1)).
Proof.
  destruct (parse_timestamp_failures sample_host.host) as [H1 [H2 [H3 _]]].
  split; [|split].
  - apply H1. vm_compute. reflexivity.
  - apply (H2 (JFloat infinity) (NFloat infinity) (NFloat (infinity / 1000)%float));
      vm_compute; reflexivity.
  - apply (H3 (-1)). lia.
Defined.

(** A negative number is converted, and a string that is not a date raises
    [ValueError]: neither fails with a [ParseError]. *)
Lemma parse_error_counterexample :
  rejected_timestamp sample_host.host (JInt (-1))
  /\ _parse_timestamp sample_host.host (JInt (-1)) = Ok (mk_datetime 62135596799000000 None)
  /\ ~ parse_error_claim sample_host.host (JInt (-1))
  /\ rejected_timestamp sample_host.host (JStr "not a date")
  /\ _parse_timestamp sample_host.host (JStr "not a date") = Raise ValueError
  /\ ~ parse_error_claim sample_host.host (JStr "not a date").
Proof.
  assert (R1 : rejected_timestamp sample_host.host (JInt (-1))).
  { right. exists (NInt (-1)). split; [reflexivity | left; reflexivity]. }
  assert (R2 : rejected_timestamp sample_host.host (JStr "not a date")).
  { left. exists "not a date". split; [reflexivity|].
    exists ValueError. vm_compute. reflexivity. }
  split; [exact R1|]. split; [vm_compute; reflexivity|]. split.
  { intros C. destruct (C R1) as [e [He _]]. vm_compute in He. discriminate He. }
  split; [exact R2|]. split; [vm_compute; reflexivity|].
  intros C. destruct (C R2) as [e [He Hi]]. vm_compute in He.
  inversion He; subst e. discriminate Hi.
Qed.

(** ** The constructors of the domain model *)

Lemma lacks_first_missing keys d :
  lacks keys d -> exists k, first_missing keys d = Some k.
Proof.
  intros [k [Hin Hk]]. induction keys as [|k0 keys IH]; [contradiction|].
  simpl. destruct (dict_lookup d k0) eqn:E; [|eauto].
  destruct Hin as [->|Hin]; [congruence | auto].
Qed.

Lemma returned_has_required L k d x :
  from_dict L k (JDict d) = Ok x ->
  forall key, In key (required k) -> dict_lookup d key <> None.
Proof.
  intros H key Hin.
  destruct k; simpl in H, Hin;
    [ unfold Bounty.from_dict in H | unfold Submission.from_dict in H
    | unfold Rejection.from_dict in H | unfold Payment.from_dict in H
    | unfold PendingPayment.from_dict in H | unfold Stats.from_dict in H
    | unfold TokenConfig.from_dict in H | unfold X402Config.from_dict in H ];
    peel H; present;
    repeat (destruct Hin as [<-|Hin]; [congruence|]); contradiction.
Qed.

Lemma keys_first_key_error L k d key :
  reads_keys_first k = true -> first_missing (required k) d = Some key ->
  from_dict L k (JDict d) = Raise (KeyError key).
Proof.
  intros Hk Hm. destruct k; try discriminate Hk; simpl in Hm |- *;
    [ unfold Submission.from_dict | unfold PendingPayment.from_dict
    | unfold Stats.from_dict | unfold TokenConfig.from_dict ];
    unfold getitem;
    repeat match type of Hm with
    | context [dict_lookup d ?s] =>
        destruct (dict_lookup d s); simpl in Hm |- *;
        [| inversion Hm; reflexivity]
    end; discriminate.
Qed.

(** C1, as the code has it: an object that lacks a required key makes the
    constructor fail, never with a [MissingFieldError]; where the constructor
    reads its required keys before it converts anything (Submission,
    PendingPayment, Stats, TokenConfig) the exception is the [KeyError] of the
    first absent key. *)
Theorem missing_required_field_raises (L : stdlib) (k : entity)
  (d : list (string * json)) :
  lacks (required k) d ->
  fails (from_dict L k (JDict d))
  /\ ~ raises (from_dict L k (JDict d)) "MissingFieldError"
  /\ (reads_keys_first k = true ->
      exists key, first_missing (required k) d = Some key
                  /\ from_dict L k (JDict d) = Raise (KeyError key)).
Proof.
  intros Hl. split; [|split].
  - destruct (from_dict L k (JDict d)) as [x|e] eqn:E.
    + destruct Hl as [key [Hin Hnone]].
      exfalso. exact (returned_has_required L k d E key Hin Hnone).
    + exists e. reflexivity.
  - intros [e [_ He]]. rewrite (proj1 (no_such_class e)) in He. discriminate.
  - intros Hk. destruct (lacks_first_missing Hl) as [key Hkey].
    exists key. split; [exact Hkey | exact (keys_first_key_error L k d Hk Hkey)].
Qed.

Lemma missing_required_field_raises_witness :
  lacks (required E_Bounty) (tl fixtures.sample_bounty_data)
  /\ fails (from_dict sample_host.host E_Bounty
              (JDict (tl fixtures.sample_bounty_data))).
Proof.
  assert (H : lacks (required E_Bounty) (tl fixtures.sample_bounty_data)).
  { exists "id". split; [simpl; auto | reflexivity]. }
  split; [exact H|].
  exact (proj1 (missing_required_field_raises sample_host.host E_Bounty H)).
Defined.

(** [Submission.from_dict({})] raises [KeyError('id')]. *)
Lemma missing_field_error_counterexample :
  lacks (required E_Submission) []
  /\ from_dict sample_host.host E_Submission (JDict []) = Raise (KeyError "id")
  /\ ~ missing_field_error_claim sample_host.host E_Submission [].
Proof.
  assert (H : lacks (required E_Submission) []).
  { exists "id". split; [simpl; auto | reflexivity]. }
  split; [exact H|]. split; [reflexivity|].
  intros C. destruct (C H) as [e [He Hi]].
  inversion He; subst e. discriminate Hi.
Qed.




(** ** Decimal arithmetic *)

(** *** Decimal digits *)

Lemma ndigits_from_spec : forall fuel n,
  0 < n < 2 ^ (Z.of_nat fuel + 1) ->
  1 <= ndigits_from fuel n
  /\ 10 ^ (ndigits_from fuel n - 1) <= n < 10 ^ (ndigits_from fuel n).
Proof.
  induction fuel as [|fuel IH]; intros n Hn.
  - simpl in *. lia.
  - cbn [ndigits_from]. destruct (Z.ltb_spec n 10) as [Hlt|Hge].
    + simpl. lia.
    + assert (Hq : 0 < n / 10 < 2 ^ (Z.of_nat fuel + 1)).
      { split; [apply Z.div_str_pos; lia|].
        apply Z.div_lt_upper_bound; [lia|].
        replace (Z.of_nat (S fuel) + 1) with (Z.succ (Z.of_nat fuel + 1)) in Hn by lia.
        rewrite Z.pow_succ_r in Hn by lia. lia. }
      destruct (IH _ Hq) as [H1 [H2 H3]].
      set (d := ndigits_from fuel (n / 10)) in *.
      replace (1 + d - 1) with (Z.succ (d - 1)) by lia.
      replace (1 + d) with (Z.succ d) by lia.
      rewrite !Z.pow_succ_r by lia.
      pose proof (Z.div_mod n 10 ltac:(lia)) as Hdm.
      pose proof (Z.mod_pos_bound n 10 ltac:(lia)) as Hmb.
      lia.
Qed.

Lemma ndigits_spec n : 0 < n ->
  1 <= ndigits n /\ 10 ^ (ndigits n - 1) <= n < 10 ^ (ndigits n).
Proof.
  intros Hn. unfold ndigits. apply ndigits_from_spec.
  split; [exact Hn|].
  rewrite Z2Nat.id by apply Z.log2_nonneg.
  replace (Z.log2 n + 1) with (Z.succ (Z.log2 n)) by lia.
  apply Z.log2_spec. exact Hn.
Qed.

Lemma ndigits_unique n d : 0 < n -> 10 ^ (d - 1) <= n < 10 ^ d -> ndigits n = d.
Proof.
  intros Hn [Hlo Hhi]. destruct (@ndigits_spec n Hn) as [H1 [H2 H3]].
  assert (Hd : 1 <= d).
  { destruct (Z_lt_le_dec d 1) as [Hlt|]; [|assumption].
    assert (10 ^ d <= 1).
    { destruct (Z_lt_le_dec d 0); [rewrite Z.pow_neg_r by lia; lia|].
      replace d with 0 by lia. simpl. lia. }
    lia. }
  destruct (Z.lt_trichotomy (ndigits n) d) as [Hlt|[Heq|Hgt]]; [|exact Heq|].
  - assert (10 ^ ndigits n <= 10 ^ (d - 1)) by (apply Z.pow_le_mono_r; lia). lia.
  - assert (10 ^ d <= 10 ^ (ndigits n - 1)) by (apply Z.pow_le_mono_r; lia). lia.
Qed.

Lemma ndigits_bound n d : 0 < n -> 0 <= d -> n < 10 ^ d -> ndigits n <= d.
Proof.
  intros Hn Hd Hlt. destruct (@ndigits_spec n Hn) as [H1 [H2 H3]].
  destruct (Z_le_gt_dec (ndigits n) d) as [|Hgt]; [assumption|].
  assert (10 ^ d <= 10 ^ (ndigits n - 1)) by (apply Z.pow_le_mono_r; lia). lia.
Qed.

Lemma ndigits_shift n k : 0 < n -> 0 <= k -> ndigits (n * 10 ^ k) = ndigits n + k.
Proof.
  intros Hn Hk. destruct (@ndigits_spec n Hn) as [H1 [H2 H3]].
  assert (Hp : 0 < 10 ^ k) by (apply Z.pow_pos_nonneg; lia).
  apply ndigits_unique; [nia|].
  replace (ndigits n + k - 1) with (ndigits n - 1 + k) by lia.
  rewrite !Z.pow_add_r by lia. nia.
Qed.

(** *** The quotient by one million *)

Lemma strip_zeros_spec : forall n c e c' e',
  0 < c -> strip_zeros n c e = (c', e') ->
  exists j, 0 <= j <= Z.of_nat n /\ c = c' * 10 ^ j /\ e' = e + j
            /\ (j = Z.of_nat n \/ c' mod 10 <> 0).
Proof.
  induction n as [|n IH]; intros c e c' e' Hc H.
  - simpl in H. inversion H; subst. exists 0. simpl.
    split; [lia|]. split; [lia|]. split; [lia|]. left; reflexivity.
  - cbn [strip_zeros] in H. destruct (Z.eqb_spec (c mod 10) 0) as [Hz|Hnz].
    + assert (Hc10 : c = 10 * (c / 10)).
      { pose proof (Z.div_mod c 10 ltac:(lia)). lia. }
      assert (Hq : 0 < c / 10) by lia.
      destruct (IH _ _ _ _ Hq H) as [j [Hj [Hcj [He Hend]]]].
      exists (j + 1). split; [lia|]. split.
      * rewrite Z.pow_add_r by lia. change (10 ^ 1) with 10. lia.
      * split; [lia|]. destruct Hend; [left; lia | right; assumption].
    + inversion H; subst. exists 0. split; [lia|]. split; [simpl; lia|].
      split; [lia|]. right; assumption.
Qed.

Lemma div_eucl_exact a m : 0 < m -> Z.div_eucl (a * m) m = (a, 0).
Proof.
  intros Hm. pose proof (Z.div_eucl_eq (a * m) m ltac:(lia)) as H.
  pose proof (Z.mod_pos_bound (a * m) m Hm) as Hb.
  unfold Z.modulo in Hb. destruct (Z.div_eucl (a * m) m) as [q r].
  assert (r = 0 /\ q = a) as [-> ->]; [|reflexivity].
  assert (Hr : r = (a - q) * m) by lia.
  destruct (Z.lt_trichotomy q a) as [?|[?|?]]; nia.
Qed.

Lemma truediv_million (s : bool) (a : Z) :
  0 < a < 10 ^ 28 ->
  exists c m, 0 <= m <= 6 /\ 0 < c /\ c * 10 ^ m = a
              /\ truediv (Finite s a 0) (of_int 1000000) = Ok (Finite s c (m - 6)).
Proof.
  intros Ha.
  assert (Hpos : 0 < a) by lia.
  destruct (@ndigits_spec a Hpos) as [HL1 _].
  assert (HL28 : ndigits a <= 28) by (apply ndigits_bound; lia).
  unfold truediv, of_int. cbn [_check_nans Z.ltb Z.abs Z.compare].
  change (1000000 =? 0) with false. cbv iota.
  destruct (Z.eqb_spec a 0) as [?|_]; [lia|].
  change (ndigits 1000000) with 7. unfold prec.
  set (shift := 7 - ndigits a + 28 + 1).
  assert (Hshift : 8 <= shift <= 35) by (unfold shift; lia).
  destruct (Z.leb_spec 0 shift) as [_|?]; [|lia].
  assert (Hsplit : a * 10 ^ shift = (a * 10 ^ (shift - 6)) * 1000000).
  { replace shift with ((shift - 6) + 6) at 1 by lia.
    rewrite Z.pow_add_r by lia. change (10 ^ 6) with 1000000. lia. }
  rewrite Hsplit, div_eucl_exact by lia.
  cbn [Z.eqb negb]. cbv iota.
  assert (Hc0 : 0 < a * 10 ^ (shift - 6)).
  { apply Z.mul_pos_pos; [lia | apply Z.pow_pos_nonneg; lia]. }
  replace (0 - 0 - (0 - 0 - shift)) with shift by lia.
  destruct (strip_zeros (Z.to_nat shift) (a * 10 ^ (shift - 6)) (0 - 0 - shift))
    as [c e] eqn:Hstrip.
  destruct (@strip_zeros_spec _ _ _ _ _ Hc0 Hstrip) as [j [Hj [Hcj [He Hend]]]].
  rewrite Z2Nat.id in Hj, Hend by lia.
  assert (Hcpos : 0 < c).
  { assert (0 < 10 ^ j) by (apply Z.pow_pos_nonneg; lia). nia. }
  assert (Hm : exists m, 0 <= m <= 6 /\ c * 10 ^ m = a /\ e = m - 6).
  { destruct (Z_le_gt_dec (shift - 6) j) as [Hge|Hlt].
    - exists (j - (shift - 6)). split; [lia|]. split; [|lia].
      replace j with ((j - (shift - 6)) + (shift - 6)) in Hcj at 1 by lia.
      rewrite Z.pow_add_r in Hcj by lia.
      assert (0 < 10 ^ (shift - 6)) by (apply Z.pow_pos_nonneg; lia). nia.
    - exfalso. destruct Hend as [?|Hnd]; [lia|]. apply Hnd.
      replace (shift - 6) with (j + Z.succ (shift - 6 - j - 1)) in Hcj by lia.
      rewrite Z.pow_add_r, Z.pow_succ_r in Hcj by lia.
      assert (0 < 10 ^ j) by (apply Z.pow_pos_nonneg; lia).
      assert (c = 10 * (a * 10 ^ (shift - 6 - j - 1))) by nia.
      subst c. rewrite Z.mul_comm. apply Z.mod_mul. lia. }
  destruct Hm as [m [Hm [Hcm Hem]]]. try rewrite Hem. try subst e.
  exists c, m. split; [exact Hm|]. split; [exact Hcpos|]. split; [exact Hcm|].
  assert (Hca : c <= a).
  { assert (0 < 10 ^ m) by (apply Z.pow_pos_nonneg; lia). nia. }
  assert (Hdc : 1 <= ndigits c <= 28).
  { split; [apply (@ndigits_spec c Hcpos) | apply ndigits_bound; lia]. }
  unfold _fix. rewrite xorb_false_r.
  destruct (Z.eqb_spec c 0) as [?|_]; [lia|].
  unfold Etop, Etiny, Emax, Emin, prec.
  destruct (Z.ltb_spec (999999 - 28 + 1) (ndigits c + (m - 6) - 28)) as [?|_]; [lia|].
  destruct (Z.ltb_spec (m - 6)
              (Z.max (ndigits c + (m - 6) - 28) (-999999 - 28 + 1))) as [?|_];
    [lia|].
  reflexivity.
Qed.

Lemma sign_abs r : (if r <? 0 then - Z.abs r else Z.abs r) = r.
Proof. destruct (Z.ltb_spec r 0); lia. Qed.

Lemma micro_exact (r : Z) :
  Z.abs r < 10 ^ 28 -> exactly_micro (truediv (of_int r) (of_int 1000000)) r.
Proof.
  intros Hr. destruct (Z.eq_dec r 0) as [->|Hnz].
  - exists (Finite false 0 0), (inject_Z 0). repeat split; reflexivity.
  - assert (Ha : 0 < Z.abs r < 10 ^ 28) by lia.
    destruct (@truediv_million (r <? 0) (Z.abs r) Ha) as [c [m [Hm [Hc [Hcm Hdiv]]]]].
    unfold of_int at 1. rewrite Hdiv.
    eexists. eexists. split; [reflexivity|]. split; [reflexivity|].
    pose proof (sign_abs r) as Hs. rewrite <- Hcm in Hs.
    destruct (Z.leb_spec 0 (m - 6)) as [Hge|Hlt].
    + replace m with 6 in * by lia. unfold Qeq. cbn [Qnum Qden inject_Z].
      change (10 ^ (6 - 6)) with 1. change (10 ^ 6) with 1000000 in Hs.
      destruct (r <? 0); lia.
    + unfold Qeq. cbn [Qnum Qden].
      assert (Hp : 0 < 10 ^ (- (m - 6))) by (apply Z.pow_pos_nonneg; lia).
      rewrite Z2Pos.id by exact Hp.
      assert (Hpow : 10 ^ m * 10 ^ (- (m - 6)) = 1000000).
      { rewrite <- Z.pow_add_r by lia. replace (m + - (m - 6)) with 6 by lia. reflexivity. }
      destruct (r <? 0); nia.
Qed.

(** C5, as the code has it: for an integer [r] below 10^28 in magnitude, every
    [*_usdc] accessor of Bounty, Payment and PendingPayment returns the
    decimal [r / 1000000] exactly (decimal arithmetic under the default
    28-digit context, no binary floating point). *)
Theorem usdc_accessors_exact (L : stdlib) (r : Z) :
  Z.abs r < 10 ^ 28 ->
  (forall b, Bounty.reward b = JInt r -> exactly_micro (Bounty.reward_usdc L b) r)
  /\ (forall p, Payment.fee p = JInt r -> exactly_micro (Payment.fee_usdc L p) r)
  /\ (forall p, Payment.net_reward p = JInt r ->
        exactly_micro (Payment.net_reward_usdc L p) r)
  /\ (forall p, Payment.gross_reward p = JInt r ->
        exactly_micro (Payment.gross_reward_usdc L p) r)
  /\ (forall p, PendingPayment.fee p = JInt r ->
        exactly_micro (PendingPayment.fee_usdc L p) r)
  /\ (forall p, PendingPayment.net_reward p = JInt r ->
        exactly_micro (PendingPayment.net_reward_usdc L p) r)
  /\ (forall p, PendingPayment.gross_reward p = JInt r ->
        exactly_micro (PendingPayment.gross_reward_usdc L p) r).
Proof.
  intros Hr. pose proof (@micro_exact r Hr) as H.
  unfold Bounty.reward_usdc, Payment.fee_usdc, Payment.net_reward_usdc,
    Payment.gross_reward_usdc, PendingPayment.fee_usdc,
    PendingPayment.net_reward_usdc, PendingPayment.gross_reward_usdc.
  repeat split; intros x Hx; rewrite Hx; exact H.
Qed.

Lemma usdc_accessors_exact_witness :
  exactly_micro (Bounty.reward_usdc sample_host.host (fixtures.bounty "143" 20000000 None))
                20000000.
Proof.
  apply (proj1 (@usdc_accessors_exact sample_host.host 20000000
                  ltac:(vm_compute; reflexivity))).
  reflexivity.
Defined.

(** With [reward = 10^28 + 1] the quotient is rounded to 28 digits:
    [reward_usdc] is 1.000000000000000000000000000E+22. *)
Lemma exact_reward_counterexample :
  Bounty.reward_usdc sample_host.host (fixtures.bounty "big" (10 ^ 28 + 1) None)
    = Ok (Finite false (10 ^ 27) (-5))
  /\ ~ exact_reward_claim sample_host.host (10 ^ 28 + 1).
Proof.
  split; [vm_compute; reflexivity|].
  intros C. destruct (C (fixtures.bounty "big" (10 ^ 28 + 1) None) eq_refl)
    as [d [q [Hd [Hq He]]]].
  vm_compute in Hd. inversion Hd; subst d.
  vm_compute in Hq. inversion Hq; subst q.
  vm_compute in He. discriminate He.
Qed.

Lemma round_exact (c drop : Z) :
  0 < drop -> c mod 10 ^ drop = 0 -> round_half_even c drop = 0.
Proof.
  intros Hd Hz. unfold round_half_even. rewrite Hz.
  assert (Hh : 0 < 5 * 10 ^ (drop - 1)).
  { assert (0 < 10 ^ (drop - 1)) by (apply Z.pow_pos_nonneg; lia). lia. }
  destruct (Z.eqb_spec 0 (5 * 10 ^ (drop - 1))) as [?|_]; [lia|].
  cbn [andb]. destruct (Z.leb_spec (5 * 10 ^ (drop - 1)) 0) as [?|_]; [lia|].
  reflexivity.
Qed.

Lemma fix_trailing_zeros (s : bool) (a k : Z) :
  0 < a < 10 ^ 28 -> 0 <= k <= 6 ->
  exists e, e <= 0 /\ _fix (Finite s (a * 10 ^ k) (- k)) = Ok (Finite s (a * 10 ^ (- e)) e).
Proof.
  intros Ha Hk.
  assert (Hpos : 0 < a) by lia.
  destruct (@ndigits_spec a Hpos) as [HL1 _].
  assert (HL28 : ndigits a <= 28) by (apply ndigits_bound; lia).
  assert (Hpk : 0 < 10 ^ k) by (apply Z.pow_pos_nonneg; lia).
  unfold _fix. destruct (Z.eqb_spec (a * 10 ^ k) 0) as [?|_]; [nia|].
  rewrite ndigits_shift by lia.
  unfold Etop, Etiny, Emax, Emin, prec.
  replace (ndigits a + k + - k - 28) with (ndigits a - 28) by lia.
  destruct (Z.ltb_spec (999999 - 28 + 1) (ndigits a - 28)) as [?|_]; [lia|].
  rewrite Z.max_l by lia.
  destruct (Z.ltb_spec (- k) (ndigits a - 28)) as [Hlt|Hge].
  - replace (ndigits a + k + - k - (ndigits a - 28)) with 28 by lia.
    change (28 <? 0) with false. cbv iota. change (Z.max 28 0) with 28.
    rewrite ndigits_shift by lia.
    set (drop := ndigits a + k - 28).
    assert (Hdrop : 0 < drop <= k) by (unfold drop; lia).
    assert (Hsplit : a * 10 ^ k = (a * 10 ^ (k - drop)) * 10 ^ drop).
    { replace k with ((k - drop) + drop) at 1 by lia.
      rewrite Z.pow_add_r by lia. lia. }
    assert (Hpd : 0 < 10 ^ drop) by (apply Z.pow_pos_nonneg; lia).
    rewrite round_exact; [| lia | rewrite Hsplit; apply Z.mod_mul; lia].
    change (0 <? 0) with false. cbn [andb]. cbv iota.
    destruct (Z.ltb_spec (999999 - 28 + 1) (ndigits a - 28)) as [?|_]; [lia|].
    exists (ndigits a - 28). split; [lia|].
    rewrite Hsplit, Z.div_mul by lia.
    replace (k - drop) with (- (ndigits a - 28)) by (unfold drop; lia).
    reflexivity.
  - exists (- k). split; [lia|]. rewrite Z.opp_involutive. reflexivity.
Qed.

Lemma to_int_scaled (s : bool) (a e : Z) :
  e <= 0 -> to_int (Finite s (a * 10 ^ (- e)) e) = Ok (if s then - a else a).
Proof.
  intros He. unfold to_int.
  destruct (Z.leb_spec 0 e) as [Hz|Hneg].
  - replace e with 0 by lia. cbn. rewrite !Z.mul_1_r. reflexivity.
  - rewrite Z.div_mul; [reflexivity|].
    assert (0 < 10 ^ (- e)) by (apply Z.pow_pos_nonneg; lia). lia.
Qed.

(** C10, as the code has it: [usdc_to_micro(micro_to_usdc(m))] is [m] for
    every integer [m] below 10^28 in magnitude. *)
Theorem micro_round_trip_exact (m : Z) :
  Z.abs m < 10 ^ 28 -> micro_round_trip m = Ok m.
Proof.
  intros Hm. unfold micro_round_trip, micro_to_usdc.
  destruct (Z.eq_dec m 0) as [->|Hnz]; [reflexivity|].
  assert (Ha : 0 < Z.abs m < 10 ^ 28) by lia.
  destruct (@truediv_million (m <? 0) (Z.abs m) Ha) as [c [j [Hj [Hc [Hcj Hdiv]]]]].
  unfold of_int at 1. rewrite Hdiv. cbn [bind].
  unfold usdc_to_micro, mul, of_int. cbn [_check_nans Z.ltb Z.abs Z.compare].
  rewrite xorb_false_r.
  replace (c * 1000000) with (Z.abs m * 10 ^ (6 - j)).
  2:{ rewrite <- Hcj, <- Z.mul_assoc, <- Z.pow_add_r by lia.
      replace (j + (6 - j)) with 6 by lia. reflexivity. }
  replace (j - 6 + 0) with (- (6 - j)) by lia.
  destruct (@fix_trailing_zeros (m <? 0) (Z.abs m) (6 - j) Ha ltac:(lia)) as [e [He Hfix]].
  rewrite Hfix. cbn [bind]. rewrite to_int_scaled by exact He.
  rewrite sign_abs. reflexivity.
Qed.

Lemma micro_round_trip_exact_witness : micro_round_trip 10500000 = Ok 10500000.
Proof. apply micro_round_trip_exact. vm_compute. reflexivity. Defined.

(** [usdc_to_micro(micro_to_usdc(10^28 + 1))] is [10^28]. *)
Lemma round_trip_counterexample :
  micro_round_trip (10 ^ 28 + 1) = Ok (10 ^ 28)
  /\ ~ round_trip_claim (10 ^ 28 + 1).
Proof.
  split; [vm_compute; reflexivity|].
  intros C. unfold round_trip_claim in C. vm_compute in C. discriminate C.
Qed.

(** ** Filters and sorting *)

Section Comprehension.
Variable A : Type.
Variable p : A -> result bool.

Lemma comprehension_if_kept (l r : list A) :
  comprehension_if p l = Ok r ->
  forall x, In x r -> In x l /\ p x = Ok true.
Proof.
  revert r. induction l as [|a l IH]; simpl; intros r H x Hx.
  - inversion H; subst. contradiction.
  - destruct (p a) as [b|e] eqn:Hp; simpl in H; [|discriminate].
    destruct (comprehension_if p l) as [ys|e] eqn:Hl; simpl in H; [|discriminate].
    inversion H; subst; clear H.
    destruct b.
    + destruct Hx as [<-|Hx]; [auto|].
      destruct (IH ys eq_refl x Hx); auto.
    + destruct (IH ys eq_refl x Hx); auto.
Qed.

Lemma comprehension_if_all (l : list A) :
  (forall x, In x l -> p x = Ok true) -> comprehension_if p l = Ok l.
Proof.
  induction l as [|a l IH]; simpl; intros H; [reflexivity|].
  rewrite (H a (or_introl eq_refl)). simpl.
  rewrite IH by auto. reflexivity.
Qed.
End Comprehension.

Lemma run_stages_kept stages : forall l r,
  run_stages stages l = Ok r -> passes stages r /\ incl r l.
Proof.
  induction stages as [|[p|] rest IH]; simpl; intros l r H.
  - inversion H; subst. split; [intros p [] | apply incl_refl].
  - apply bind_ok in H. destruct H as [kept [Hk Hr]].
    destruct (IH _ _ Hr) as [Hp Hi]. split.
    + intros q [Hq|Hq] x Hx.
      * inversion Hq; subst q.
        exact (proj2 (@comprehension_if_kept _ p l kept Hk x (Hi x Hx))).
      * exact (Hp q Hq x Hx).
    + intros x Hx. exact (proj1 (@comprehension_if_kept _ p l kept Hk x (Hi x Hx))).
  - destruct (IH _ _ H) as [Hp Hi]. split; [|exact Hi].
    intros q [Hq|Hq]; [discriminate | exact (Hp q Hq)].
Qed.

Lemma run_stages_fixed stages : forall r,
  passes stages r -> run_stages stages r = Ok r.
Proof.
  induction stages as [|[p|] rest IH]; simpl; intros r H.
  - reflexivity.
  - rewrite (@comprehension_if_all _ p r) by (intros x Hx; apply (H p); simpl; auto).
    simpl. apply IH. intros q Hq. apply H. simpl; auto.
  - apply IH. intros q Hq. apply H. simpl; auto.
Qed.

Lemma apply_stages (L : stdlib) (f : BountyFilter.t) (bs : list Bounty.t) :
  BountyFilter.apply L f bs = run_stages (stages_of L f) bs.
Proof.
  unfold BountyFilter.apply, stages_of, BountyFilter.stage, BountyFilter.stage_opt.
  destruct f as [sts tgs mn mx cr cl sq cf]; cbn -[comprehension_if].
  destruct sts, tgs, mn, mx, (BountyFilter.nonempty cr), (BountyFilter.nonempty cl),
    (BountyFilter.nonempty sq), cf; cbn -[comprehension_if];
    repeat match goal with
    | |- context [comprehension_if ?p ?l] =>
        destruct (comprehension_if p l); cbn -[comprehension_if]
    end; reflexivity.
Qed.

(** C7: applying a filter to its own result changes nothing (an exception of
    the first application is the exception of the double application), and
    the filter without criteria returns its input as it is. *)
Theorem apply_idempotent (L : stdlib) (f : BountyFilter.t) (bs : list Bounty.t) :
  BountyFilter.apply_twice L f bs = BountyFilter.apply L f bs
  /\ BountyFilter.apply L BountyFilter.new bs = Ok bs.
Proof.
  split; [|reflexivity].
  unfold BountyFilter.apply_twice. rewrite !apply_stages.
  destruct (run_stages (stages_of L f) bs) as [r|e] eqn:H; simpl; [|reflexivity].
  rewrite apply_stages. apply run_stages_fixed.
  exact (proj1 (@run_stages_kept _ _ _ H)).
Qed.

(** C2, on the code: a bounty without deadline is placed before a dated one in
    ascending order as well as in descending order, and a string deadline has
    the key [datetime.min]. *)
Theorem sort_by_deadline_undated_first (L : stdlib) (dated undated : Bounty.t) (w : Z) :
  Bounty.deadline undated = None ->
  Bounty.deadline dated = Some (Instant (mk_datetime w None)) ->
  0 < w < wall_us datetime_max ->
  sort_by_deadline L [dated; undated] false = Ok [undated; dated]
  /\ sort_by_deadline L [dated; undated] true = Ok [undated; dated]
  /\ (forall descending b s, Bounty.deadline b = Some (Plain (JStr s)) ->
        deadline_key descending b = Instant datetime_min).
Proof.
  intros Hu Hd Hw. cbn in Hw.
  unfold sort_by_deadline, sorted, deadline_key. cbn [map].
  rewrite Hu, Hd. cbn.
  destruct (Z.leb_spec w 0) as [?|_]; [lia|].
  destruct (Z.leb_spec 315537897599999999 w) as [?|_]; [lia|].
  repeat split. intros descending b s Hb. rewrite Hb. reflexivity.
Qed.

Lemma sort_by_deadline_undated_first_witness :
  sort_by_deadline sample_host.host [fixtures.dated; fixtures.undated] false
    = Ok [fixtures.undated; fixtures.dated].
Proof.
  apply (@sort_by_deadline_undated_first sample_host.host fixtures.dated
           fixtures.undated 63906624000000000 eq_refl eq_refl).
  cbn. lia.
Defined.

(** ** The request client *)

(** C6: 404 raises [NotFoundError]; 429 with [Retry-After: 5] raises
    [RateLimitError] with [retry_after = 5]; 500 raises [ServerError] with
    [status_code = 500]; a timeout raises an [APIError] with
    [status_code = 0]; the two clients agree. *)
Theorem request_error_mapping (L : stdlib) (T : transport) (self : client)
  (method path : string) (body : option json) (log : list Request) :
  let answer := T log (request_of self method path body) in
  let sync := fst (BountyBoardClient._request L T self method path body log) in
  let async := fst (AsyncBountyBoardClient._request L T self method path body log) in
  sync = async
  /\ (forall r, answer = Responded r -> resp_status_code r = 404 ->
      exists e, sync = Raise e /\ exn_type e = C_NotFoundError)
  /\ (forall r, answer = Responded r -> resp_status_code r = 429 ->
      resp_header r "Retry-After" = Some "5" ->
      exists e, sync = Raise e /\ exn_type e = C_RateLimitError
                /\ retry_after e = Some 5)
  /\ (forall r, answer = Responded r -> resp_status_code r = 500 ->
      exists e, sync = Raise e /\ exn_type e = C_ServerError
                /\ status_code e = Some 500)
  /\ (forall m, answer = TimeoutException m ->
      exists e, sync = Raise e /\ exn_type e = C_APIError
                /\ status_code e = Some 0).
Proof.
  intros answer sync async. subst answer sync async.
  unfold BountyBoardClient._request, AsyncBountyBoardClient._request, exchange.
  split; [reflexivity|]. repeat split.
  - intros r Hr Hc. rewrite Hr. cbn. unfold handle_response. rewrite Hc. cbn.
    eexists. split; reflexivity.
  - intros r Hr Hc Hh. rewrite Hr. cbn. unfold handle_response. rewrite Hc, Hh. cbn.
    eexists. repeat split; reflexivity.
  - intros r Hr Hc. rewrite Hr. cbn. unfold handle_response. rewrite Hc. cbn.
    eexists. repeat split; reflexivity.
  - intros m Hm. rewrite Hm. cbn. eexists. repeat split; reflexivity.
Qed.

Lemma request_error_mapping_witness :
  (exists e, fst (BountyBoardClient._request sample_host.host (fixtures.answering 404)
                    fixtures.a_client "GET" "/bounties/999" None []) = Raise e
             /\ exn_type e = C_NotFoundError)
  /\ (exists e, fst (BountyBoardClient._request sample_host.host (fixtures.answering 429)
                    fixtures.a_client "GET" "/bounties" None []) = Raise e
             /\ exn_type e = C_RateLimitError /\ retry_after e = Some 5)
  /\ (exists e, fst (BountyBoardClient._request sample_host.host (fixtures.answering 500)
                    fixtures.a_client "GET" "/stats" None []) = Raise e
             /\ exn_type e = C_ServerError /\ status_code e = Some 500)
  /\ (exists e, fst (BountyBoardClient._request sample_host.host fixtures.timing_out
                    fixtures.a_client "GET" "/stats" None []) = Raise e
             /\ exn_type e = C_APIError /\ status_code e = Some 0).
Proof.
  split; [|split; [|split]].
  - exact (proj1 (proj2 (request_error_mapping sample_host.host (fixtures.answering 404)
             fixtures.a_client "GET" "/bounties/999" None [])) _ eq_refl eq_refl).
  - exact (proj1 (proj2 (proj2 (request_error_mapping sample_host.host (fixtures.answering 429)
             fixtures.a_client "GET" "/bounties" None []))) _ eq_refl eq_refl eq_refl).
  - exact (proj1 (proj2 (proj2 (proj2 (request_error_mapping sample_host.host
             (fixtures.answering 500) fixtures.a_client "GET" "/stats" None [])))) _
             eq_refl eq_refl).
  - exact (proj2 (proj2 (proj2 (proj2 (request_error_mapping sample_host.host
             fixtures.timing_out fixtures.a_client "GET" "/stats" None [])))) _ eq_refl).
Defined.

(** C8: whatever its arguments, [create_bounty] raises [NotImplementedError]
    about the missing x402 payment signing, issues no request, and the error
    is not an [APIError]. *)
Theorem create_bounty_not_implemented (self : client) (title description : string)
  (reward_usdc : Decimal) (requirements : list string)
  (tags : option (list string)) (deadline : option string) (log : list Request) :
  exists e,
    BountyBoardClient.create_bounty self title description reward_usdc
      requirements tags deadline log = (Raise e, log)
    /\ exn_type e = C_NotImplementedError
    /\ str_contains "x402 payment implementation required" (message e) = true
    /\ str_contains "sign payments" (message e) = true
    /\ isinstance e "APIError" = false
    /\ isinstance e "OwockibotError" = false.
Proof.
  eexists. split; [reflexivity|]. repeat split; vm_compute; reflexivity.
Qed.

(** ** Sorting: what the stable sort guarantees *)

Section StableSort.
Variable A : Type.

Lemma insert_by_key_perm (k : Z) (x : A) (l : list (Z * A)) :
  Permutation ((k, x) :: l) (insert_by_key k x l).
Proof.
  induction l as [|[k' y] l IH]; simpl; [apply Permutation_refl|].
  destruct (k <=? k'); [apply Permutation_refl|].
  eapply perm_trans; [apply perm_swap|]. apply perm_skip. exact IH.
Qed.

Lemma stable_sort_perm (l : list (Z * A)) : Permutation l (stable_sort l).
Proof.
  induction l as [|[k x] l IH]; simpl; [apply perm_nil|].
  eapply perm_trans; [apply perm_skip; exact IH | apply insert_by_key_perm].
Qed.

Lemma insert_by_key_sorted (k : Z) (x : A) (l : list (Z * A)) :
  StronglySorted by_key l -> StronglySorted by_key (insert_by_key k x l).
Proof.
  induction 1 as [|[k' y] l Hs IH Hall]; simpl.
  - constructor; constructor.
  - destruct (Z.leb_spec k k') as [Hle|Hgt].
    + constructor; [constructor; assumption|].
      constructor; [exact Hle|].
      eapply Forall_impl; [|exact Hall].
      intros [k'' z] Hz. unfold by_key in *. simpl in *. lia.
    + constructor; [exact IH|].
      eapply Permutation_Forall; [apply insert_by_key_perm|].
      constructor; [unfold by_key; simpl; lia | exact Hall].
Qed.

Lemma stable_sort_sorted (l : list (Z * A)) : StronglySorted by_key (stable_sort l).
Proof.
  induction l as [|[k x] l IH]; simpl; [constructor|].
  apply insert_by_key_sorted. exact IH.
Qed.

(** Among equal keys the input order is kept. *)
Lemma insert_by_key_stable (k0 k : Z) (x : A) (l : list (Z * A)) :
  filter (fun p => fst p =? k0) (insert_by_key k x l)
  = filter (fun p => fst p =? k0) ((k, x) :: l).
Proof.
  induction l as [|[k' y] l IH]; [reflexivity|].
  cbn [insert_by_key]. destruct (Z.leb_spec k k') as [Hle|Hgt]; [reflexivity|].
  cbn [filter fst] in *. rewrite IH.
  destruct (Z.eqb_spec k' k0) as [->|Hk']; [|reflexivity].
  destruct (Z.eqb_spec k k0) as [->|Hk]; [lia | reflexivity].
Qed.

Lemma stable_sort_stable (k0 : Z) (l : list (Z * A)) :
  filter (fun p => fst p =? k0) (stable_sort l) = filter (fun p => fst p =? k0) l.
Proof.
  induction l as [|[k x] l IH]; [reflexivity|].
  cbn [stable_sort]. rewrite insert_by_key_stable. cbn [filter]. rewrite IH.
  reflexivity.
Qed.

Lemma filter_rev (p : Z * A -> bool) (l : list (Z * A)) :
  filter p (rev l) = rev (filter p l).
Proof.
  induction l as [|a l IH]; [reflexivity|].
  simpl. rewrite filter_app, IH. simpl.
  destruct (p a); simpl; [reflexivity | apply app_nil_r].
Qed.

Lemma ordered_perm reverse (l : list (Z * A)) : Permutation l (ordered reverse l).
Proof.
  destruct reverse; simpl; [|apply stable_sort_perm].
  eapply perm_trans; [apply Permutation_rev|].
  eapply perm_trans; [apply stable_sort_perm | apply Permutation_rev].
Qed.

Lemma strongly_sorted_app (R : Z * A -> Z * A -> Prop) (l : list (Z * A)) a :
  StronglySorted R l -> Forall (fun p => R p a) l -> StronglySorted R (l ++ [a]).
Proof.
  induction 1 as [|b l Hs IH Hall]; simpl; intros Hf.
  - constructor; constructor.
  - inversion Hf; subst. constructor; [auto|].
    apply Forall_app. split; [exact Hall | constructor; [assumption | constructor]].
Qed.

Lemma strongly_sorted_rev (l : list (Z * A)) :
  StronglySorted by_key l -> StronglySorted (fun p q => by_key q p) (rev l).
Proof.
  induction 1 as [|a l Hs IH Hall]; simpl; [constructor|].
  apply strongly_sorted_app; [exact IH|].
  apply Forall_rev. exact Hall.
Qed.

Lemma ordered_sorted reverse (l : list (Z * A)) :
  StronglySorted (by_key_in reverse) (ordered reverse l).
Proof.
  destruct reverse; simpl.
  - apply strongly_sorted_rev, stable_sort_sorted.
  - apply stable_sort_sorted.
Qed.

Lemma ordered_stable reverse k0 (l : list (Z * A)) :
  filter (fun p => fst p =? k0) (ordered reverse l) = filter (fun p => fst p =? k0) l.
Proof.
  destruct reverse; simpl; [|apply stable_sort_stable].
  rewrite filter_rev, stable_sort_stable, filter_rev, rev_involutive. reflexivity.
Qed.

(** The same facts on the sorted values, for keys computed by [key]. *)
Variable key : A -> Z.

Lemma keyed_values (l : list A) : map snd (keyed key l) = l.
Proof. unfold keyed. rewrite map_map. simpl. apply map_id. Qed.

Lemma keyed_fst (l : list A) : Forall (fun p => fst p = key (snd p)) (keyed key l).
Proof. unfold keyed. apply Forall_forall. intros p Hp.
  apply in_map_iff in Hp. destruct Hp as [x [<- _]]. reflexivity. Qed.

Lemma values_sorted reverse (l : list (Z * A)) :
  Forall (fun p => fst p = key (snd p)) l ->
  StronglySorted (by_key_in reverse) l ->
  StronglySorted (in_order key reverse) (map snd l).
Proof.
  intros Hk Hs. induction Hs as [|a l Hs IH Hall]; simpl; [constructor|].
  inversion Hk as [|? ? Ha Hl]; subst. constructor; [auto|].
  apply Forall_map. apply Forall_forall. intros q Hq.
  pose proof (proj1 (Forall_forall _ _) Hall q Hq) as Hr.
  pose proof (proj1 (Forall_forall _ _) Hl q Hq) as Hq'.
  unfold in_order, by_key_in, by_key in *. rewrite <- Ha, <- Hq'. exact Hr.
Qed.

Lemma values_filter k0 (l : list (Z * A)) :
  Forall (fun p => fst p = key (snd p)) l ->
  filter (fun x => key x =? k0) (map snd l)
  = map snd (filter (fun p => fst p =? k0) l).
Proof.
  induction 1 as [|a l Ha Hl IH]; [reflexivity|].
  simpl. rewrite IH, <- Ha. destruct (fst a =? k0); reflexivity.
Qed.

Lemma sorted_values reverse (l : list A) :
  let out := map snd (ordered reverse (keyed key l)) in
  Permutation l out
  /\ StronglySorted (in_order key reverse) out
  /\ forall k0, filter (fun x => key x =? k0) out = filter (fun x => key x =? k0) l.
Proof.
  assert (Hk : Forall (fun p => fst p = key (snd p)) (ordered reverse (keyed key l))).
  { eapply Permutation_Forall; [apply ordered_perm | apply keyed_fst]. }
  cbv zeta. split; [|split].
  - rewrite <- (keyed_values l) at 1. apply Permutation_map, ordered_perm.
  - apply values_sorted; [exact Hk | apply ordered_sorted].
  - intros k0. rewrite (values_filter k0 Hk), ordered_stable.
    rewrite <- (values_filter k0 (keyed_fst l)), keyed_values. reflexivity.
Qed.
End StableSort.

Lemma int_keys_keyed (key : Bounty.t -> Z) (f : Bounty.t -> object) (bs : list Bounty.t) :
  (forall b, In b bs -> int_key (f b) = Some (key b)) ->
  int_keys (map (fun b => (f b, b)) bs) = Some (keyed key bs).
Proof.
  induction bs as [|b bs IH]; intros H; [reflexivity|].
  simpl. rewrite (H b (or_introl eq_refl)), IH by (intros; apply H; simpl; auto).
  reflexivity.
Qed.

Lemma naive_keys_keyed (key : Bounty.t -> Z) (f : Bounty.t -> object) (bs : list Bounty.t) :
  (forall b, In b bs -> naive_key (f b) = Some (key b)) ->
  naive_keys (map (fun b => (f b, b)) bs) = Some (keyed key bs).
Proof.
  induction bs as [|b bs IH]; intros H; [reflexivity|].
  cbn [map naive_keys].
  rewrite (H b (or_introl eq_refl)), IH by (intros; apply H; simpl; auto).
  reflexivity.
Qed.

Lemma sorted_ints_ordered (A : Type) (L : stdlib) (kl : list (object * A)) l reverse :
  int_keys kl = Some l -> sorted_ints L kl reverse = Ok (map snd (ordered reverse l)).
Proof.
  intros H. unfold sorted_ints. rewrite H.
  destruct kl as [|[o x] [|p kl]]; [| |reflexivity].
  - inversion H; subst. destruct reverse; reflexivity.
  - simpl in H. destruct (int_key o); inversion H; subst.
    destruct reverse; reflexivity.
Qed.

Lemma sorted_ordered (A : Type) (L : stdlib) (kl : list (object * A)) l reverse :
  naive_keys kl = Some l -> sorted L kl reverse = Ok (map snd (ordered reverse l)).
Proof.
  intros H. unfold sorted. rewrite H.
  destruct kl as [|[o x] [|p kl]]; [| |reflexivity].
  - inversion H; subst. destruct reverse; reflexivity.
  - cbn [naive_keys] in H. destruct (naive_key o); inversion H; subst.
    destruct reverse; reflexivity.
Qed.

(** X1: on bounties whose rewards are integers, [sort_by_reward] returns: the
    result is a rearrangement of the input, in non-increasing order of reward
    when [descending] is set and non-decreasing order otherwise, and bounties
    of equal reward keep the order they had in the input, in both
    directions. *)
Theorem sort_by_reward_ordered (L : stdlib) (bs : list Bounty.t) (descending : bool) :
  forallb has_int_reward bs = true ->
  exists out,
    sort_by_reward L bs descending = Ok out
    /\ Permutation bs out
    /\ StronglySorted (in_order reward_int descending) out
    /\ forall r, filter (fun b => reward_int b =? r) out
                 = filter (fun b => reward_int b =? r) bs.
Proof.
  intros H. exists (map snd (ordered descending (keyed reward_int bs))).
  split; [|apply sorted_values].
  unfold sort_by_reward. apply sorted_ints_ordered, int_keys_keyed.
  intros b Hb. pose proof (proj1 (forallb_forall _ _) H b Hb) as Hr.
  unfold has_int_reward, reward_int in *.
  destruct (int_key (Plain (Bounty.reward b))); [reflexivity | discriminate].
Qed.

Lemma sort_by_reward_ordered_witness :
  exists out,
    sort_by_reward sample_host.host samples.board true = Ok out
    /\ Permutation samples.board out
    /\ StronglySorted (in_order reward_int true) out
    /\ forall r, filter (fun b => reward_int b =? r) out
                 = filter (fun b => reward_int b =? r) samples.board.
Proof. apply (@sort_by_reward_ordered sample_host.host samples.board true). reflexivity. Defined.

(** X2: on bounties whose creation times carry no UTC offset,
    [sort_by_created] returns a rearrangement of the input ordered by
    creation time, newest first when [descending] is set, and bounties
    created at the same instant keep their input order. *)
Theorem sort_by_created_ordered (L : stdlib) (bs : list Bounty.t) (descending : bool) :
  forallb created_naive bs = true ->
  exists out,
    sort_by_created L bs descending = Ok out
    /\ Permutation bs out
    /\ StronglySorted (in_order created_us descending) out
    /\ forall t, filter (fun b => created_us b =? t) out
                 = filter (fun b => created_us b =? t) bs.
Proof.
  intros H. exists (map snd (ordered descending (keyed created_us bs))).
  split; [|apply sorted_values].
  unfold sort_by_created. apply sorted_ordered, naive_keys_keyed.
  intros b Hb. pose proof (proj1 (forallb_forall _ _) H b Hb) as Hr.
  unfold created_naive, created_us, naive_key in *.
  destruct (Bounty.created_at b) as [w [o|]]; [discriminate | reflexivity].
Qed.

Lemma sort_by_created_ordered_witness :
  exists out,
    sort_by_created sample_host.host samples.board false = Ok out
    /\ Permutation samples.board out
    /\ StronglySorted (in_order created_us false) out
    /\ forall t, filter (fun b => created_us b =? t) out
                 = filter (fun b => created_us b =? t) samples.board.
Proof. apply (@sort_by_created_ordered sample_host.host samples.board false). reflexivity. Defined.

(** ** What the filters keep *)

Lemma comprehension_if_filter (A : Type) (p : A -> result bool) (q : A -> bool)
      (l : list A) :
  (forall x, In x l -> p x = Ok (q x)) -> comprehension_if p l = Ok (filter q l).
Proof.
  induction l as [|a l IH]; intros H; [reflexivity|].
  simpl. rewrite (H a (or_introl eq_refl)). simpl.
  rewrite IH by (intros; apply H; simpl; auto). simpl.
  destruct (q a); reflexivity.
Qed.

Lemma comprehension_if_ok_true (A : Type) (p : A -> result bool) (l r : list A) :
  comprehension_if p l = Ok r -> r = filter (fun x => ok_true (p x)) l.
Proof.
  revert r. induction l as [|a l IH]; simpl; intros r H.
  - inversion H; reflexivity.
  - destruct (p a) as [b|e]; simpl in H; [|discriminate].
    destruct (comprehension_if p l) as [ys|e]; simpl in H; [|discriminate].
    inversion H; subst. rewrite (IH ys eq_refl). destruct b; reflexivity.
Qed.

Lemma filter_filter (A : Type) (p q : A -> bool) (l : list A) :
  filter q (filter p l) = filter (fun x => p x && q x) l.
Proof.
  induction l as [|a l IH]; [reflexivity|].
  simpl. destruct (p a); simpl; rewrite IH; reflexivity.
Qed.

Lemma filter_true (A : Type) (l : list A) : filter (fun _ => true) l = l.
Proof. induction l as [|a l IH]; simpl; [|rewrite IH]; reflexivity. Qed.

Lemma run_stages_filter stages : forall l r,
  run_stages stages l = Ok r -> r = filter (accepts stages) l.
Proof.
  induction stages as [|[p|] rest IH]; simpl; intros l r H.
  - inversion H; subst. symmetry. apply filter_true.
  - apply bind_ok in H. destruct H as [kept [Hk Hr]].
    apply comprehension_if_ok_true in Hk. subst kept.
    rewrite (IH _ _ Hr). apply filter_filter.
  - exact (IH _ _ H).
Qed.

(** X3: when [apply] returns, it returns exactly the bounties of the input
    that pass every criterion that is set, in the order of the input: the
    criteria are combined by AND, and nothing is reordered, duplicated or
    added. *)
Theorem apply_keeps_accepted (L : stdlib) (f : BountyFilter.t)
        (bs out : list Bounty.t) :
  BountyFilter.apply L f bs = Ok out ->
  out = filter (accepts (stages_of L f)) bs.
Proof. rewrite apply_stages. apply run_stages_filter. Qed.

Lemma apply_keeps_accepted_witness :
  [samples.first; samples.third]
  = filter (accepts (stages_of sample_host.host
                       (builder.with_tags (builder.with_status BountyFilter.new [OPEN])
                          ["python"])))
           samples.board.
Proof.
  apply (@apply_keeps_accepted sample_host.host
           (builder.with_tags (builder.with_status BountyFilter.new [OPEN]) ["python"])
           samples.board [samples.first; samples.third]).
  vm_compute. reflexivity.
Defined.

(** X4: [filter_open] never raises and returns the bounties whose status is
    [open], in the order of the input. *)
Theorem filter_open_keeps_open (L : stdlib) (bs : list Bounty.t) :
  filter_open L bs = Ok (filter Bounty.is_open bs).
Proof.
  unfold filter_open. rewrite apply_stages.
  unfold stages_of, builder.with_status, BountyFilter.new. cbn -[comprehension_if].
  rewrite (@comprehension_if_filter _ _ Bounty.is_open); [reflexivity|].
  intros b _. unfold BountyFilter.status_stage, Bounty.is_open. cbn.
  rewrite orb_false_r. reflexivity.
Qed.

Lemma strings_of_iterate (l : list json) (ts : list string) :
  strings_of l = Some ts -> l = map JStr ts.
Proof.
  revert ts. induction l as [|x l IH]; simpl; intros ts H.
  - inversion H; reflexivity.
  - destruct x; try discriminate.
    destruct (strings_of l) as [r|]; [|discriminate].
    inversion H; subst. simpl. rewrite (IH r eq_refl). reflexivity.
Qed.

Lemma tags_are_strings (b : Bounty.t) :
  has_string_tags b = true -> Bounty.tags b = JList (map JStr (tag_list b)).
Proof.
  unfold has_string_tags, tag_list, tag_strings.
  destruct (Bounty.tags b); try discriminate.
  destruct (strings_of l) eqn:E; [|discriminate].
  intros _. rewrite (strings_of_iterate _ E). reflexivity.
Qed.

Lemma in_lowered_strings (L : stdlib) (x : string) (ts : list string) :
  BountyFilter.in_lowered L x (map JStr ts)
  = Ok (existsb (String.eqb x) (map (str_lower L) ts)).
Proof.
  induction ts as [|t ts IH]; [reflexivity|].
  simpl. destruct (String.eqb x (str_lower L t)); [reflexivity | exact IH].
Qed.

Lemma has_all_tags_strings (L : stdlib) (wanted : list string) (b : Bounty.t) :
  has_string_tags b = true ->
  BountyFilter.has_all_tags L wanted b = Ok (forallb (has_tag L b) wanted).
Proof.
  intros H. pose proof (tags_are_strings b H) as Ht.
  induction wanted as [|t wanted IH]; [reflexivity|].
  cbn [BountyFilter.has_all_tags forallb]. rewrite Ht. cbn [iterate bind].
  rewrite in_lowered_strings. cbn [bind]. unfold has_tag at 1.
  destruct (existsb _ _); [exact IH | reflexivity].
Qed.

(** X5: on bounties whose tags are lists of strings, [filter_by_tags] never
    raises and keeps the bounties that carry every requested tag, letter case
    apart, in input order; with no tag requested it returns the input. *)
Theorem filter_by_tags_keeps_all (L : stdlib) (bs : list Bounty.t)
        (tags : list string) :
  forallb has_string_tags bs = true ->
  filter_by_tags L bs tags = Ok (filter (fun b => forallb (has_tag L b) tags) bs).
Proof.
  intros H. unfold filter_by_tags. rewrite apply_stages.
  unfold stages_of, builder.with_tags, BountyFilter.new.
  cbn -[comprehension_if BountyFilter.has_all_tags forallb].
  destruct tags as [|t tags]; cbn -[comprehension_if BountyFilter.has_all_tags forallb].
  - cbn [forallb]. rewrite filter_true. reflexivity.
  - rewrite (@comprehension_if_filter _ _
               (fun b => forallb (has_tag L b) (t :: tags))); [reflexivity|].
    intros b Hb. apply has_all_tags_strings.
    exact (proj1 (forallb_forall _ _) H b Hb).
Qed.

Lemma filter_by_tags_keeps_all_witness :
  filter_by_tags sample_host.host samples.board ["PYTHON"]
  = Ok (filter (fun b => forallb (has_tag sample_host.host b) ["PYTHON"]) samples.board).
Proof. apply (@filter_by_tags_keeps_all sample_host.host samples.board ["PYTHON"]). reflexivity. Defined.

Lemma comprehension_lower (L : stdlib) (ts : list string) :
  comprehension (lower L) (map JStr ts) = Ok (map (str_lower L) ts).
Proof.
  induction ts as [|t ts IH]; [reflexivity|].
  simpl. rewrite IH. reflexivity.
Qed.

Lemma any_tag_filter_strings (L : stdlib) (tags : list string) (b : Bounty.t) :
  has_string_tags b = true ->
  builder.any_tag_filter L (map (str_lower L) tags) b
  = Ok (existsb (has_tag L b) tags).
Proof.
  intros H. unfold builder.any_tag_filter.
  rewrite (tags_are_strings b H). cbn [iterate bind].
  rewrite comprehension_lower. cbn [bind]. f_equal.
  induction tags as [|t tags IH]; [reflexivity|].
  simpl. rewrite IH. reflexivity.
Qed.

(** X6: on bounties whose tags are lists of strings, a filter built by
    [with_any_tags] alone keeps the bounties that carry at least one of the
    tags, letter case apart, in input order. *)
Theorem with_any_tags_keeps_any (L : stdlib) (bs : list Bounty.t)
        (tags : list string) :
  forallb has_string_tags bs = true ->
  BountyFilter.apply L (builder.with_any_tags L BountyFilter.new tags) bs
  = Ok (filter (fun b => existsb (has_tag L b) tags) bs).
Proof.
  intros H. rewrite apply_stages.
  unfold stages_of, builder.with_any_tags, BountyFilter.new.
  cbn -[comprehension_if builder.any_tag_filter].
  rewrite (@comprehension_if_filter _ _
             (fun b => existsb (has_tag L b) tags)); [reflexivity|].
  intros b Hb. apply any_tag_filter_strings.
  exact (proj1 (forallb_forall _ _) H b Hb).
Qed.

Lemma with_any_tags_keeps_any_witness :
  BountyFilter.apply sample_host.host
    (builder.with_any_tags sample_host.host BountyFilter.new ["Design"; "rust"])
    samples.board
  = Ok (filter (fun b => existsb (has_tag sample_host.host b) ["Design"; "rust"])
          samples.board).
Proof.
  apply (@with_any_tags_keeps_any sample_host.host samples.board ["Design"; "rust"]).
  reflexivity.
Defined.

Lemma any_tag_filter_none (L : stdlib) (b : Bounty.t) :
  builder.any_tag_filter L [] b <> Ok true.
Proof.
  unfold builder.any_tag_filter.
  destruct (iterate (Bounty.tags b)) as [items|e]; simpl; [|discriminate].
  destruct (comprehension (lower L) items); simpl; discriminate.
Qed.

(** X7: [with_any_tags] called without a tag keeps nothing: whatever the
    other criteria and the bounties are, [apply] returns the empty list when
    it returns. *)
Theorem with_any_tags_none_keeps_nothing (L : stdlib) (f : BountyFilter.t)
        (bs out : list Bounty.t) :
  BountyFilter.apply L (builder.with_any_tags L f []) bs = Ok out -> out = [].
Proof.
  rewrite apply_stages. intros H.
  destruct (run_stages_kept _ _ H) as [Hp _].
  destruct out as [|b out]; [reflexivity|]. exfalso.
  apply (@any_tag_filter_none L b).
  apply (Hp (builder.any_tag_filter L [])); [|simpl; auto].
  unfold stages_of, builder.with_any_tags. cbn [BountyFilter.custom_filter map].
  do 7 right. left. reflexivity.
Qed.

Lemma with_any_tags_none_keeps_nothing_witness :
  BountyFilter.apply sample_host.host
    (builder.with_any_tags sample_host.host BountyFilter.new []) samples.board = Ok []
  /\ @nil Bounty.t = [].
Proof.
  split; [vm_compute; reflexivity|].
  apply (@with_any_tags_none_keeps_nothing sample_host.host BountyFilter.new
           samples.board []).
  vm_compute. reflexivity.
Defined.

(** X8: on bounties whose title and description are strings,
    [search_bounties] never raises; a query whose lower-cased form is empty
    returns the input, any other query keeps the bounties whose lower-cased
    title or description contains the lower-cased query, in input order. *)
Theorem search_bounties_keeps_matches (L : stdlib) (bs : list Bounty.t)
        (query : string) :
  forallb has_text bs = true ->
  search_bounties L bs query
  = Ok (if String.eqb (str_lower L query) "" then bs
        else filter (mentions L (str_lower L query)) bs).
Proof.
  intros H. unfold search_bounties. rewrite apply_stages.
  unfold stages_of, builder.search, BountyFilter.new.
  cbn [BountyFilter.statuses BountyFilter.tags BountyFilter.min_reward
       BountyFilter.max_reward BountyFilter.creator BountyFilter.claimed_by
       BountyFilter.search_query BountyFilter.custom_filter
       BountyFilter.nonempty option_map].
  change (String.eqb "" "") with true. cbv iota. cbn [option_map run_stages].
  destruct (String.eqb (str_lower L query) ""); cbn [option_map run_stages];
    [reflexivity|].
  rewrite (@comprehension_if_filter _ _ (mentions L (str_lower L query)));
    [reflexivity|].
  intros b Hb. pose proof (proj1 (forallb_forall _ _) H b Hb) as Ht.
  unfold has_text in Ht. unfold BountyFilter.search_stage, mentions.
  destruct (Bounty.title b); try discriminate.
  destruct (Bounty.description b); try discriminate.
  cbn [lower bind text_of].
  destruct (str_contains _ _); reflexivity.
Qed.

Lemma search_bounties_keeps_matches_witness :
  search_bounties sample_host.host samples.board "SIMULATION"
  = Ok (if String.eqb (str_lower sample_host.host "SIMULATION") "" then samples.board
        else filter (mentions sample_host.host (str_lower sample_host.host "SIMULATION"))
               samples.board).
Proof.
  apply (@search_bounties_keeps_matches sample_host.host samples.board "SIMULATION").
  reflexivity.
Defined.

Lemma micro_to_usdc_form (x : Z) (d : Decimal) :
  Z.abs x < 10 ^ 28 -> micro_to_usdc x = Ok d ->
  exists c e, d = Finite (x <? 0) c e /\ -6 <= e <= 0
              /\ (if x <? 0 then - c else c) * 10 ^ (e + 6) = x.
Proof.
  intros Hx Hd. unfold micro_to_usdc in Hd.
  destruct (Z.eq_dec x 0) as [->|Hnz].
  - cbn in Hd. inversion Hd; subst. exists 0, 0. repeat split; try lia.
  - assert (Ha : 0 < Z.abs x < 10 ^ 28) by lia.
    destruct (@truediv_million (x <? 0) (Z.abs x) Ha) as [c [j [Hj [Hc [Hcj Hdiv]]]]].
    unfold of_int at 1 in Hd. rewrite Hdiv in Hd. inversion Hd; subst d; clear Hd.
    exists c, (j - 6). split; [reflexivity|]. split; [lia|].
    replace (j - 6 + 6) with j by lia.
    pose proof (sign_abs x) as Hs. rewrite <- Hcj in Hs.
    destruct (x <? 0); lia.
Qed.

Lemma quotients_compare (r m : Z) (dr dm : Decimal) :
  Z.abs r < 10 ^ 28 -> Z.abs m < 10 ^ 28 ->
  micro_to_usdc r = Ok dr -> micro_to_usdc m = Ok dm ->
  is_nan dr = false /\ is_nan dm = false /\ _cmp dr dm = (r ?= m).
Proof.
  intros Hr Hm Hdr Hdm.
  destruct (@micro_to_usdc_form r dr Hr Hdr) as [c1 [e1 [-> [He1 H1]]]].
  destruct (@micro_to_usdc_form m dm Hm Hdm) as [c2 [e2 [-> [He2 H2]]]].
  split; [reflexivity|]. split; [reflexivity|].
  cbn [_cmp]. unfold scaled.
  set (e0 := Z.min e1 e2).
  assert (He0 : -6 <= e0 <= e1 /\ e0 <= e2) by (unfold e0; lia).
  assert (Hp : 10 ^ (e0 + 6) > 0)
    by (apply Z.lt_gt, Z.pow_pos_nonneg; lia).
  rewrite (Zmult_compare_compat_r _ _ _ Hp).
  rewrite <- !Z.mul_assoc, <- !Z.pow_add_r by lia.
  replace (e1 - e0 + (e0 + 6)) with (e1 + 6) by lia.
  replace (e2 - e0 + (e0 + 6)) with (e2 + 6) by lia.
  rewrite H1, H2. reflexivity.
Qed.

Lemma reward_usdc_quotient (L : stdlib) (b : Bounty.t) :
  has_int_reward b = true ->
  Bounty.reward_usdc L b = micro_to_usdc (reward_int b).
Proof.
  unfold has_int_reward, reward_int, Bounty.reward_usdc, micro_to_usdc, int_key.
  destruct (Bounty.reward b); try discriminate; intros _; reflexivity.
Qed.

Lemma exact_reward_quotient (L : stdlib) (b : Bounty.t) :
  has_exact_reward b = true ->
  Z.abs (reward_int b) < 10 ^ 28
  /\ exists d, Bounty.reward_usdc L b = Ok d /\ micro_to_usdc (reward_int b) = Ok d.
Proof.
  intros H.
  assert (Hi : has_int_reward b = true).
  { unfold has_exact_reward in H. unfold has_int_reward.
    destruct (int_key _); [reflexivity | discriminate]. }
  assert (Hb : Z.abs (reward_int b) < 10 ^ 28).
  { unfold has_exact_reward in H. unfold reward_int.
    destruct (int_key _); [apply Z.ltb_lt; exact H | discriminate]. }
  split; [exact Hb|]. rewrite (@reward_usdc_quotient L b Hi).
  destruct (@micro_exact (reward_int b) Hb) as [d [q [Hd _]]].
  exists d. split; exact Hd.
Qed.

(** X9: reward bounds act on the micro-USDC amounts.  For bounds
    [micro_to_usdc(m)] and [micro_to_usdc(M)] and bounties whose rewards are
    integers, all below 10^28 in magnitude, the filter built by
    [with_reward_range] never raises and keeps the bounties whose reward [r]
    satisfies [m <= r <= M], both bounds included, in input order. *)
Theorem reward_range_keeps_micro_range (L : stdlib) (bs : list Bounty.t)
        (m M : Z) (dmin dmax : Decimal) :
  Z.abs m < 10 ^ 28 -> Z.abs M < 10 ^ 28 ->
  micro_to_usdc m = Ok dmin -> micro_to_usdc M = Ok dmax ->
  forallb has_exact_reward bs = true ->
  BountyFilter.apply L (builder.with_reward_range BountyFilter.new dmin dmax) bs
  = Ok (filter (fun b => (m <=? reward_int b) && (reward_int b <=? M)) bs).
Proof.
  intros Hm HM Hdm HdM Hbs. rewrite apply_stages.
  unfold stages_of, builder.with_reward_range, BountyFilter.new.
  cbn -[comprehension_if BountyFilter.min_reward_stage BountyFilter.max_reward_stage].
  rewrite (@comprehension_if_filter _ _ (fun b => m <=? reward_int b)).
  - cbn [bind].
    rewrite (@comprehension_if_filter _ _ (fun b => reward_int b <=? M)).
    + cbn [bind]. rewrite filter_filter. reflexivity.
    + intros b Hb. apply filter_In in Hb. destruct Hb as [Hb _].
      pose proof (proj1 (forallb_forall _ _) Hbs b Hb) as He.
      destruct (@exact_reward_quotient L b He) as [Hr [d [Hd Hq]]].
      unfold BountyFilter.max_reward_stage. rewrite Hd. cbn [bind].
      destruct (@quotients_compare (reward_int b) M d dmax Hr HM Hq HdM) as [N1 [N2 Hc]].
      unfold le. rewrite N1, N2, Hc. cbn [orb]. unfold Z.leb.
      destruct (reward_int b ?= M); reflexivity.
  - intros b Hb.
    pose proof (proj1 (forallb_forall _ _) Hbs b Hb) as He.
    destruct (@exact_reward_quotient L b He) as [Hr [d [Hd Hq]]].
    unfold BountyFilter.min_reward_stage. rewrite Hd. cbn [bind].
    destruct (@quotients_compare (reward_int b) m d dmin Hr Hm Hq Hdm) as [N1 [N2 Hc]].
    unfold ge. rewrite N1, N2, Hc. cbn [orb]. unfold Z.leb.
    rewrite (Z.compare_antisym (reward_int b) m).
    destruct (reward_int b ?= m); reflexivity.
Qed.

Lemma reward_range_keeps_micro_range_witness :
  BountyFilter.apply sample_host.host
    (builder.with_reward_range BountyFilter.new (Finite false 6 0) (Finite false 7 0))
    samples.board
  = Ok (filter (fun b => (6000000 <=? reward_int b) && (reward_int b <=? 7000000))
          samples.board).
Proof.
  apply (@reward_range_keeps_micro_range sample_host.host samples.board
           6000000 7000000 (Finite false 6 0) (Finite false 7 0));
    vm_compute; reflexivity.
Defined.

(** ** Amounts *)

(** X10: [usdc_to_micro] drops what is below one micro-USDC, towards zero: the
    amount [+-c * 10^e] with at most 22 digits becomes
    [+-(c * 10^6 / 10^-e)], the quotient being the integer part. *)
Theorem usdc_to_micro_truncates (s : bool) (c e : Z) :
  0 <= c < 10 ^ 22 -> Etiny <= e <= 0 ->
  usdc_to_micro (Finite s c e)
  = Ok (if s then - (c * 1000000 / 10 ^ (- e)) else c * 1000000 / 10 ^ (- e)).
Proof.
  intros Hc He. unfold Etiny, Emin, prec in He.
  unfold usdc_to_micro, mul, of_int.
  cbn [_check_nans Z.ltb Z.abs Z.compare]. rewrite xorb_false_r, Z.add_0_r.
  destruct (Z.eq_dec c 0) as [->|Hnz].
  - cbn [Z.mul _fix Z.eqb]. unfold Etiny, Emin, Emax, prec.
    rewrite Z.max_l, Z.min_l by lia. cbn [bind to_int].
    destruct (Z.leb_spec 0 e); rewrite ?Z.mul_0_l, ?Z.div_0_l;
      try reflexivity;
      assert (0 < 10 ^ (- e)) by (apply Z.pow_pos_nonneg; lia); lia.
  - assert (Hpos : 0 < c) by lia.
    assert (HL : ndigits c <= 22) by (apply ndigits_bound; lia).
    pose proof (@ndigits_shift c 6 Hpos ltac:(lia)) as Hs.
    change (10 ^ 6) with 1000000 in Hs.
    unfold _fix. destruct (Z.eqb_spec (c * 1000000) 0) as [?|_]; [lia|].
    rewrite Hs. unfold Etop, Etiny, Emax, Emin, prec.
    destruct (Z.ltb_spec (999999 - 28 + 1) (ndigits c + 6 + e - 28)) as [?|_]; [lia|].
    destruct (Z.ltb_spec e (Z.max (ndigits c + 6 + e - 28) (-999999 - 28 + 1)))
      as [?|_]; [lia|].
    cbn [bind to_int].
    destruct (Z.leb_spec 0 e) as [Hz|Hneg]; [|reflexivity].
    replace e with 0 by lia. cbn [Z.opp Z.pow Z.pow_pos Pos.iter].
    rewrite Z.mul_1_r, Z.div_1_r. reflexivity.
Qed.

Lemma usdc_to_micro_truncates_witness :
  usdc_to_micro (Finite true 19 (-7)) = Ok (- (19 * 1000000 / 10 ^ (- (-7)))).
Proof.
  apply (@usdc_to_micro_truncates true 19 (-7)); split; vm_compute; congruence.
Defined.

Lemma reward_param (m : Z) (d : Decimal) (params : list (string * json))
      (key : string) :
  Z.abs m < 10 ^ 28 -> micro_to_usdc m = Ok d ->
  (if builder.Decimal_truthy d
   then v <- builder.micro_param d ;; Ok (builder.set_param params key v)
   else Ok params)
  = Ok (if m =? 0 then params else builder.set_param params key (JInt m)).
Proof.
  intros Hm Hd. unfold micro_to_usdc in Hd.
  destruct (Z.eq_dec m 0) as [->|Hnz].
  - cbn in Hd. inversion Hd; subst. reflexivity.
  - assert (Ha : 0 < Z.abs m < 10 ^ 28) by lia.
    destruct (@truediv_million (m <? 0) (Z.abs m) Ha) as [c [j [Hj [Hc [Hcj Hdiv]]]]].
    unfold of_int at 1 in Hd. rewrite Hdiv in Hd. inversion Hd; subst d; clear Hd.
    cbn [builder.Decimal_truthy].
    destruct (Z.eqb_spec c 0) as [?|_]; [lia|]. cbn [negb].
    destruct (Z.eqb_spec m 0) as [?|_]; [contradiction|].
    unfold builder.micro_param, mul, of_int.
    cbn [_check_nans Z.ltb Z.abs Z.compare]. rewrite xorb_false_r.
    replace (c * 1000000) with (Z.abs m * 10 ^ (6 - j)).
    2:{ rewrite <- Hcj, <- Z.mul_assoc, <- Z.pow_add_r by lia.
        replace (j + (6 - j)) with 6 by lia. reflexivity. }
    replace (j - 6 + 0) with (- (6 - j)) by lia.
    destruct (@fix_trailing_zeros (m <? 0) (Z.abs m) (6 - j) Ha ltac:(lia))
      as [e [He Hfix]].
    rewrite Hfix. cbn [bind]. rewrite to_int_scaled by exact He.
    rewrite sign_abs. reflexivity.
Qed.

(** X11: the reward bounds of a filter reach the query parameters as the
    micro-USDC integers they came from: for bounds [micro_to_usdc(m)] and
    [micro_to_usdc(M)], with [m] and [M] below 10^28 in magnitude,
    [to_query_params] yields [minReward = m] and [maxReward = M], in that
    order, and leaves out a bound that is zero. *)
Theorem query_params_reward_range (m M : Z) (dmin dmax : Decimal) :
  Z.abs m < 10 ^ 28 -> Z.abs M < 10 ^ 28 ->
  micro_to_usdc m = Ok dmin -> micro_to_usdc M = Ok dmax ->
  builder.to_query_params
    (builder.with_reward_range BountyFilter.new dmin dmax)
  = Ok ((if m =? 0 then [] else [("minReward", JInt m)])
        ++ (if M =? 0 then [] else [("maxReward", JInt M)]))%list.
Proof.
  intros Hm HM Hdm HdM.
  unfold builder.to_query_params, builder.with_reward_range, BountyFilter.new.
  cbn [BountyFilter.statuses BountyFilter.tags BountyFilter.min_reward
       BountyFilter.max_reward BountyFilter.creator BountyFilter.search_query
       BountyFilter.nonempty].
  rewrite (@reward_param m dmin [] "minReward" Hm Hdm). cbn [bind].
  rewrite (@reward_param M dmax _ "maxReward" HM HdM). cbn [bind].
  unfold builder.set_param.
  destruct (m =? 0), (M =? 0); reflexivity.
Qed.

Lemma query_params_reward_range_witness :
  builder.to_query_params
    (builder.with_reward_range BountyFilter.new (Finite false 105 (-1)) (Finite false 0 0))
  = Ok ((if 10500000 =? 0 then [] else [("minReward", JInt 10500000)])
        ++ (if 0 =? 0 then [] else [("maxReward", JInt 0)]))%list.
Proof.
  apply (@query_params_reward_range 10500000 0 (Finite false 105 (-1)) (Finite false 0 0)); vm_compute; reflexivity.
Defined.

(** ** Grouping *)

Lemma extended_twice (V : Type) (o : option (list V)) (l1 l2 : list V) :
  extended (extended o l1) l2 = extended o (l1 ++ l2).
Proof.
  destruct o as [l|]; simpl.
  - rewrite app_assoc. reflexivity.
  - destruct l1; [reflexivity|]. simpl. reflexivity.
Qed.

Lemma extended_nil (V : Type) (o : option (list V)) : extended o [] = o.
Proof. destruct o; simpl; [rewrite app_nil_r|]; reflexivity. Qed.

Lemma lookup_dict_append (V : Type) (d : list (string * list V)) (key k : string)
      (v : V) :
  groups_lookup (dict_append d key v) k
  = extended (groups_lookup d k) (if String.eqb key k then [v] else []).
Proof.
  induction d as [|[k0 l] d IH]; simpl.
  - destruct (String.eqb key k); reflexivity.
  - destruct (String.eqb_spec k0 key) as [->|Hne]; simpl.
    + destruct (String.eqb key k); [|rewrite extended_nil]; reflexivity.
    + destruct (String.eqb_spec k0 k) as [->|Hk]; [|exact IH].
      destruct (String.eqb_spec key k) as [->|_]; [contradiction|].
      simpl. rewrite app_nil_r. reflexivity.
Qed.

Lemma keys_dict_append (V : Type) (d : list (string * list V)) (key : string)
      (v : V) (k : string) :
  In k (map fst (dict_append d key v)) <-> k = key \/ In k (map fst d).
Proof.
  induction d as [|[k0 l] d IH]; simpl.
  - intuition.
  - destruct (String.eqb_spec k0 key) as [->|Hne]; simpl; intuition.
Qed.

Lemma nodup_dict_append (V : Type) (d : list (string * list V)) (key : string)
      (v : V) :
  NoDup (map fst d) -> NoDup (map fst (dict_append d key v)).
Proof.
  induction d as [|[k0 l] d IH]; simpl; intros H.
  - constructor; [intros [] | constructor].
  - inversion H as [|? ? Hnin Hd]; subst.
    destruct (String.eqb_spec k0 key) as [->|Hne]; simpl.
    + constructor; assumption.
    + constructor; [|auto].
      intros Hin. apply keys_dict_append in Hin.
      destruct Hin as [->|Hin]; [congruence | contradiction].
Qed.

Lemma group_by_status_from (bs : list Bounty.t) :
  forall (d : list (string * list Bounty.t)) (s : BountyStatus),
  groups_lookup
    (fold_left (fun groups bounty =>
                  dict_append groups (BountyStatus_value (Bounty.status bounty)) bounty)
               bs d) (BountyStatus_value s)
  = extended (groups_lookup d (BountyStatus_value s)) (filter (status_is s) bs).
Proof.
  induction bs as [|b bs IH]; intros d s.
  - simpl. rewrite extended_nil. reflexivity.
  - cbn [fold_left filter]. rewrite IH, lookup_dict_append, extended_twice.
    change (status_is s b)
      with (String.eqb (BountyStatus_value (Bounty.status b)) (BountyStatus_value s)).
    destruct (String.eqb _ _); reflexivity.
Qed.

Lemma group_by_status_keys (bs : list Bounty.t) :
  forall d : list (string * list Bounty.t),
  NoDup (map fst d) ->
  let out := fold_left (fun groups bounty =>
                  dict_append groups (BountyStatus_value (Bounty.status bounty)) bounty)
               bs d in
  NoDup (map fst out)
  /\ forall k, In k (map fst out) ->
               In k (map fst d)
               \/ exists b, In b bs /\ k = BountyStatus_value (Bounty.status b).
Proof.
  induction bs as [|b bs IH]; intros d Hd; simpl.
  - auto.
  - destruct (IH _ (nodup_dict_append _ (BountyStatus_value (Bounty.status b)) b Hd))
      as [Hn Hk].
    split; [exact Hn|]. intros k Hin.
    destruct (Hk k Hin) as [H|[b' [Hb' ->]]].
    + apply keys_dict_append in H. destruct H as [->|H]; [right; eauto | auto].
    + right; eauto.
Qed.

(** X12: [group_by_status] returns one bucket for each status that occurs and
    none for the others: the keys are distinct, each is the value of the
    status of some bounty of the input, and the bucket of a status is the
    list of the bounties with that status, in input order. *)
Theorem group_by_status_buckets (bs : list Bounty.t) :
  NoDup (map fst (group_by_status bs))
  /\ (forall k, In k (map fst (group_by_status bs)) ->
                exists b, In b bs /\ k = BountyStatus_value (Bounty.status b))
  /\ forall s, groups_lookup (group_by_status bs) (BountyStatus_value s)
               = match filter (status_is s) bs with
                 | [] => None
                 | l => Some l
                 end.
Proof.
  unfold group_by_status.
  destruct (@group_by_status_keys bs [] (NoDup_nil _)) as [Hn Hk].
  split; [exact Hn|]. split.
  - intros k Hin. destruct (Hk k Hin) as [[]|H]; exact H.
  - intros s. rewrite group_by_status_from. simpl.
    destruct (filter (status_is s) bs); reflexivity.
Qed.

Lemma add_under_tags_strings (L : stdlib) (b : Bounty.t) (ts : list string) :
  forall d : list (string * list Bounty.t),
  exists d',
    add_under_tags L d b (map JStr ts) = Ok d'
    /\ forall k, groups_lookup d' k
                 = extended (groups_lookup d k)
                     (map (fun _ => b)
                        (filter (fun t => String.eqb (str_lower L t) k) ts)).
Proof.
  induction ts as [|t ts IH]; intros d.
  - exists d. split; [reflexivity|]. intros k. simpl.
    rewrite extended_nil. reflexivity.
  - cbn [map add_under_tags lower bind].
    destruct (IH (dict_append d (str_lower L t) b)) as [d' [Hd' Hk]].
    exists d'. split; [exact Hd'|]. intros k.
    rewrite Hk, lookup_dict_append, extended_twice. cbn [filter].
    destruct (String.eqb (str_lower L t) k); reflexivity.
Qed.

Lemma group_by_tag_strings (L : stdlib) (bs : list Bounty.t) :
  forallb has_string_tags bs = true ->
  forall d : list (string * list Bounty.t),
  exists d',
    group_by_tag_from L d bs = Ok d'
    /\ forall k, groups_lookup d' k
                 = extended (groups_lookup d k) (flat_map (tag_copies L k) bs).
Proof.
  induction bs as [|b bs IH]; intros H d.
  - exists d. split; [reflexivity|]. intros k. simpl.
    rewrite extended_nil. reflexivity.
  - cbn [forallb] in H. apply andb_prop in H. destruct H as [Hb Hbs].
    cbn [group_by_tag_from]. rewrite (tags_are_strings b Hb). cbn [iterate bind].
    destruct (add_under_tags_strings L b (tag_list b) d) as [d1 [Hd1 Hk1]].
    rewrite Hd1. cbn [bind].
    destruct (IH Hbs d1) as [d' [Hd' Hk]].
    exists d'. split; [exact Hd'|]. intros k.
    rewrite Hk, Hk1, extended_twice. reflexivity.
Qed.

(** X13: on bounties whose tags are lists of strings, [group_by_tag] returns,
    and the bucket of a lower-cased tag lists, in input order, each bounty
    once for each of its tags that equals the key, letter case apart: a
    bounty appears in the bucket of each of its tags, and twice in a bucket
    when it repeats the tag; a key no bounty carries has no bucket. *)
Theorem group_by_tag_buckets (L : stdlib) (bs : list Bounty.t) :
  forallb has_string_tags bs = true ->
  exists groups,
    group_by_tag L bs = Ok groups
    /\ forall k, groups_lookup groups k
                 = match flat_map (tag_copies L k) bs with
                   | [] => None
                   | l => Some l
                   end.
Proof.
  intros H. destruct (group_by_tag_strings L bs H []) as [d' [Hd' Hk]].
  exists d'. split; [exact Hd'|]. intros k. rewrite Hk. simpl.
  destruct (flat_map (tag_copies L k) bs); reflexivity.
Qed.

Lemma group_by_tag_buckets_witness :
  exists groups,
    group_by_tag sample_host.host samples.board = Ok groups
    /\ forall k, groups_lookup groups k
                 = match flat_map (tag_copies sample_host.host k) samples.board with
                   | [] => None
                   | l => Some l
                   end.
Proof. apply (@group_by_tag_buckets sample_host.host samples.board). reflexivity. Defined.

(** ** Display *)

Lemma length_substring (s : string) : forall n m,
  String.length (String.substring n m s) = Nat.min m (String.length s - n).
Proof.
  induction s as [|c s IH]; intros n m.
  - destruct n, m; reflexivity.
  - destruct n as [|n].
    + destruct m as [|m]; [reflexivity|]. simpl. rewrite IH.
      rewrite Nat.sub_0_r. reflexivity.
    + simpl. apply IH.
Qed.

(** X14: an address longer than [2 * chars + 2] is replaced by its first
    [chars + 2] characters, three dots and its last [chars] characters, so
    the result has [2 * chars + 5] characters whatever the length of the
    address; with [chars = 0] the part after the dots is the whole address
    ([address[-0:]]), so the result is 5 characters longer than the
    address. *)
Theorem truncate_address_shape (address : string) (chars : Z) :
  0 <= chars -> chars * 2 + 2 < Z.of_nat (String.length address) ->
  let n := String.length address in
  let k := if chars =? 0 then n else Z.to_nat chars in
  truncate_address address chars
  = String.append (String.substring 0 (Z.to_nat (chars + 2)) address)
      (String.append "..." (String.substring (n - k) k address))
  /\ Z.of_nat (String.length (truncate_address address chars))
     = chars + 5 + Z.of_nat k.
Proof.
  intros Hc Hlen n k.
  assert (E : truncate_address address chars
              = String.append (String.substring 0 (Z.to_nat (chars + 2)) address)
                  (String.append "..." (String.substring (n - k) k address))).
  { unfold truncate_address.
    destruct (Z.leb_spec (Z.of_nat (String.length address)) (chars * 2 + 2)) as [?|_];
      [lia|].
    unfold slice_to, slice_from, slice_index. fold n.
    destruct (Z.ltb_spec (chars + 2) 0) as [?|_]; [lia|].
    replace (Nat.min (Z.to_nat (chars + 2)) n) with (Z.to_nat (chars + 2)) by lia.
    subst k. destruct (Z.eqb_spec chars 0) as [->|Hnz].
    - cbn [Z.opp Z.ltb Z.compare Z.to_nat]. rewrite Nat.min_0_l, Nat.sub_0_r, Nat.sub_diag.
      reflexivity.
    - destruct (Z.ltb_spec (- chars) 0) as [_|?]; [|lia].
      replace (Z.to_nat (Z.max (- chars + Z.of_nat n) 0)) with (n - Z.to_nat chars)%nat
        by lia.
      replace (n - (n - Z.to_nat chars))%nat with (Z.to_nat chars) by lia.
      reflexivity. }
  split; [exact E|]. rewrite E, !length_append, !length_substring. fold n.
  cbn [String.length]. subst k.
  destruct (Z.eqb_spec chars 0) as [->|Hnz]; lia.
Qed.

Lemma truncate_address_shape_witness :
  truncate_address samples.address 4 = "0x8335...2913"
  /\ Z.of_nat (String.length (truncate_address samples.address 4)) = 13.
Proof.
  apply (@truncate_address_shape samples.address 4); vm_compute; congruence.
Defined.

(** ** The client *)

(** X15: a response whose status is not 2xx makes [_request] raise an error
    of the [APIError] family that carries the status of the response,
    provided the error payload can be computed (the body is empty or is
    JSON) and the [Retry-After] header is absent, empty or an integer. *)
Theorem failed_status_raises_api_error (L : stdlib) (T : transport)
        (self : client) (method path : string) (body : option json)
        (log : list Request) (r : Response) :
  T log (request_of self method path body) = Responded r ->
  is_success r = false -> body_decodes r = true -> retry_after_valid r = true ->
  exists e,
    fst (BountyBoardClient._request L T self method path body log) = Raise e
    /\ isinstance e "APIError" = true
    /\ status_code e = Some (resp_status_code r).
Proof.
  intros HT Hs Hb Hr.
  unfold BountyBoardClient._request, exchange. rewrite HT. cbn [fst].
  unfold handle_response.
  assert (Hbody : exists o, error_body r = Ok o).
  { unfold body_decodes in Hb. unfold error_body.
    destruct (String.eqb (resp_text r) ""); [eauto|].
    destruct (resp_json r); [simpl; eauto | discriminate]. }
  destruct Hbody as [o Ho].
  destruct (Z.eqb_spec (resp_status_code r) 404) as [E|_].
  { eexists. split; [reflexivity|]. split; [reflexivity | rewrite E; reflexivity]. }
  destruct (Z.eqb_spec (resp_status_code r) 400) as [E|_].
  { rewrite Ho. eexists. split; [reflexivity|].
    split; [reflexivity | rewrite E; reflexivity]. }
  destruct (Z.eqb_spec (resp_status_code r) 401) as [E|_].
  { eexists. split; [reflexivity|]. split; [reflexivity | rewrite E; reflexivity]. }
  destruct (Z.eqb_spec (resp_status_code r) 429) as [E|_].
  { unfold retry_after_valid in Hr.
    destruct (resp_header r "Retry-After") as [v|].
    - destruct (String.eqb v "").
      + eexists. split; [reflexivity|].
        split; [reflexivity | rewrite E; reflexivity].
      + destruct (int_of_str v); [|discriminate].
        eexists. split; [reflexivity|].
        split; [reflexivity | rewrite E; reflexivity].
    - eexists. split; [reflexivity|].
      split; [reflexivity | rewrite E; reflexivity]. }
  destruct (500 <=? resp_status_code r).
  { eexists. split; [reflexivity|]. split; reflexivity. }
  rewrite Hs. cbn [negb]. rewrite Ho.
  eexists. split; [reflexivity|]. split; reflexivity.
Qed.

Lemma failed_status_raises_api_error_witness :
  exists e,
    fst (BountyBoardClient._request sample_host.host (fixtures.answering 418)
           fixtures.a_client "GET" "/stats" None []) = Raise e
    /\ isinstance e "APIError" = true
    /\ status_code e = Some 418.
Proof.
  apply (@failed_status_raises_api_error sample_host.host (fixtures.answering 418)
           fixtures.a_client "GET" "/stats" None [] _ eq_refl); reflexivity.
Defined.

(** X16: a body that is not JSON is reported differently by status.  On a 2xx
    response other than 204 the decoding error is wrapped in an [APIError]
    with the status of the response; on a non-2xx response that has no
    branch of its own, and on 400, the decoding error escapes [_request] as it
    is, and it is not an error of the package. *)
Theorem undecodable_body (L : stdlib) (T : transport) (self : client)
        (method path : string) (body : option json) (log : list Request)
        (r : Response) (e : exn) :
  T log (request_of self method path body) = Responded r ->
  resp_text r <> "" -> resp_json r = Raise e -> exn_type e = C_JSONDecodeError ->
  let raised := fst (BountyBoardClient._request L T self method path body log) in
  (is_success r = true -> resp_status_code r <> 204 ->
   exists e', raised = Raise e' /\ exn_type e' = C_APIError
              /\ status_code e' = Some (resp_status_code r))
  /\ (is_success r = false ->
      resp_status_code r = 400 \/ named_status (resp_status_code r) = false ->
      raised = Raise e /\ isinstance e "OwockibotError" = false).
Proof.
  intros HT Ht Hj He raised. subst raised.
  unfold BountyBoardClient._request, exchange. rewrite HT. cbn [fst].
  assert (Hne : String.eqb (resp_text r) "" = false)
    by (apply String.eqb_neq; exact Ht).
  assert (Hi : isinstance e "OwockibotError" = false)
    by (destruct e as [c ? ? ? ? ?]; simpl in He; subst c; reflexivity).
  assert (Hd : isinstance e "JSONDecodeError" = true)
    by (destruct e as [c ? ? ? ? ?]; simpl in He; subst c; reflexivity).
  unfold handle_response, error_body. rewrite Hne, Hj. split.
  - intros Hs H204. unfold is_success in Hs.
    apply andb_prop in Hs. destruct Hs as [Hlo Hhi].
    apply Z.leb_le in Hlo. apply Z.leb_le in Hhi.
    destruct (Z.eqb_spec (resp_status_code r) 404) as [?|_]; [lia|].
    destruct (Z.eqb_spec (resp_status_code r) 400) as [?|_]; [lia|].
    destruct (Z.eqb_spec (resp_status_code r) 401) as [?|_]; [lia|].
    destruct (Z.eqb_spec (resp_status_code r) 429) as [?|_]; [lia|].
    destruct (Z.leb_spec 500 (resp_status_code r)) as [?|_]; [lia|].
    unfold is_success.
    destruct (Z.leb_spec 200 (resp_status_code r)) as [_|?]; [|lia].
    destruct (Z.leb_spec (resp_status_code r) 299) as [_|?]; [|lia].
    destruct (Z.eqb_spec (resp_status_code r) 204) as [?|_]; [contradiction|].
    cbn [andb negb orb]. rewrite Hd.
    eexists. split; [reflexivity|]. split; reflexivity.
  - intros Hs [E|Hn].
    + rewrite E. cbn. split; [reflexivity | exact Hi].
    + unfold named_status in Hn.
      destruct (resp_status_code r =? 404); [discriminate|].
      destruct (resp_status_code r =? 400); [discriminate|].
      destruct (resp_status_code r =? 401); [discriminate|].
      destruct (resp_status_code r =? 429); [discriminate|].
      destruct (500 <=? resp_status_code r); [discriminate|].
      rewrite Hs. cbn. split; [reflexivity | exact Hi].
Qed.

Lemma undecodable_body_witness :
  fst (BountyBoardClient._request sample_host.host
         (samples.server 400 "<html>Bad Request</html>" None samples.not_json)
         fixtures.a_client "POST" "/bounties/143/claim" None [])
  = Raise (builtin C_JSONDecodeError "Expecting value")
  /\ isinstance (builtin C_JSONDecodeError "Expecting value") "OwockibotError" = false.
Proof.
  apply (proj2 (@undecodable_body sample_host.host
                  (samples.server 400 "<html>Bad Request</html>" None samples.not_json)
                  fixtures.a_client "POST" "/bounties/143/claim" None [] _ _
                  eq_refl ltac:(discriminate) eq_refl eq_refl));
    [reflexivity | left; reflexivity].
Defined.



Lemma io_bind_exchange (A : Type) (L : stdlib) (T : transport) (self : client)
      (method path : string) (body : option json) (f : json -> result A)
      (log : list Request) :
  io_bind (exchange L T self method path body) (fun data => pure (f data)) log
  = (bind (fst (exchange L T self method path body log)) f,
     (log ++ [request_of self method path body])%list).
Proof.
  unfold io_bind, exchange, pure.
  destruct (T log (request_of self method path body)) as [r|m|m|e]; cbn [fst bind];
    try reflexivity.
  destruct (handle_response path r); reflexivity.
Qed.

Lemma lstrip_bounties (s : string) :
  lstrip "/" (String.append "/bounties/" s) = String.append "bounties/" s.
Proof. reflexivity. Qed.

(** X18: every operation of the client issues exactly one request, whatever
    the answer is (no retry, no second request after an error), with the
    method, URL and JSON body given here, and an exception raised by
    [_request] is the exception of the operation.  [submit_work] sends the
    proof only when it is a non-empty string. *)
Theorem operations_send_one_request (L : stdlib) (T : transport) (self : client)
        (bounty_id : string + Z) (wallet_address content : string)
        (proof : option string) (log : list Request) :
  let url := fun path => String.append (base_url self) (String.append "/" path) in
  let sent := fun method path body =>
                (log ++ [mk_Request method (url path) body])%list in
  let surfaces := fun (A : Type) (op : io A) method path body =>
                    match fst (BountyBoardClient._request L T self method path
                                 body log) with
                    | Raise e => fst (op log) = Raise e
                    | Ok _ => True
                    end in
  let id := id_str bounty_id in
  let claim := Some (JDict [("walletAddress", JStr wallet_address)]) in
  let work := Some (JDict ([("walletAddress", JStr wallet_address);
                            ("content", JStr content)]
                           ++ match proof with
                              | Some p => if String.eqb p "" then []
                                          else [("proof", JStr p)]
                              | None => []
                              end)) in
  (snd (operations.list_bounties L T self log) = sent "GET" "bounties" None
   /\ surfaces _ (operations.list_bounties L T self) "GET" "/bounties" None)
  /\ (snd (operations.get_bounty L T self bounty_id log)
      = sent "GET" (String.append "bounties/" id) None
      /\ surfaces _ (operations.get_bounty L T self bounty_id)
           "GET" (String.append "/bounties/" id) None)
  /\ (snd (operations.get_stats L T self log) = sent "GET" "stats" None
      /\ surfaces _ (operations.get_stats L T self) "GET" "/stats" None)
  /\ (snd (operations.get_x402_config L T self log)
      = sent "GET" ".well-known/x402" None
      /\ surfaces _ (operations.get_x402_config L T self)
           "GET" "/.well-known/x402" None)
  /\ (snd (operations.claim_bounty L T self bounty_id wallet_address log)
      = sent "POST" (String.append "bounties/" (String.append id "/claim")) claim
      /\ surfaces _ (operations.claim_bounty L T self bounty_id wallet_address)
           "POST" (String.append "/bounties/" (String.append id "/claim")) claim)
  /\ (snd (operations.submit_work L T self bounty_id wallet_address content
             proof log)
      = sent "POST" (String.append "bounties/" (String.append id "/submit")) work
      /\ surfaces _ (operations.submit_work L T self bounty_id wallet_address
                       content proof)
           "POST" (String.append "/bounties/" (String.append id "/submit")) work).
Proof.
  intros url sent surfaces id claim work.
  assert (Hw : operations.submit_payload wallet_address content proof
               = JDict ([("walletAddress", JStr wallet_address);
                         ("content", JStr content)]
                        ++ match proof with
                           | Some p => if String.eqb p "" then []
                                       else [("proof", JStr p)]
                           | None => []
                           end)).
  { unfold operations.submit_payload, BountyFilter.nonempty.
    destruct proof as [p|]; [destruct (String.eqb p "")|]; reflexivity. }
  subst url sent surfaces id claim work. cbv beta.
  unfold operations.list_bounties, operations.get_bounty, operations.get_stats,
    operations.get_x402_config, operations.claim_bounty, operations.submit_work,
    BountyBoardClient._request.
  rewrite Hw, !io_bind_exchange. cbn [fst snd]. unfold request_of.
  rewrite !lstrip_bounties.
  repeat split;
    match goal with
    | |- match ?r with Ok _ => _ | Raise _ => _ end => destruct r; [exact I | reflexivity]
    end.
Qed.

Lemma empty_body_is_empty_dict (path : string) (r : Response) :
  is_success r = true -> resp_status_code r = 204 \/ resp_text r = "" ->
  handle_response path r = Ok (JDict []).
Proof.
  intros Hs He. unfold handle_response. rewrite Hs.
  unfold is_success in Hs. apply andb_prop in Hs. destruct Hs as [Hlo Hhi].
  apply Z.leb_le in Hlo. apply Z.leb_le in Hhi.
  destruct (Z.eqb_spec (resp_status_code r) 404) as [?|_]; [lia|].
  destruct (Z.eqb_spec (resp_status_code r) 400) as [?|_]; [lia|].
  destruct (Z.eqb_spec (resp_status_code r) 401) as [?|_]; [lia|].
  destruct (Z.eqb_spec (resp_status_code r) 429) as [?|_]; [lia|].
  destruct (Z.leb_spec 500 (resp_status_code r)) as [?|_]; [lia|].
  cbn [negb]. destruct He as [E|E]; rewrite E; [reflexivity|].
  rewrite orb_true_r. reflexivity.
Qed.

(** X19: a 2xx answer without content (status 204, or an empty body) is
    taken for the empty object [{}]: [list_bounties] then returns the empty
    list, and every operation that builds one entity raises the [KeyError]
    of the first key its constructor reads, which is not an error of the
    package. *)
Theorem empty_success_body (L : stdlib) (T : transport) (self : client)
        (bounty_id : string + Z) (wallet_address content : string)
        (proof : option string) (log : list Request) (r : Response) :
  (forall request, T log request = Responded r) ->
  is_success r = true -> resp_status_code r = 204 \/ resp_text r = "" ->
  fst (operations.list_bounties L T self log) = Ok []
  /\ fst (operations.get_bounty L T self bounty_id log) = Raise (KeyError "id")
  /\ fst (operations.get_stats L T self log) = Raise (KeyError "totalBounties")
  /\ fst (operations.get_x402_config L T self log) = Raise (KeyError "version")
  /\ fst (operations.claim_bounty L T self bounty_id wallet_address log)
     = Raise (KeyError "id")
  /\ fst (operations.submit_work L T self bounty_id wallet_address content
            proof log) = Raise (KeyError "id")
  /\ isinstance (KeyError "id") "OwockibotError" = false.
Proof.
  intros HT Hs He.
  unfold operations.list_bounties, operations.get_bounty, operations.get_stats,
    operations.get_x402_config, operations.claim_bounty, operations.submit_work.
  rewrite !io_bind_exchange. cbn [fst]. unfold exchange. rewrite !HT. cbn [fst].
  rewrite !(empty_body_is_empty_dict _ r Hs He).
  repeat split.
Qed.

Lemma empty_success_body_witness :
  fst (operations.list_bounties sample_host.host (fixtures.answering 200)
         fixtures.a_client []) = Ok []
  /\ fst (operations.get_bounty sample_host.host (fixtures.answering 200)
            fixtures.a_client (inr 143) []) = Raise (KeyError "id")
  /\ fst (operations.get_stats sample_host.host (fixtures.answering 200)
            fixtures.a_client []) = Raise (KeyError "totalBounties")
  /\ fst (operations.get_x402_config sample_host.host (fixtures.answering 200)
            fixtures.a_client []) = Raise (KeyError "version")
  /\ fst (operations.claim_bounty sample_host.host (fixtures.answering 200)
            fixtures.a_client (inr 143) "0xabc" []) = Raise (KeyError "id")
  /\ fst (operations.submit_work sample_host.host (fixtures.answering 200)
            fixtures.a_client (inr 143) "0xabc" "done" None []) = Raise (KeyError "id")
  /\ isinstance (KeyError "id") "OwockibotError" = false.
Proof.
  apply (@empty_success_body sample_host.host (fixtures.answering 200) fixtures.a_client
           (inr 143) "0xabc" "done" None [] _ (fun _ => eq_refl)).
  - reflexivity.
  - right. reflexivity.
Defined.

(** ** URLs *)

Lemma append_assoc (a b c : string) :
  String.append (String.append a b) c = String.append a (String.append b c).
Proof. induction a as [|x a IH]; simpl; [|rewrite IH]; reflexivity. Qed.

Lemma str_rev_append (a b : string) :
  str_rev (String.append a b) = String.append (str_rev b) (str_rev a).
Proof.
  induction a as [|x a IH]; simpl.
  - rewrite append_empty. reflexivity.
  - rewrite IH, append_assoc. reflexivity.
Qed.

Lemma str_rev_involutive (s : string) : str_rev (str_rev s) = s.
Proof.
  induction s as [|x s IH]; [reflexivity|].
  simpl. rewrite str_rev_append, IH. reflexivity.
Qed.

Lemma slashes_snoc (n : nat) : String.append (slashes n) "/" = slashes (S n).
Proof. induction n as [|n IH]; simpl; [|simpl in IH; rewrite IH]; reflexivity. Qed.

Lemma str_rev_slashes (n : nat) : str_rev (slashes n) = slashes n.
Proof.
  induction n as [|n IH]; [reflexivity|].
  simpl. rewrite IH. apply slashes_snoc.
Qed.

Lemma lstrip_slashes (n : nat) (s : string) :
  lstrip "/" (String.append (slashes n) s) = lstrip "/" s.
Proof. induction n as [|n IH]; [reflexivity | exact IH]. Qed.

Lemma lstrip_nothing (s : string) : starts_with_slash s = false -> lstrip "/" s = s.
Proof. destruct s as [|c s]; simpl; [reflexivity|]. intros ->. reflexivity. Qed.

Lemma rstrip_slashes (base : string) (n : nat) :
  ends_with_slash base = false ->
  rstrip "/" (String.append base (slashes n)) = base.
Proof.
  intros H. unfold rstrip.
  rewrite str_rev_append, str_rev_slashes, lstrip_slashes.
  rewrite lstrip_nothing by exact H. apply str_rev_involutive.
Qed.

(** X20: the URL of a request joins the base and the path by exactly one
    slash, however many slashes the base URL given to the constructor ends
    with and the path starts with. *)
Theorem url_joined_by_one_slash (base path : string) (n k : nat)
        (timeout : number) (headers : option (list (string * string)))
        (method : string) (body : option json) :
  ends_with_slash base = false -> starts_with_slash path = false ->
  req_url (request_of (operations.init (String.append base (slashes n))
                         timeout headers)
             method (String.append (slashes k) path) body)
  = String.append base (String.append "/" path).
Proof.
  intros Hb Hp. unfold request_of, operations.init. cbn [req_url base_url].
  rewrite rstrip_slashes by exact Hb.
  rewrite lstrip_slashes, lstrip_nothing by exact Hp. reflexivity.
Qed.

Lemma url_joined_by_one_slash_witness :
  req_url (request_of (operations.init
                         (String.append "https://bounty.owockibot.xyz" (slashes 2))
                         (NInt 30) None)
             "GET" (String.append (slashes 3) "stats") None)
  = String.append "https://bounty.owockibot.xyz" (String.append "/" "stats").
Proof.
  apply (@url_joined_by_one_slash "https://bounty.owockibot.xyz" "stats" 2 3
           (NInt 30) None "GET" None); reflexivity.
Defined.

(** ** More on the constructors *)



(** X22: a value that is not an object (a list, a string, a number, [null])
    makes every constructor raise: [AttributeError] where the constructor
    begins with [data.get] (Bounty, Rejection), [TypeError] elsewhere. *)
Theorem non_object_input_raises (L : stdlib) (k : entity) (data : json) :
  is_object data = false ->
  from_dict L k data
  = Raise (if starts_with_get k then AttributeError else TypeError).
Proof.
  intros H. destruct data; try discriminate H; destruct k; reflexivity.
Qed.

Lemma non_object_input_raises_witness :
  from_dict sample_host.host E_Bounty (JStr "id") = Raise AttributeError.
Proof.
  apply (@non_object_input_raises sample_host.host E_Bounty (JStr "id")). reflexivity.
Defined.

Lemma BountyStatus_new_value (x : json) (s : BountyStatus) :
  BountyStatus_new x = Ok s -> x = JStr (BountyStatus_value s).
Proof.
  destruct x; try discriminate. cbn [BountyStatus_new find].
  repeat match goal with
  | |- context [String.eqb (BountyStatus_value ?m) ?t] =>
      destruct (String.eqb_spec (BountyStatus_value m) t) as [<-|_];
      [intros H; inversion H; reflexivity|]
  end.
  discriminate.
Qed.

Lemma get_default_raw_list d key v :
  get_default (JDict d) key (JList []) = Ok v -> v = raw_list d key.
Proof. unfold raw_list. simpl. destruct (dict_lookup d key); intros H; inversion H; reflexivity. Qed.

Lemma get_raw d key v : get (JDict d) key = Ok v -> v = raw d key.
Proof. unfold raw, get. simpl. destruct (dict_lookup d key); intros H; inversion H; reflexivity. Qed.

(** X23: a bounty that [from_dict] returns holds the values of the object as
    they came, without conversion or check of their types: the required
    text and number fields, the optional [claimedBy] and [paymentError]
    ([None] when absent), the [tags] and [requirements] (the empty list when
    absent, [None] when the object says [null]); its status is the member
    whose value is the string under [status]. *)
Theorem bounty_fields_verbatim (L : stdlib) (d : list (string * json))
        (b : Bounty.t) :
  Bounty.from_dict L (JDict d) = Ok b ->
  dict_lookup d "id" = Some (Bounty.id b)
  /\ dict_lookup d "uuid" = Some (Bounty.uuid b)
  /\ dict_lookup d "title" = Some (Bounty.title b)
  /\ dict_lookup d "description" = Some (Bounty.description b)
  /\ dict_lookup d "reward" = Some (Bounty.reward b)
  /\ dict_lookup d "rewardFormatted" = Some (Bounty.reward_formatted b)
  /\ dict_lookup d "creator" = Some (Bounty.creator b)
  /\ dict_lookup d "status" = Some (JStr (BountyStatus_value (Bounty.status b)))
  /\ Bounty.tags b = raw_list d "tags"
  /\ Bounty.requirements b = raw_list d "requirements"
  /\ Bounty.claimed_by b = raw d "claimedBy"
  /\ Bounty.payment_error b = raw d "paymentError".
Proof.
  intros H. unfold Bounty.from_dict in H. peel H.
  inversion H; subst b; clear H. cbn.
  repeat match goal with
  | H : getitem (JDict _) _ = Ok _ |- _ => apply getitem_ok in H
  | H : get_default (JDict _) _ (JList []) = Ok _ |- _ => apply get_default_raw_list in H
  | H : get (JDict _) _ = Ok _ |- _ => apply get_raw in H
  | H : BountyStatus_new _ = Ok _ |- _ => apply BountyStatus_new_value in H
  end.
  subst. repeat split; assumption.
Qed.

Lemma bounty_fields_verbatim_witness :
  dict_lookup fixtures.sample_bounty_data "id" = Some (Bounty.id samples.parsed)
  /\ dict_lookup fixtures.sample_bounty_data "uuid" = Some (Bounty.uuid samples.parsed)
  /\ dict_lookup fixtures.sample_bounty_data "title" = Some (Bounty.title samples.parsed)
  /\ dict_lookup fixtures.sample_bounty_data "description"
     = Some (Bounty.description samples.parsed)
  /\ dict_lookup fixtures.sample_bounty_data "reward" = Some (Bounty.reward samples.parsed)
  /\ dict_lookup fixtures.sample_bounty_data "rewardFormatted"
     = Some (Bounty.reward_formatted samples.parsed)
  /\ dict_lookup fixtures.sample_bounty_data "creator"
     = Some (Bounty.creator samples.parsed)
  /\ dict_lookup fixtures.sample_bounty_data "status"
     = Some (JStr (BountyStatus_value (Bounty.status samples.parsed)))
  /\ Bounty.tags samples.parsed = raw_list fixtures.sample_bounty_data "tags"
  /\ Bounty.requirements samples.parsed
     = raw_list fixtures.sample_bounty_data "requirements"
  /\ Bounty.claimed_by samples.parsed = raw fixtures.sample_bounty_data "claimedBy"
  /\ Bounty.payment_error samples.parsed
     = raw fixtures.sample_bounty_data "paymentError".
Proof.
  apply (@bounty_fields_verbatim sample_host.host fixtures.sample_bounty_data
           samples.parsed).
  vm_compute. reflexivity.
Defined.

Lemma optional_timestamp_set (L : stdlib) d key o :
  Bounty.optional_timestamp L (JDict d) key = Ok o ->
  is_set o = truthy (raw d key).
Proof.
  unfold Bounty.optional_timestamp. intros H. peel H.
  apply get_raw in Hv. subst v.
  destruct (truthy (raw d key)); [|inversion H; reflexivity].
  peel H. inversion H; reflexivity.
Qed.

(** X24: the optional parts of a returned bounty are present exactly when the
    object gives them a truthy value: a [claimedAt], [approvedAt] or
    [completedAt] that is absent, [null], [0] or the empty string, and a
    [pendingPayment] or [payment] that is absent, [null] or the empty object,
    all give [None]. *)
Theorem bounty_optional_parts (L : stdlib) (d : list (string * json))
        (b : Bounty.t) :
  Bounty.from_dict L (JDict d) = Ok b ->
  is_set (Bounty.claimed_at b) = truthy (raw d "claimedAt")
  /\ is_set (Bounty.approved_at b) = truthy (raw d "approvedAt")
  /\ is_set (Bounty.completed_at b) = truthy (raw d "completedAt")
  /\ is_set (Bounty.pending_payment b) = truthy (raw d "pendingPayment")
  /\ is_set (Bounty.payment b) = truthy (raw d "payment").
Proof.
  intros H. unfold Bounty.from_dict in H. peel H.
  inversion H; subst b; clear H. cbn.
  repeat match goal with
  | H : Bounty.optional_timestamp _ _ _ = Ok _ |- _ =>
      apply optional_timestamp_set in H
  | H : get (JDict _) _ = Ok _ |- _ => apply get_raw in H
  end.
  subst.
  repeat match goal with
  | H : (if truthy ?x then _ else _) = Ok ?o |- _ =>
      assert (is_set o = truthy x)
        by (destruct (truthy x); [peel H; inversion H; reflexivity
                                 | inversion H; reflexivity]);
      clear H
  end.
  repeat split; assumption.
Qed.

Lemma bounty_optional_parts_witness :
  is_set (Bounty.claimed_at samples.parsed)
  = truthy (raw fixtures.sample_bounty_data "claimedAt")
  /\ is_set (Bounty.approved_at samples.parsed)
     = truthy (raw fixtures.sample_bounty_data "approvedAt")
  /\ is_set (Bounty.completed_at samples.parsed)
     = truthy (raw fixtures.sample_bounty_data "completedAt")
  /\ is_set (Bounty.pending_payment samples.parsed)
     = truthy (raw fixtures.sample_bounty_data "pendingPayment")
  /\ is_set (Bounty.payment samples.parsed)
     = truthy (raw fixtures.sample_bounty_data "payment").
Proof.
  apply (@bounty_optional_parts sample_host.host fixtures.sample_bounty_data
           samples.parsed).
  vm_compute. reflexivity.
Defined.

(** X25: the list parts of a bounty default to the empty list when their key
    is absent, but an explicit [null] is not taken for an empty list: the
    constructor does not return for an object whose [submissions] or
    [rejections] is [null]. *)
Theorem bounty_list_fields (L : stdlib) (d : list (string * json))
        (b : Bounty.t) :
  Bounty.from_dict L (JDict d) = Ok b ->
  (dict_lookup d "submissions" = None -> Bounty.submissions b = [])
  /\ (dict_lookup d "rejections" = None -> Bounty.rejections b = [])
  /\ dict_lookup d "submissions" <> Some JNull
  /\ dict_lookup d "rejections" <> Some JNull.
Proof.
  intros H. unfold Bounty.from_dict in H. peel H.
  inversion H; subst b; clear H. cbn [Bounty.submissions Bounty.rejections].
  repeat match goal with
  | H : get_default (JDict _) _ (JList []) = Ok _ |- _ => apply get_default_raw_list in H
  end.
  subst. unfold raw_list in *.
  repeat split.
  - intros E. rewrite E in *.
    match goal with
    | Hi : iterate (JList []) = Ok ?items,
      Hc : comprehension (Submission.from_dict L) ?items = Ok ?s |- ?s = [] =>
        inversion Hi; subst; inversion Hc; reflexivity
    end.
  - intros E. rewrite E in *.
    match goal with
    | Hi : iterate (JList []) = Ok ?items,
      Hc : comprehension (Rejection.from_dict L) ?items = Ok ?s |- ?s = [] =>
        inversion Hi; subst; inversion Hc; reflexivity
    end.
  - intros E. rewrite E in *.
    match goal with
    | Hi : iterate JNull = Ok _ |- _ => discriminate Hi
    end.
  - intros E. rewrite E in *.
    match goal with
    | Hi : iterate JNull = Ok _ |- _ => discriminate Hi
    end.
Qed.

Lemma bounty_list_fields_witness :
  (dict_lookup fixtures.sample_bounty_data "submissions" = None ->
   Bounty.submissions samples.parsed = [])
  /\ (dict_lookup fixtures.sample_bounty_data "rejections" = None ->
      Bounty.rejections samples.parsed = [])
  /\ dict_lookup fixtures.sample_bounty_data "submissions" <> Some JNull
  /\ dict_lookup fixtures.sample_bounty_data "rejections" <> Some JNull.
Proof.
  apply (@bounty_list_fields sample_host.host fixtures.sample_bounty_data
           samples.parsed).
  vm_compute. reflexivity.
Defined.

(** X26: the [processedAt] of a payment must be a string: a number, which
    every other timestamp of the model may be, makes [Payment.from_dict]
    raise [AttributeError] once the six keys read before it were found. *)
Theorem payment_processed_at_must_be_text (L : stdlib) (d : list (string * json))
        (v : json) :
  first_missing ["fee"; "chain"; "token"; "netReward"; "grossReward"; "txHash"] d
  = None ->
  dict_lookup d "processedAt" = Some v -> is_text v = false ->
  Payment.from_dict L (JDict d) = Raise AttributeError.
Proof.
  intros Hm Hv Ht. unfold Payment.from_dict, getitem.
  simpl in Hm.
  repeat match type of Hm with
  | context [dict_lookup d ?s] =>
      destruct (dict_lookup d s); simpl in Hm |- *; [|discriminate Hm]
  end.
  rewrite Hv. cbn [bind]. destruct v; try discriminate Ht; reflexivity.
Qed.

Lemma payment_processed_at_must_be_text_witness :
  Payment.from_dict sample_host.host (JDict samples.payment_in_milliseconds)
  = Raise AttributeError.
Proof.
  apply (@payment_processed_at_must_be_text sample_host.host
           samples.payment_in_milliseconds (JInt 1770441207394)); reflexivity.
Defined.

Section ComprehensionAll.
Variables A B : Type.
Variable f : A -> result B.

Lemma comprehension_first_failure (good : list A) (bad : A) (rest : list A) e :
  forallb (fun x => returns (f x)) good = true -> f bad = Raise e ->
  comprehension f (good ++ bad :: rest) = Raise e.
Proof.
  intros Hg Hb. induction good as [|x good IH]; simpl.
  - rewrite Hb. reflexivity.
  - simpl in Hg. apply andb_prop in Hg. destruct Hg as [Hx Hg].
    destruct (f x); [|discriminate Hx]. simpl. rewrite (IH Hg). reflexivity.
Qed.

Lemma comprehension_each (l : list A) : forall r,
  comprehension f l = Ok r -> Forall2 (fun x y => f x = Ok y) l r.
Proof.
  induction l as [|x l IH]; simpl; intros r H.
  - inversion H. constructor.
  - apply bind_ok in H. destruct H as [y [Hy H]].
    apply bind_ok in H. destruct H as [ys [Hys H]].
    inversion H; subst. constructor; [exact Hy | apply IH; exact Hys].
Qed.
End ComprehensionAll.

(** X27: [list_bounties] is all or nothing.  When the answer is a JSON
    list, the result, if there is one, holds the bounty built from each entry
    in the order of the answer; an entry that [Bounty.from_dict] rejects makes
    the whole call raise, with the exception of the first such entry. *)
Theorem list_bounties_all_or_nothing (L : stdlib) (T : transport) (self : client)
        (log : list Request) (r : Response) (items : list json) :
  T log (request_of self "GET" "/bounties" None) = Responded r ->
  handle_response "/bounties" r = Ok (JList items) ->
  (forall bs, fst (operations.list_bounties L T self log) = Ok bs ->
              Forall2 (fun x b => Bounty.from_dict L x = Ok b) items bs)
  /\ (forall good bad rest e,
        items = (good ++ bad :: rest)%list ->
        forallb (fun x => returns (Bounty.from_dict L x)) good = true ->
        Bounty.from_dict L bad = Raise e ->
        fst (operations.list_bounties L T self log) = Raise e).
Proof.
  intros HT Hr. unfold operations.list_bounties.
  rewrite io_bind_exchange. cbn [fst]. unfold exchange. rewrite HT. cbn [fst].
  rewrite Hr. cbn [bind iterate]. split.
  - intros bs H. apply comprehension_each. exact H.
  - intros good bad rest e -> Hg Hb. apply comprehension_first_failure; assumption.
Qed.

Lemma list_bounties_all_or_nothing_witness :
  fst (operations.list_bounties sample_host.host
         (samples.server 200 "[...]" None
            (Ok (JList [JDict fixtures.sample_bounty_data; JStr "143";
                        JDict fixtures.sample_bounty_data])))
         fixtures.a_client []) = Raise AttributeError.
Proof.
  apply (proj2 (@list_bounties_all_or_nothing sample_host.host
                  (samples.server 200 "[...]" None
                     (Ok (JList [JDict fixtures.sample_bounty_data; JStr "143";
                                 JDict fixtures.sample_bounty_data])))
                  fixtures.a_client [] _ _ eq_refl eq_refl)
               [JDict fixtures.sample_bounty_data] (JStr "143")
               [JDict fixtures.sample_bounty_data] AttributeError);
    reflexivity.
Defined.
